(** * Search-panel page objects of the e2e suite: a shallow embedding

    The page objects of [src/pages] drive a browser through an automation
    engine.  The embedding keeps the three layers of the source apart:

    - [Js]: the string primitives the page objects call
      ([toLowerCase], [includes], [trim]);
    - [Engine]: the automation engine boundary (locators, visibility,
      polling waits, clicks) over an explicit page state, with the
      application under test as a parameter;
    - [BasePage], [BaseSearchPage], [AdminUserSearchPage]: the methods of
      the page-object classes, statement by statement.

    Asynchronous methods become state-passing functions in a small
    exception monad; [await] is sequencing. *)

From Stdlib Require Import String Ascii List Bool Arith Lia.
Import ListNotations.
Local Open Scope string_scope.
Local Open Scope nat_scope.

(* ===================================================================== *)
(** ** JavaScript string primitives *)
(* ===================================================================== *)

Module Js.

(** A string is a sequence of code units below 256 (the Latin-1 range),
    one [ascii] per code unit, which is where style declarations and the
    messages of the application live.  On that range [lowerChar] is the
    case mapping of [toLowerCase] and [isSpace] the white space of [trim];
    text with code units from 256 on is outside the model. *)

(** The code units [toLowerCase] changes: A to Z, and the accented
    capitals U+00C0 to U+00DE except the multiplication sign U+00D7. *)
Definition isUpper (c : ascii) : bool :=
  let n := nat_of_ascii c in
  ((65 <=? n) && (n <=? 90)) ||
  ((192 <=? n) && (n <=? 222) && negb (n =? 215)).

Definition lowerChar (c : ascii) : ascii :=
  if isUpper c then ascii_of_nat (nat_of_ascii c + 32) else c.

(** [String.prototype.toLowerCase] *)
Fixpoint toLowerCase (s : string) : string :=
  match s with
  | EmptyString => EmptyString
  | String c r => String (lowerChar c) (toLowerCase r)
  end.

Fixpoint startsWith (needle s : string) : bool :=
  match needle, s with
  | EmptyString, _ => true
  | String _ _, EmptyString => false
  | String a n', String b s' => Ascii.eqb a b && startsWith n' s'
  end.

(** [String.prototype.includes]: the needle occurs at some offset. *)
Fixpoint includes (s needle : string) : bool :=
  startsWith needle s ||
  match s with
  | EmptyString => false
  | String _ r => includes r needle
  end.

(** White space removed by [trim]: TAB, LF, VT, FF, CR, SPACE and the
    no-break space U+00A0. *)
Definition isSpace (c : ascii) : bool :=
  let n := nat_of_ascii c in
  ((9 <=? n) && (n <=? 13)) || (n =? 32) || (n =? 160).

Fixpoint trimStart (s : string) : string :=
  match s with
  | EmptyString => EmptyString
  | String c r => if isSpace c then trimStart r else s
  end.

Fixpoint trimEnd (s : string) : string :=
  match s with
  | EmptyString => EmptyString
  | String c r =>
      match trimEnd r with
      | EmptyString => if isSpace c then EmptyString else String c EmptyString
      | r' => String c r'
      end
  end.

(** [String.prototype.trim] *)
Definition trim (s : string) : string := trimEnd (trimStart s).

(** Truthiness of a string value: only the empty string is falsy.  A
    [null] text is modelled by the empty string, which every use in the
    page objects treats alike ([x || ''], [if (!x)], [x && ...]). *)
Definition truthy (s : string) : bool :=
  match s with EmptyString => false | String _ _ => true end.

Definition isEmpty (s : string) : bool := negb (truthy s).

(** Every character of the string is white space. *)
Fixpoint allSpace (s : string) : bool :=
  match s with
  | EmptyString => true
  | String c r => isSpace c && allSpace r
  end.

(** [String.prototype.endsWith]: the suffix is what is left of the string
    from some offset on. *)
Fixpoint endsWith (s suffix : string) : bool :=
  String.eqb s suffix ||
  match s with
  | EmptyString => false
  | String _ r => endsWith r suffix
  end.

End Js.

(* ===================================================================== *)
(** ** Constants ([src/utils/constants.ts]) *)
(* ===================================================================== *)

Module TIMEOUTS.
Definition ELEMENT_WAIT : nat := 10 * 1000.
Definition ELEMENT_SHORT_WAIT : nat := 3000.
Definition ELEMENT_QUICK_WAIT : nat := 1000.
Definition ELEMENT_VERY_QUICK_WAIT : nat := 500.
Definition SEARCH_RESULTS : nat := 3000.
Definition VALIDATION_WAIT : nat := 1000.
Definition TOAST_MESSAGE : nat := 3000.
End TIMEOUTS.

(* ===================================================================== *)
(** ** The automation engine boundary *)
(* ===================================================================== *)

Module Engine.

(** The locators the page objects build, one constructor per selector.
    Two fields of the classes that share a selector ([searchResults] and
    [searchResultsTable], both [UI.SELECTORS.TABLE_BODY]) are one locator. *)
Inductive Locator : Type :=
| SearchButton                        (* button[type="submit"]:has-text("Search") *)
| ResetButton                         (* button[type="button"]:has-text("Reset") *)
| SearchPanel                         (* .oxd-table-filter-area *)
| FilterToggle                        (* .oxd-table-filter-area-toggle *)
| TableBody                           (* .oxd-table-body *)
| NoRecordsFound                      (* ...:has-text("No Records Found") *)
| ToastMessage                        (* .oxd-text--toast-message *)
| ErrorToast                          (* .oxd-toast-content--error *)
| AnyToast                            (* .oxd-toast-content--error, .oxd-text--toast-message *)
| TableRows                           (* .oxd-table-body .oxd-table-row *)
| AnyTable                            (* table, .oxd-table, [role="table"] *)
| LabelInput (fieldName : string)     (* //label[...=fieldName]/...//input *)
| FieldError (fieldName : string)     (* //label[...=fieldName]/.../span[...error-message] *)
| SelectInput (fieldName : string)    (* //label[...=fieldName]/...//div[...select-text-input] *)
| SelectOption (fieldName optionValue : string)
| AutocompleteOption                  (* .oxd-autocomplete-option, first *)
| TextInputs                          (* input[type="text"] *)
| Nth (l : Locator) (i : nat).        (* l.nth(i) *)

(** What reading an attribute yields: the engine may raise, the attribute
    may be absent, or it has a value. *)
Inductive AttrRead : Type :=
| AttrThrows
| AttrNull
| AttrValue (v : string).

(** The observable state of the page at one instant. *)
Record Snapshot : Type := {
  count : Locator -> nat;
  visible : Locator -> bool;
  textContent : Locator -> string;
  styleAttr : Locator -> AttrRead;
  inputValue : Locator -> string
}.

Inductive Action : Type :=
| Click (l : Locator)
| Clear (l : Locator)
| Fill (l : Locator) (text : string).

(** The application under test: how the page reacts to an action, and how
    it evolves by itself during one millisecond. *)
Record App : Type := {
  on_action : Action -> Snapshot -> Snapshot;
  on_tick : Snapshot -> Snapshot
}.

(** The browser: the page, the time elapsed and the actions issued so far
    (most recent first). *)
Record World : Type := {
  ui : Snapshot;
  clock : nat;
  log : list Action
}.

Inductive Error : Type :=
| TimeoutError
| EngineError.

Inductive Res (A : Type) : Type :=
| Ok (a : A)
| Throw (e : Error).

Arguments Ok {A} a.
Arguments Throw {A} e.

(** An asynchronous method returning [A]. *)
Definition M (A : Type) : Type := World -> Res A * World.

Definition ret {A : Type} (a : A) : M A := fun w => (Ok a, w).

Definition bind {A B : Type} (m : M A) (k : A -> M B) : M B :=
  fun w =>
    match m w with
    | (Ok a, w') => k a w'
    | (Throw e, w') => (Throw e, w')
    end.

Definition throw {A : Type} (e : Error) : M A := fun w => (Throw e, w).

(** [try { m } catch { h }]: what the page went through before the
    exception stays. *)
Definition tryCatch {A : Type} (m : M A) (h : Error -> M A) : M A :=
  fun w =>
    match m w with
    | (Ok a, w') => (Ok a, w')
    | (Throw e, w') => h e w'
    end.

Definition value {A : Type} (p : Res A * World) : Res A := fst p.
Definition after {A : Type} (p : Res A * World) : World := snd p.

Section WithApp.

Variable app : App.

Definition tick (w : World) : World :=
  {| ui := on_tick app (ui w); clock := S (clock w); log := log w |}.

(** [page.waitForTimeout(ms)] *)
Fixpoint elapse (ms : nat) (w : World) : World :=
  match ms with
  | O => w
  | S n => elapse n (tick w)
  end.

Definition waitForTimeout (ms : nat) : M unit := fun w => (Ok tt, elapse ms w).

(** Issue an action on an element the caller has waited for: the
    application reacts, the action is recorded.  This is the action going
    through at once.  The engine's own actionability wait before a click,
    a clear or a fill, which can time out without the action being issued,
    is not modelled; what the statements below say about an action holds
    of a call that returns normally. *)
Definition perform (a : Action) : M unit :=
  fun w =>
    (Ok tt, {| ui := on_action app a (ui w); clock := clock w; log := a :: log w |}).

(** [locator.isVisible()], [count()], [textContent()], [inputValue()]:
    immediate reads of the page.  [isVisible] does not wait, whatever
    [timeout] option it is given.  A locator stands for the one element
    the engine resolves it to: a locator that matches several elements,
    on which the engine refuses a read, is not modelled, so the reads are
    total here and what is said of a read holds when the read returns.
    The one engine failure the page objects guard against, reading an
    attribute, is part of the page state ([AttrThrows]). *)
Definition isVisible (l : Locator) : M bool := fun w => (Ok (visible (ui w) l), w).
Definition countOf (l : Locator) : M nat := fun w => (Ok (count (ui w) l), w).
Definition textContentOf (l : Locator) : M string := fun w => (Ok (textContent (ui w) l), w).
Definition inputValueOf (l : Locator) : M string := fun w => (Ok (inputValue (ui w) l), w).

(** [locator.getAttribute('style')] *)
Definition getStyle (l : Locator) : M (option string) :=
  fun w =>
    match styleAttr (ui w) l with
    | AttrThrows => (Throw EngineError, w)
    | AttrNull => (Ok None, w)
    | AttrValue v => (Ok (Some v), w)
    end.

(** [locator.waitFor({ state: 'visible', timeout })]: poll every
    millisecond; raise once the budget is spent. *)
Fixpoint waitForVisible (l : Locator) (timeout : nat) (w : World) : Res unit * World :=
  if visible (ui w) l then (Ok tt, w)
  else match timeout with
       | O => (Throw TimeoutError, w)
       | S t => waitForVisible l t (tick w)
       end.

(** [Promise.race] over visibility waits, each leg with its own budget:
    the race is won by the first leg whose element is visible, and lost
    as soon as one leg has spent its budget. *)
Definition anyVisible (legs : list (Locator * nat)) (s : Snapshot) : bool :=
  existsb (fun leg => visible s (fst leg)) legs.

Definition anyExpired (legs : list (Locator * nat)) (elapsed : nat) : bool :=
  existsb (fun leg => snd leg <=? elapsed) legs.

Fixpoint raceFrom (legs : list (Locator * nat)) (fuel elapsed : nat) (w : World)
  : Res unit * World :=
  if anyVisible legs (ui w) then (Ok tt, w)
  else if anyExpired legs elapsed then (Throw TimeoutError, w)
  else match fuel with
       | O => (Throw TimeoutError, w)
       | S f => raceFrom legs f (S elapsed) (tick w)
       end.

Definition race (legs : list (Locator * nat)) : M unit :=
  raceFrom legs (list_max (map snd legs)) 0.

(** [locator.all()]: the elements the locator matches now, in document
    order, each as a locator of its own. *)
Definition allOf (l : Locator) : M (list Locator) :=
  fun w => (Ok (map (Nth l) (seq 0 (count (ui w) l))), w).

End WithApp.

End Engine.

Module MNotations.
Declare Scope m_scope.
Delimit Scope m_scope with M.
Notation "x <- m ;; k" := (Engine.bind m (fun x => k))
  (at level 61, m at next level, right associativity) : m_scope.
Notation "m ;; k" := (Engine.bind m (fun _ => k))
  (at level 61, right associativity) : m_scope.
End MNotations.

Import Engine MNotations.
Local Open Scope m_scope.

(* ===================================================================== *)
(** ** [BasePage] *)
(* ===================================================================== *)

Module BasePage.
Section WithApp.
Variable app : App.

Definition waitForElement (l : Locator) (timeout : nat) : M unit :=
  waitForVisible app l timeout.

Definition clickElement (l : Locator) (timeout : nat) : M unit :=
  waitForElement l timeout ;;
  perform app (Click l).

Definition fillInput (l : Locator) (text : string) (timeout : nat) : M unit :=
  waitForElement l timeout ;;
  perform app (Clear l) ;;
  perform app (Fill l text).

Definition isElementVisible (l : Locator) : M bool :=
  tryCatch
    (waitForVisible app l TIMEOUTS.ELEMENT_SHORT_WAIT ;; ret true)
    (fun _ => ret false).

Definition getText (l : Locator) : M string :=
  waitForElement l TIMEOUTS.ELEMENT_WAIT ;;
  textContentOf l.

End WithApp.
End BasePage.

(* ===================================================================== *)
(** ** [BaseSearchPage] ([src/pages/base-search-page.ts]) *)
(* ===================================================================== *)

(** The class is abstract and three of its methods are overridden by
    [AdminUserSearchPage]; a method that calls one of them through [this]
    takes the callee as a parameter. *)

Module BaseSearchPage.
Section WithApp.
Variable app : App.

Definition toggleSearchPanel : M unit :=
  shown <- isVisible FilterToggle ;;
  if shown then BasePage.clickElement app FilterToggle TIMEOUTS.ELEMENT_WAIT
  else ret tt.

(** The test the two panel predicates share. *)
Definition hasDisplayNone (style : string) : bool :=
  Js.includes (Js.toLowerCase style) "display:none" ||
  Js.includes (Js.toLowerCase style) "display: none".

Definition isSearchPanelVisible : M bool :=
  tryCatch
    (n <- countOf SearchPanel ;;
     if negb (0 <? n) then ret false
     else
       style <- getStyle SearchPanel ;;
       match style with
       | None => ret true
       | Some s =>
           if Js.isEmpty s then ret true
           else ret (negb (hasDisplayNone s))
       end)
    (fun _ => ret false).

Definition isSearchPanelHidden : M bool :=
  tryCatch
    (n <- countOf SearchPanel ;;
     if n =? 0 then ret true
     else
       style <- getStyle SearchPanel ;;
       match style with
       | None => ret false
       | Some s =>
           if Js.isEmpty s then ret false
           else ret (hasDisplayNone s)
       end)
    (fun _ => ret true).

Definition showSearchPanel : M unit :=
  hidden <- isSearchPanelHidden ;;
  if hidden then BasePage.clickElement app FilterToggle TIMEOUTS.ELEMENT_WAIT
  else ret tt.

Definition hideSearchPanel : M unit :=
  shown <- isSearchPanelVisible ;;
  if shown then BasePage.clickElement app FilterToggle TIMEOUTS.ELEMENT_WAIT
  else ret tt.

Definition clickSearchButton : M unit :=
  BasePage.clickElement app SearchButton TIMEOUTS.ELEMENT_WAIT.

Definition clickResetButton : M unit :=
  BasePage.clickElement app ResetButton TIMEOUTS.ELEMENT_WAIT.

Definition getToastMessage : M string :=
  tryCatch
    (shown <- isVisible ToastMessage ;;
     if shown then textContentOf ToastMessage else ret "")
    (fun _ => ret "").

Definition hasSearchResults : M bool :=
  results <- BasePage.isElementVisible app TableBody ;;
  if results then
    marker <- BasePage.isElementVisible app NoRecordsFound ;;
    ret (negb marker)
  else ret false.

Definition hasNoRecordsFound (this_getToastMessage : M string) : M bool :=
  hasNoRecordsInResults <- isVisible NoRecordsFound ;;
  toastMessage <- this_getToastMessage ;;
  let hasNoRecordsInToast :=
    Js.includes (Js.toLowerCase toastMessage) "no records found" in
  ret (hasNoRecordsInResults || hasNoRecordsInToast).

Definition waitForSearchResults (this_hasSearchResults this_hasNoRecordsFound : M bool)
  : M unit :=
  hasResults <- this_hasSearchResults ;;
  hasNoRecords <- this_hasNoRecordsFound ;;
  if hasResults || hasNoRecords then ret tt
  else
    tryCatch
      (race app [ (TableBody, TIMEOUTS.SEARCH_RESULTS);
                  (NoRecordsFound, TIMEOUTS.SEARCH_RESULTS) ])
      (fun _ => ret tt).

Definition waitForSearchComplete (this_hasSearchResults this_hasNoRecordsFound : M bool)
  : M unit :=
  hasResults <- this_hasSearchResults ;;
  hasNoRecords <- this_hasNoRecordsFound ;;
  if hasResults || hasNoRecords then ret tt else ret tt.

Definition getSearchResultsCount : M nat :=
  marker <- BasePage.isElementVisible app NoRecordsFound ;;
  if marker then ret 0 else countOf TableRows.

Definition fillTextInput (fieldName value : string) : M unit :=
  BasePage.fillInput app (LabelInput fieldName) value TIMEOUTS.ELEMENT_WAIT.

Definition fillSmartTextInput (fieldName value : string) : M unit :=
  BasePage.fillInput app (LabelInput fieldName) value TIMEOUTS.ELEMENT_WAIT ;;
  suggested <- isVisible AutocompleteOption ;;
  if suggested then BasePage.clickElement app AutocompleteOption TIMEOUTS.ELEMENT_WAIT
  else ret tt.

Definition selectDropdownOption (fieldName optionValue : string) : M unit :=
  BasePage.clickElement app (SelectInput fieldName) TIMEOUTS.ELEMENT_WAIT ;;
  BasePage.clickElement app (SelectOption fieldName optionValue) TIMEOUTS.ELEMENT_WAIT.

Definition getFieldErrorMessage (fieldName : string) : M string :=
  shown <- isVisible (FieldError fieldName) ;;
  if shown then textContentOf (FieldError fieldName) else ret "".

Definition hasFieldError (fieldName : string) : M bool :=
  isVisible (FieldError fieldName).

Definition resetSearchCriteria : M unit :=
  clickResetButton ;;
  waitForTimeout app TIMEOUTS.ELEMENT_QUICK_WAIT.

(** The loop of [verifyDefaultSearchState]: inputs [i], [i+1], ... while
    [todo] of them remain. *)
Fixpoint allInputsEmptyFrom (todo i : nat) : M bool :=
  match todo with
  | O => ret true
  | S todo' =>
      v <- inputValueOf (Nth TextInputs i) ;;
      if negb (Js.isEmpty (Js.trim v)) then ret false
      else allInputsEmptyFrom todo' (S i)
  end.

Definition verifyDefaultSearchState : M bool :=
  inputCount <- countOf TextInputs ;;
  allInputsEmptyFrom inputCount 0.

End WithApp.
End BaseSearchPage.

(* ===================================================================== *)
(** ** [AdminUserSearchPage] ([src/pages/admin-user-search-page.ts]) *)
(* ===================================================================== *)

(** The search criteria: four optional strings. *)
Record Criteria : Type := {
  employeeName : option string;
  username : option string;
  userRole : option string;
  status : option string
}.

(** [if (criteria.x)]: the property is present and not the empty string. *)
Definition given (o : option string) : bool :=
  match o with
  | Some v => Js.truthy v
  | None => false
  end.

Definition whenGiven (o : option string) (k : string -> M unit) : M unit :=
  match o with
  | Some v => if Js.truthy v then k v else ret tt
  | None => ret tt
  end.

(** [errors.push(e.trim())] guarded by [e && e.trim().length > 0]. *)
Definition pushError (errors : list string) (e : string) : list string :=
  if Js.truthy e && (0 <? String.length (Js.trim e))
  then (errors ++ [Js.trim e])%list
  else errors.

Module AdminUserSearchPage.
Section WithApp.
Variable app : App.

Definition fillEmployeeName (v : string) : M unit :=
  BaseSearchPage.fillSmartTextInput app "Employee Name" v.

Definition fillUsername (v : string) : M unit :=
  BaseSearchPage.fillTextInput app "Username" v.

Definition selectUserRole (role : string) : M unit :=
  BaseSearchPage.selectDropdownOption app "User Role" role.

Definition selectStatus (v : string) : M unit :=
  BaseSearchPage.selectDropdownOption app "Status" v.

Definition fillSearchCriteria (criteria : Criteria) : M unit :=
  whenGiven (employeeName criteria) fillEmployeeName ;;
  whenGiven (username criteria) fillUsername ;;
  whenGiven (userRole criteria) selectUserRole ;;
  whenGiven (status criteria) selectStatus.

Definition hasEmployeeNameError : M bool :=
  BaseSearchPage.hasFieldError "Employee Name".

Definition hasUsernameError : M bool :=
  BaseSearchPage.hasFieldError "Username".

Definition validateSearchCriteria (criteria : Criteria) : M bool :=
  hasEmployeeNameError_ <-
    (if given (employeeName criteria) then hasEmployeeNameError else ret false) ;;
  hasUsernameError_ <-
    (if given (username criteria) then hasUsernameError else ret false) ;;
  ret (hasEmployeeNameError_ || hasUsernameError_).

Definition isErrorToastVisible : M bool :=
  tryCatch (isVisible ErrorToast) (fun _ => ret false).

Definition getErrorToastMessage : M string :=
  tryCatch
    (shown <- isErrorToastVisible ;;
     if shown then textContentOf ErrorToast else ret "")
    (fun _ => ret "").

Definition isToastMessageVisible : M bool :=
  tryCatch (isVisible ToastMessage) (fun _ => ret false).

(** Overrides [BaseSearchPage.getToastMessage]. *)
Definition getToastMessage : M string :=
  tryCatch
    (shown <- isToastMessageVisible ;;
     if shown then textContentOf ToastMessage else ret "")
    (fun _ => ret "").

Definition waitForToastMessage : M unit :=
  BasePage.waitForElement app ToastMessage TIMEOUTS.ELEMENT_WAIT.

Definition isNoRecordsFoundDisplayed : M bool :=
  hasNoRecordsInResults <- isVisible NoRecordsFound ;;
  toastText <- getToastMessage ;;
  let hasNoRecordsInToast :=
    Js.includes (Js.toLowerCase toastText) "no records found" in
  ret (hasNoRecordsInResults || hasNoRecordsInToast).

Definition getNoRecordsFoundMessage : M string :=
  inResults <- isVisible NoRecordsFound ;;
  message <-
    (if inResults then
       resultText <- textContentOf NoRecordsFound ;;
       if Js.truthy resultText && Js.includes resultText "No Records Found"
       then ret (Js.trim resultText) else ret ""
     else ret "") ;;
  if Js.isEmpty message then
    shown <- isToastMessageVisible ;;
    if shown then
      toastText <- getToastMessage ;;
      if Js.truthy toastText &&
         Js.includes (Js.toLowerCase toastText) "no records found"
      then ret (Js.trim toastText) else ret message
    else ret message
  else ret message.

Definition hasAnyValidationError : M bool :=
  u <- hasUsernameError ;;
  hasFieldError_ <- (if u then ret true else hasEmployeeNameError) ;;
  hasToastError <- isErrorToastVisible ;;
  ret (hasFieldError_ || hasToastError).

Definition getAllValidationErrors : M (list string) :=
  errors <-
    tryCatch
      (usernameError <- BaseSearchPage.getFieldErrorMessage "Username" ;;
       let errors1 := pushError [] usernameError in
       tryCatch
         (employeeNameError <- BaseSearchPage.getFieldErrorMessage "Employee Name" ;;
          ret (pushError errors1 employeeNameError))
         (fun _ => ret errors1))
      (fun _ => ret []) ;;
  shown <- isErrorToastVisible ;;
  if shown then
    toastMessage <- getErrorToastMessage ;;
    ret (pushError errors toastMessage)
  else ret errors.

(** Overrides [BaseSearchPage.hasNoRecordsFound]. *)
Definition hasNoRecordsFound : M bool := isNoRecordsFoundDisplayed.

(** Overrides [BaseSearchPage.hasSearchResults]. *)
Definition hasSearchResults : M bool :=
  waitForTimeout app 1000 ;;
  noRecordsFound <- isNoRecordsFoundDisplayed ;;
  rows <- countOf TableRows ;;
  ret (negb noRecordsFound && (0 <? rows)).

Definition getSearchResultRowCount : M nat := countOf TableRows.

Definition waitForSearchResults : M unit :=
  BaseSearchPage.waitForSearchResults app hasSearchResults hasNoRecordsFound.

Definition waitForSearchComplete : M unit :=
  BaseSearchPage.waitForSearchComplete hasSearchResults hasNoRecordsFound.

Definition waitForAdminSearchResults : M unit :=
  hasResults <- hasSearchResults ;;
  hasNoRecords <- hasNoRecordsFound ;;
  if hasResults || hasNoRecords then ret tt
  else
    tryCatch
      (race app [ (TableBody, TIMEOUTS.SEARCH_RESULTS);
                  (NoRecordsFound, TIMEOUTS.SEARCH_RESULTS);
                  (ToastMessage, TIMEOUTS.ELEMENT_WAIT) ])
      (fun _ =>
         waitForTimeout app TIMEOUTS.ELEMENT_QUICK_WAIT ;;
         bodies <- countOf TableBody ;;
         if 0 <? bodies then
           waitForVisible app (Nth TableBody 0) TIMEOUTS.SEARCH_RESULTS
         else
           tableCount <- countOf AnyTable ;;
           if tableCount =? 0 then ret tt else ret tt).

Definition waitForSearchCompletion : M unit :=
  tryCatch waitForSearchComplete (fun _ => waitForAdminSearchResults).

Definition searchUsers (criteria : Criteria) : M unit :=
  fillSearchCriteria criteria ;;
  waitForTimeout app TIMEOUTS.VALIDATION_WAIT ;;
  hasValidationErrors <- validateSearchCriteria criteria ;;
  if hasValidationErrors then ret tt
  else
    BaseSearchPage.clickSearchButton app ;;
    waitForSearchCompletion.

Definition testInvalidUserName (v : string) : M bool :=
  searchUsers {| employeeName := None; username := Some v;
                 userRole := None; status := None |} ;;
  hasNoRecords <- hasNoRecordsFound ;;
  noRecordsMessage <- getNoRecordsFoundMessage ;;
  ret (hasNoRecords && (0 <? String.length noRecordsMessage)).

Definition testResetSearchCriteria : M bool :=
  fillEmployeeName "Test Employee" ;;
  fillUsername "testuser" ;;
  selectUserRole "Admin" ;;
  selectStatus "Enabled" ;;
  BaseSearchPage.resetSearchCriteria app ;;
  BaseSearchPage.verifyDefaultSearchState.

Definition testToggleSearchPanel : M bool :=
  initialVisibility <- BaseSearchPage.isSearchPanelVisible ;;
  BaseSearchPage.toggleSearchPanel app ;;
  waitForTimeout app 500 ;;
  finalVisibility <- BaseSearchPage.isSearchPanelVisible ;;
  ret (negb (Bool.eqb initialVisibility finalVisibility)).

Definition waitForNoRecordsFound : M unit :=
  race app [ (NoRecordsFound, TIMEOUTS.ELEMENT_WAIT);
             (ToastMessage, TIMEOUTS.ELEMENT_WAIT) ].

End WithApp.
End AdminUserSearchPage.

(* ===================================================================== *)
(** ** The earlier revision of the two classes *)
(* ===================================================================== *)

(** The repository also holds the previous revision of [BaseSearchPage]
    and [AdminUserSearchPage].  Its methods that differ from the current
    ones are kept here; the toast locator of that revision is the union
    selector [AnyToast]. *)

Module Legacy.
Section WithApp.
Variable app : App.

Definition isSearchPanelVisible : M bool :=
  tryCatch
    (n <- countOf SearchPanel ;;
     if n =? 0 then ret false
     else
       style <- getStyle SearchPanel ;;
       match style with
       | None => ret true
       | Some s =>
           if Js.isEmpty s then ret true
           else ret (negb (Js.includes (Js.toLowerCase s) "display:none"))
       end)
    (fun _ => ret false).

Definition isToastVisible : M bool :=
  tryCatch (isVisible AnyToast) (fun _ => ret false).

Definition getToastMessage : M string :=
  shown <- isToastVisible ;;
  if shown then textContentOf AnyToast else ret "".

Definition hasNoRecordsFound : M bool :=
  BaseSearchPage.hasNoRecordsFound getToastMessage.

Definition waitForSearchResults : M unit :=
  BaseSearchPage.waitForSearchResults app
    (BaseSearchPage.hasSearchResults app) hasNoRecordsFound.

Definition searchUsers (criteria : Criteria) : M unit :=
  AdminUserSearchPage.fillSearchCriteria app criteria ;;
  waitForTimeout app 1000 ;;
  employeeNameInvalid <-
    (if given (employeeName criteria)
     then AdminUserSearchPage.hasEmployeeNameError else ret false) ;;
  invalid <-
    (if employeeNameInvalid then ret true
     else if given (username criteria)
          then AdminUserSearchPage.hasUsernameError else ret false) ;;
  if invalid then ret tt
  else
    BaseSearchPage.clickSearchButton app ;;
    waitForSearchResults.

Definition getAllValidationErrors : M (list string) :=
  errors <-
    tryCatch
      (usernameError <- BaseSearchPage.getFieldErrorMessage "Username" ;;
       let errors1 := pushError [] usernameError in
       tryCatch
         (employeeNameError <- BaseSearchPage.getFieldErrorMessage "Employee Name" ;;
          ret (pushError errors1 employeeNameError))
         (fun _ => ret errors1))
      (fun _ => ret []) ;;
  shown <- isToastVisible ;;
  if shown then
    toastMessage <- getToastMessage ;;
    ret (pushError errors toastMessage)
  else ret errors.

End WithApp.
End Legacy.

(* ===================================================================== *)
(** ** [LoginPage] and [DashboardPage] *)
(* ===================================================================== *)

(** The login page object keeps its locators in fields set by the
    constructor; the methods below are those of both revisions of the
    class.  [fields] stands for the object: whatever the selectors behind
    the fields, the methods use them the same way. *)

Module LoginPage.

Record Fields : Type := {
  usernameInput : Locator;       (* input[name="username"] *)
  passwordInput : Locator;       (* input[name="password"] *)
  loginButton : Locator;         (* button[type="submit"] *)
  forgotPasswordLink : Locator;  (* a[href*="forgotPassword"] *)
  errorMessage : Locator;        (* .oxd-alert-content-text *)
  fieldErrorMessage : Locator;   (* .oxd-input-field-error-message *)
  loginForm : Locator            (* .orangehrm-login-form *)
}.

Section WithApp.
Variable app : App.
Variable this : Fields.

Definition fillUsername (v : string) : M unit :=
  BasePage.fillInput app (usernameInput this) v TIMEOUTS.ELEMENT_WAIT.

Definition fillPassword (v : string) : M unit :=
  BasePage.fillInput app (passwordInput this) v TIMEOUTS.ELEMENT_WAIT.

Definition clickLoginButton : M unit :=
  BasePage.clickElement app (loginButton this) TIMEOUTS.ELEMENT_WAIT.

Definition login (user password : string) : M unit :=
  fillUsername user ;;
  fillPassword password ;;
  clickLoginButton.

(** [for (const element of errorElements)] with its early [return true]. *)
Fixpoint someElementVisible (elements : list Locator) : M bool :=
  match elements with
  | [] => ret false
  | element :: rest =>
      shown <- isVisible element ;;
      if shown then ret true else someElementVisible rest
  end.

Definition isFieldErrorMessageVisible : M bool :=
  errorElements <- allOf (fieldErrorMessage this) ;;
  someElementVisible errorElements.

(** The loop of [getFieldErrorMessages], [errorMessages] being the array
    built so far. *)
Fixpoint collectErrorMessages (elements : list Locator) (errorMessages : list string)
  : M (list string) :=
  match elements with
  | [] => ret errorMessages
  | element :: rest =>
      shown <- isVisible element ;;
      if shown then
        text <- textContentOf element ;;
        collectErrorMessages rest (pushError errorMessages text)
      else collectErrorMessages rest errorMessages
  end.

Definition getFieldErrorMessages : M (list string) :=
  errorElements <- allOf (fieldErrorMessage this) ;;
  collectErrorMessages errorElements [].

Definition isErrorMessageVisible : M bool :=
  alert <- BasePage.isElementVisible app (errorMessage this) ;;
  if alert then ret true else isFieldErrorMessageVisible.

Definition getErrorMessage : M string :=
  alert <- BasePage.isElementVisible app (errorMessage this) ;;
  if alert then BasePage.getText app (errorMessage this)
  else
    fieldErrors <- getFieldErrorMessages ;;
    match fieldErrors with
    | first :: _ => ret first
    | [] => ret ""
    end.

End WithApp.

(** [isOnLoginPage], on the URL that [getCurrentUrl] reads off the page. *)
Definition isOnLoginPage (currentUrl : string) : bool :=
  Js.includes currentUrl "/login" || Js.endsWith currentUrl "/".

End LoginPage.

Module DashboardPage.

(** [isOnDashboardPage], on the URL that [getCurrentUrl] reads off the page. *)
Definition isOnDashboardPage (currentUrl : string) : bool :=
  Js.includes currentUrl "/dashboard".

End DashboardPage.

(* ===================================================================== *)
(** ** The visibility rule as the specification words it *)
(* ===================================================================== *)

(** Section 4.2 of the specification: lower-case the style text, strip the
    white space around every colon, and look for [display:none].  These
    definitions follow the specification, not the source; they are what
    the source is compared with. *)

Module Spec.

(** Drop the white space that directly follows a colon. *)
Fixpoint stripAfterColon (afterColon : bool) (s : string) : string :=
  match s with
  | EmptyString => EmptyString
  | String c r =>
      if afterColon && Js.isSpace c then stripAfterColon true r
      else String c (stripAfterColon (Ascii.eqb c ":"%char) r)
  end.

Fixpoint reverse (s : string) : string :=
  match s with
  | EmptyString => EmptyString
  | String c r => reverse r ++ String c EmptyString
  end.

Definition normalize (s : string) : string :=
  reverse (stripAfterColon false (reverse (stripAfterColon false (Js.toLowerCase s)))).

Definition isVisible (styleText : option string) : bool :=
  match styleText with
  | None => true
  | Some s => negb (Js.includes (normalize s) "display:none")
  end.

End Spec.

(* ===================================================================== *)
(** ** Page-level vocabulary of the statements *)
(* ===================================================================== *)

(** The page does not change by itself. *)
Definition quiescent (app : App) (s : Snapshot) : Prop := on_tick app s = s.

(** Run in [w], the method returns [a]; the page and the actions issued
    are as before (only time may have passed). *)
Definition settles {A : Type} (m : M A) (w : World) (a : A) : Prop :=
  exists w', m w = (Ok a, w') /\ ui w' = ui w /\ log w' = log w.

(** The style text holds a hiding directive the page object recognises:
    [display:none], in any letter case, with at most one space after the
    colon. *)
Definition hidingDirective (style : string) : Prop :=
  exists pre gap post,
    Js.toLowerCase style = pre ++ "display:" ++ gap ++ "none" ++ post
    /\ (gap = "" \/ gap = " ").

(** The two signals of an empty result: the in-table marker, and a toast
    whose text mentions it. *)
Definition markerSignal (s : Snapshot) : bool := visible s NoRecordsFound.

Definition toastSignal (s : Snapshot) : bool :=
  visible s ToastMessage &&
  Js.includes (Js.toLowerCase (textContent s ToastMessage)) "no records found".

(** The application reports that no row matches: the marker cell with its
    text, or the toast. *)
Definition reportsNoMatch (s : Snapshot) : bool :=
  (visible s NoRecordsFound && Js.includes (textContent s NoRecordsFound) "No Records Found")
  || toastSignal s.

(** A validation error is on the page: under a field, or as a toast. *)
Definition validationErrorShown (s : Snapshot) : bool :=
  visible s (FieldError "Username") || visible s (FieldError "Employee Name")
  || visible s ErrorToast.

(** The text of an element when it is visible, the empty string otherwise. *)
Definition shownText (s : Snapshot) (l : Locator) : string :=
  if visible s l then textContent s l else "".

Definition keep (e : string) : list string :=
  match e with
  | EmptyString => []
  | String _ _ => [e]
  end.

(** Clicks on the search button among the actions issued so far. *)
Definition isSearchClick (a : Action) : bool :=
  match a with
  | Click SearchButton => true
  | _ => false
  end.

Definition searchClicks (w : World) : nat := length (filter isSearchClick (log w)).

(** The method never clicks the search button. *)
Definition noSearchClick {A : Type} (m : M A) : Prop :=
  forall w, searchClicks (after (m w)) = searchClicks w.

(** A field error under a field that the criteria fill. *)
Definition filledFieldInvalid (criteria : Criteria) (s : Snapshot) : bool :=
  (given (employeeName criteria) && visible s (FieldError "Employee Name"))
  || (given (username criteria) && visible s (FieldError "Username")).

(** Every text input of the page is empty. *)
Definition fieldsEmpty (s : Snapshot) : Prop :=
  forall i, i < count s TextInputs -> inputValue s (Nth TextInputs i) = "".

(** The criteria with every empty string taken out. *)
Definition dropEmptyValue (o : option string) : option string :=
  match o with
  | Some v => if Js.truthy v then Some v else None
  | None => None
  end.

Definition dropEmpty (criteria : Criteria) : Criteria :=
  {| employeeName := dropEmptyValue (employeeName criteria);
     username := dropEmptyValue (username criteria);
     userRole := dropEmptyValue (userRole criteria);
     status := dropEmptyValue (status criteria) |}.

(** The method clicks the search button at most once. *)
Definition atMostOneSearchClick {A : Type} (m : M A) : Prop :=
  forall w, searchClicks (after (m w)) <= searchClicks w + 1.

(** A message that is neither empty nor blank. *)
Definition properMessage (m : string) : Prop := m <> "" /\ Js.allSpace m = false.

(** None of the elements is visible. *)
Definition noneVisible (ls : list Locator) (s : Snapshot) : bool :=
  negb (existsb (visible s) ls).

(** How a race of visibility waits for the elements [ls], with [budget]
    milliseconds as its shortest budget, ends when it starts in [w]: in
    [w'], the first moment at which one of the elements is visible (the
    race is won), or, none of them having shown, exactly [budget]
    milliseconds after [w] (the race is lost). *)
Definition raceEnds (app : App) (ls : list Locator) (budget : nat)
  (w : World) (won : bool) (w' : World) : Prop :=
  exists n,
    n <= budget /\ w' = elapse app n w /\
    (forall m, m < n -> noneVisible ls (ui (elapse app m w)) = true) /\
    noneVisible ls (ui w') = negb won /\
    (won = false -> n = budget).

(** The world once the search button has been clicked in [w]. *)
Definition searchClicked (app : App) (w : World) : World :=
  {| ui := on_action app (Click SearchButton) (ui w);
     clock := clock w; log := Click SearchButton :: log w |}.

(** The application answers a click on the search button with the report
    that no row matches, at most [delay] milliseconds later, and keeps it
    on the page. *)
Definition answersNoMatchWithin (app : App) (delay : nat) : Prop :=
  forall w n, delay <= n ->
    reportsNoMatch (ui (elapse app n (searchClicked app w))) = true.

(** The two text fields in the order in which the class defines them: the
    field locators set by the constructor, the properties of the criteria
    and the calls of [fillSearchCriteria] all have Employee Name first. *)
Definition fieldDefinitionOrder : list string := ["Employee Name"; "Username"].

(** The collected validation messages as the specification words them:
    the field-level errors in field-definition order, then the error
    toast, empty and blank texts left out.  This definition follows the
    specification; it is what [getAllValidationErrors] is compared with. *)
Definition specValidationMessages (s : Snapshot) : list string :=
  (flat_map (fun f => keep (Js.trim (shownText s (FieldError f)))) fieldDefinitionOrder
   ++ keep (Js.trim (shownText s ErrorToast)))%list.

(** *** What the page objects rely on from the application *)

(** The Reset button empties the text inputs, and they stay empty while
    nothing else is done. *)
Record ResetsFields (app : App) : Prop := {
  reset_clears : forall s, fieldsEmpty (on_action app (Click ResetButton) s);
  idle_keeps_empty : forall s, fieldsEmpty s -> fieldsEmpty (on_tick app s)
}.

(** The inline style with which the application collapses the panel. *)
Definition collapsedStyle (style : string) : Prop :=
  exists pre post, style = pre ++ "display: none" ++ post.

Definition panelCollapsed (s : Snapshot) : Prop :=
  exists v, styleAttr s SearchPanel = AttrValue v /\ collapsedStyle v.

Definition panelExpanded (s : Snapshot) : Prop :=
  styleAttr s SearchPanel = AttrNull \/ styleAttr s SearchPanel = AttrValue "".

(** The toggle control collapses a panel that is not collapsed and expands
    a collapsed one; the panel and the control themselves stay. *)
Record TogglesPanel (app : App) : Prop := {
  toggle_keeps_panel :
    forall s, count (on_action app (Click FilterToggle) s) SearchPanel = count s SearchPanel;
  toggle_keeps_control :
    forall s, visible (on_action app (Click FilterToggle) s) FilterToggle
              = visible s FilterToggle;
  toggle_collapses :
    forall s, styleAttr s SearchPanel <> AttrThrows -> ~ panelCollapsed s ->
              panelCollapsed (on_action app (Click FilterToggle) s);
  toggle_expands :
    forall s, panelCollapsed s -> panelExpanded (on_action app (Click FilterToggle) s)
}.

(* ===================================================================== *)
(** ** Concrete pages and applications *)
(* ===================================================================== *)

Module Scenario.

(** An application that never reacts. *)
Definition idleApp : App := {| on_action := fun _ s => s; on_tick := fun s => s |}.

Definition blankPage : Snapshot :=
  {| count := fun _ => 0;
     visible := fun _ => false;
     textContent := fun _ => "";
     styleAttr := fun _ => AttrNull;
     inputValue := fun _ => "" |}.

Definition start (s : Snapshot) : World := {| ui := s; clock := 0; log := [] |}.

(** A page whose content is the filter panel, with a given style, and its
    toggle control, shown or not. *)
Definition panelPage (control : bool) (style : AttrRead) : Snapshot :=
  {| count := fun l => match l with SearchPanel => 1 | _ => 0 end;
     visible := fun l =>
       match l with SearchPanel => true | FilterToggle => control | _ => false end;
     textContent := fun _ => "";
     styleAttr := fun l => match l with SearchPanel => style | _ => AttrNull end;
     inputValue := fun _ => "" |}.

(** A listing of three rows under the search form, with optional toast
    text and an optional error under the Employee Name field. *)
Definition listingPage (toast : option string) (employeeNameError : option string)
  : Snapshot :=
  {| count := fun l => match l with TableRows => 3 | TableBody => 1 | _ => 0 end;
     visible := fun l =>
       match l with
       | TableBody | SearchButton | ResetButton => true
       | LabelInput _ | SelectInput _ | SelectOption _ _ => true
       | ToastMessage => match toast with Some _ => true | None => false end
       | FieldError f =>
           match employeeNameError with
           | Some _ => String.eqb f "Employee Name"
           | None => false
           end
       | _ => false
       end;
     textContent := fun l =>
       match l with
       | ToastMessage => match toast with Some t => t | None => "" end
       | FieldError f =>
           match employeeNameError with
           | Some e => if String.eqb f "Employee Name" then e else ""
           | None => ""
           end
       | _ => ""
       end;
     styleAttr := fun _ => AttrNull;
     inputValue := fun _ => "" |}.

(** The empty listing: the marker cell in the table, with its text. *)
Definition emptyListingPage (markerText : string) : Snapshot :=
  {| count := fun l => match l with TableRows => 1 | TableBody => 1 | _ => 0 end;
     visible := fun l =>
       match l with TableBody | NoRecordsFound | SearchButton => true | _ => false end;
     textContent := fun l => match l with NoRecordsFound => markerText | _ => "" end;
     styleAttr := fun _ => AttrNull;
     inputValue := fun _ => "" |}.

(** The search form alone: no table, no marker, no toast, no error. *)
Definition formOnlyPage : Snapshot :=
  {| count := fun _ => 0;
     visible := fun l =>
       match l with
       | SearchButton | ResetButton | LabelInput _ | SelectInput _ | SelectOption _ _ => true
       | _ => false
       end;
     textContent := fun _ => "";
     styleAttr := fun _ => AttrNull;
     inputValue := fun _ => "" |}.

(** The search form with two text inputs that hold values. *)
Definition filledFormPage : Snapshot :=
  {| count := fun l => match l with TextInputs => 2 | _ => 0 end;
     visible := fun l =>
       match l with
       | SearchButton | ResetButton | LabelInput _ => true
       | _ => false
       end;
     textContent := fun _ => "";
     styleAttr := fun _ => AttrNull;
     inputValue := fun l =>
       match l with
       | Nth TextInputs 0 => "Admin"
       | Nth TextInputs 1 => "Test Employee"
       | _ => ""
       end |}.

(** An application whose Reset button empties every input. *)
Definition resetApp : App :=
  {| on_action := fun a s =>
       match a with
       | Click ResetButton =>
           {| count := count s; visible := visible s; textContent := textContent s;
              styleAttr := styleAttr s; inputValue := fun _ => "" |}
       | _ => s
       end;
     on_tick := fun s => s |}.

(** An application whose toggle control collapses the panel with the
    inline style [display: none;] and expands it by emptying the style. *)
Definition toggledStyle (a : AttrRead) : AttrRead :=
  match a with
  | AttrValue v => if Js.includes v "display: none" then AttrValue ""
                   else AttrValue "display: none;"
  | _ => AttrValue "display: none;"
  end.

Definition toggleApp : App :=
  {| on_action := fun a s =>
       match a with
       | Click FilterToggle =>
           {| count := count s; visible := visible s; textContent := textContent s;
              styleAttr := fun l =>
                match l with
                | SearchPanel => toggledStyle (styleAttr s SearchPanel)
                | _ => styleAttr s l
                end;
              inputValue := inputValue s |}
       | _ => s
       end;
     on_tick := fun s => s |}.

(** The form with an error under each of the two text fields and an error
    toast whose text is blank. *)
Definition errorsPage : Snapshot :=
  {| count := fun _ => 0;
     visible := fun l =>
       match l with
       | FieldError _ | ErrorToast | AnyToast | SearchButton => true
       | _ => false
       end;
     textContent := fun l =>
       match l with
       | FieldError f => if String.eqb f "Username" then " Required " else "Invalid"
       | ErrorToast | AnyToast => "   "
       | _ => ""
       end;
     styleAttr := fun _ => AttrNull;
     inputValue := fun _ => "" |}.

(** The fields of a login page object, on locators of the form. *)
Definition loginFields : LoginPage.Fields :=
  {| LoginPage.usernameInput := LabelInput "username";
     LoginPage.passwordInput := LabelInput "password";
     LoginPage.loginButton := SearchButton;
     LoginPage.forgotPasswordLink := AnyTable;
     LoginPage.errorMessage := ErrorToast;
     LoginPage.fieldErrorMessage := FieldError "";
     LoginPage.loginForm := SearchPanel |}.

(** A login form after a rejected attempt: no alert, three field-error
    elements of which the first is not shown and the second is blank. *)
Definition rejectedLoginPage : Snapshot :=
  {| count := fun l => match l with FieldError _ => 3 | _ => 0 end;
     visible := fun l =>
       match l with
       | LabelInput _ | SearchButton => true
       | Nth (FieldError _) 0 => false
       | Nth (FieldError _) _ => true
       | _ => false
       end;
     textContent := fun l =>
       match l with
       | Nth (FieldError _) 0 => "Hidden"
       | Nth (FieldError _) 1 => "  "
       | Nth (FieldError _) 2 => " Required "
       | _ => ""
       end;
     styleAttr := fun _ => AttrNull;
     inputValue := fun _ => "" |}.

(** An application that answers a click on the search button with the
    no-records marker, [delay] milliseconds later.  The time left until
    then is part of the page: it is kept as the count of a locator that no
    page object resolves, [Nth AnyTable 0]. *)
Definition pending (s : Snapshot) : nat := count s (Nth AnyTable 0).

Definition setPending (n : nat) (s : Snapshot) : Snapshot :=
  {| count := fun l => match l with Nth AnyTable 0 => n | _ => count s l end;
     visible := visible s; textContent := textContent s;
     styleAttr := styleAttr s; inputValue := inputValue s |}.

Definition showMarker (s : Snapshot) : Snapshot :=
  {| count := count s;
     visible := fun l => match l with NoRecordsFound => true | _ => visible s l end;
     textContent := fun l =>
       match l with NoRecordsFound => "No Records Found" | _ => textContent s l end;
     styleAttr := styleAttr s; inputValue := inputValue s |}.

Definition delayedApp (delay : nat) : App :=
  {| on_action := fun a s =>
       match a with
       | Click SearchButton => setPending delay s
       | _ => s
       end;
     on_tick := fun s =>
       match pending s with
       | 0 => s
       | 1 => showMarker (setPending 0 s)
       | S n => setPending n s
       end |}.

Definition noCriteria : Criteria :=
  {| employeeName := None; username := None; userRole := None; status := None |}.

Definition byUsername (v : string) : Criteria :=
  {| employeeName := None; username := Some v; userRole := None; status := None |}.

Definition byEmployeeName (v : string) : Criteria :=
  {| employeeName := Some v; username := None; userRole := None; status := None |}.

Definition byBothNames (e u : string) : Criteria :=
  {| employeeName := Some e; username := Some u; userRole := None; status := None |}.

End Scenario.

(* ===================================================================== *)
(** * Properties *)
(* ===================================================================== *)

(** ** Strings *)

Module JsFacts.
Import Js.

Lemma append_empty_r (s : string) : s ++ "" = s.
Proof. induction s as [|c r IH]; simpl; [reflexivity | now rewrite IH]. Qed.

Lemma append_assoc (a b c : string) : (a ++ b) ++ c = a ++ (b ++ c).
Proof. induction a as [|x r IH]; simpl; [reflexivity | now rewrite IH]. Qed.

Lemma startsWith_spec (needle s : string) :
  startsWith needle s = true <-> exists post, s = needle ++ post.
Proof.
  revert s. induction needle as [|a n IH]; intros s; simpl.
  - split; [intros _; now exists s | reflexivity].
  - destruct s as [|b r].
    + split; [discriminate | intros [post H]; discriminate].
    + rewrite andb_true_iff, Ascii.eqb_eq, IH. split.
      * intros [-> [post ->]]. now exists post.
      * intros [post H]. injection H as -> ->. split; [reflexivity | now exists post].
Qed.

Lemma includes_spec (s needle : string) :
  includes s needle = true <-> exists pre post, s = pre ++ needle ++ post.
Proof.
  induction s as [|c r IH].
  - simpl. rewrite orb_false_r, startsWith_spec. split.
    + intros [post H]. now exists "", post.
    + intros [pre [post H]]. destruct pre as [|x pre]; [now exists post | discriminate].
  - simpl. rewrite orb_true_iff, startsWith_spec, IH. split.
    + intros [[post H] | [pre [post H]]].
      * now exists "", post.
      * exists (String c pre), post. simpl. now rewrite H.
    + intros [pre [post H]]. destruct pre as [|x pre].
      * left. now exists post.
      * right. injection H as -> H. now exists pre, post.
Qed.

Lemma toLowerCase_app (a b : string) :
  toLowerCase (a ++ b) = toLowerCase a ++ toLowerCase b.
Proof. induction a as [|c r IH]; simpl; [reflexivity | now rewrite IH]. Qed.

Lemma isSpace_lowerChar (c : ascii) : isSpace (lowerChar c) = isSpace c.
Proof. destruct c as [[] [] [] [] [] [] [] []]; reflexivity. Qed.

Lemma allSpace_toLowerCase (s : string) : allSpace (toLowerCase s) = allSpace s.
Proof.
  induction s as [|c r IH]; simpl; [reflexivity | now rewrite isSpace_lowerChar, IH].
Qed.

Lemma allSpace_app (a b : string) : allSpace (a ++ b) = allSpace a && allSpace b.
Proof.
  induction a as [|c r IH]; simpl; [reflexivity | now rewrite IH, andb_assoc].
Qed.

(** A string that holds a needle starting with a visible character is not
    blank. *)
Lemma includes_not_blank (s needle : string) (c : ascii) (rest : string) :
  needle = String c rest -> isSpace c = false ->
  includes s needle = true -> allSpace s = false.
Proof.
  intros -> Hc H. apply includes_spec in H as [pre [post ->]].
  rewrite allSpace_app. simpl. rewrite Hc. simpl. apply andb_false_r.
Qed.

Lemma trimStart_empty_iff (s : string) : trimStart s = "" <-> allSpace s = true.
Proof.
  induction s as [|c r IH]; simpl.
  - tauto.
  - destruct (isSpace c); simpl; [exact IH | split; discriminate].
Qed.

Lemma allSpace_trimStart (s : string) : allSpace (trimStart s) = allSpace s.
Proof.
  induction s as [|c r IH]; simpl; [reflexivity|].
  destruct (isSpace c) eqn:E; simpl; [exact IH | now rewrite E].
Qed.

Lemma trimEnd_empty_iff (s : string) : trimEnd s = "" <-> allSpace s = true.
Proof.
  induction s as [|c r IH]; simpl.
  - tauto.
  - destruct (trimEnd r) as [|x r'] eqn:E.
    + destruct (isSpace c); simpl.
      * split; [intros _; now apply IH | reflexivity].
      * split; discriminate.
    + split; [discriminate|]. intros H. apply andb_true_iff in H as [_ H].
      apply IH in H. discriminate.
Qed.

Lemma trimEnd_blank (s : string) : allSpace (trimEnd s) = true -> trimEnd s = "".
Proof.
  induction s as [|c r IH]; simpl; [reflexivity|].
  destruct (trimEnd r) as [|x r'] eqn:E.
  - destruct (isSpace c) eqn:Hc; simpl; [reflexivity | now rewrite Hc].
  - intros H. apply andb_true_iff in H as [_ H]. specialize (IH H). discriminate.
Qed.

Lemma trim_empty_iff (s : string) : trim s = "" <-> allSpace s = true.
Proof. unfold trim. now rewrite trimEnd_empty_iff, allSpace_trimStart. Qed.

(** What [trim] returns is empty or not blank. *)
Lemma trim_not_blank (s : string) : trim s <> "" -> allSpace (trim s) = false.
Proof.
  intros H. destruct (allSpace (trim s)) eqn:E; [|reflexivity].
  exfalso. apply H. unfold trim in *. now apply trimEnd_blank.
Qed.

Lemma truthy_iff (s : string) : truthy s = true <-> s <> "".
Proof. destruct s; simpl; split; intros H; congruence || (now elim H) || discriminate. Qed.

Lemma isEmpty_iff (s : string) : isEmpty s = true <-> s = "".
Proof. destruct s; cbn; split; intros H; reflexivity || discriminate. Qed.

Lemma length_pos_iff (s : string) : (0 <? String.length s) = true <-> s <> "".
Proof.
  destruct s; cbn; split; intros H; try discriminate; try reflexivity.
  now elim H.
Qed.

End JsFacts.

(** ** The engine *)

Module EngineFacts.
Section WithApp.
Variable app : App.

Lemma elapse_log (n : nat) (w : World) : log (elapse app n w) = log w.
Proof. revert w. induction n as [|n IH]; intros w; simpl; [reflexivity | now rewrite IH]. Qed.

Lemma elapse_clock (n : nat) (w : World) : clock (elapse app n w) = clock w + n.
Proof.
  revert w. induction n as [|n IH]; intros w; simpl; [lia | rewrite IH; simpl; lia].
Qed.

Lemma elapse_quiescent (n : nat) (w : World) :
  quiescent app (ui w) -> ui (elapse app n w) = ui w.
Proof.
  revert w. induction n as [|n IH]; intros w Hq; simpl; [reflexivity|].
  rewrite IH; simpl; rewrite Hq; [reflexivity | exact Hq].
Qed.

Lemma waitForVisible_now (l : Locator) (t : nat) (w : World) :
  visible (ui w) l = true -> waitForVisible app l t w = (Ok tt, w).
Proof. intros H. destruct t; simpl; now rewrite H. Qed.

(** A visibility wait issues no action, ends within its budget, and
    returns exactly when the element is visible at that moment. *)
Lemma waitForVisible_spec (l : Locator) (t : nat) (w : World) :
  exists w',
    log w' = log w /\ clock w' <= clock w + t /\
    ((waitForVisible app l t w = (Ok tt, w') /\ visible (ui w') l = true) \/
     (waitForVisible app l t w = (Throw TimeoutError, w') /\ visible (ui w') l = false)).
Proof.
  revert w. induction t as [|t IH]; intros w; simpl.
  - destruct (visible (ui w) l) eqn:E; exists w; repeat split; auto; lia.
  - destruct (visible (ui w) l) eqn:E.
    + exists w. repeat split; auto; lia.
    + destruct (IH (tick app w)) as [w' [Hl [Hc H]]].
      exists w'. simpl in Hl, Hc. repeat split; auto; lia.
Qed.

Lemma waitForVisible_quiescent (l : Locator) (t : nat) (w : World) :
  quiescent app (ui w) -> visible (ui w) l = false ->
  exists w', waitForVisible app l t w = (Throw TimeoutError, w')
             /\ ui w' = ui w /\ log w' = log w.
Proof.
  revert w. induction t as [|t IH]; intros w Hq Hv; simpl; rewrite Hv.
  - now exists w.
  - destruct (IH (tick app w)) as [w' [H [Hu Hl]]]; simpl.
    + unfold quiescent in *. now rewrite Hq.
    + now rewrite Hq.
    + exists w'. simpl in Hu, Hl. rewrite Hq in Hu. auto.
Qed.

(** The race issues no action and is over once the shortest budget is
    spent; it is lost only by timing out. *)
Lemma raceFrom_spec (legs : list (Locator * nat)) (fuel elapsed : nat) (w : World) :
  exists r w',
    raceFrom app legs fuel elapsed w = (r, w') /\
    log w' = log w /\ clock w' <= clock w + fuel /\
    ((r = Ok tt /\ anyVisible legs (ui w') = true) \/
     (r = Throw TimeoutError /\ anyVisible legs (ui w') = false)).
Proof.
  revert elapsed w. induction fuel as [|f IH]; intros elapsed w; simpl.
  - destruct (anyVisible legs (ui w)) eqn:E; [|destruct (anyExpired legs elapsed)];
      eexists _, w; repeat split; auto; lia.
  - destruct (anyVisible legs (ui w)) eqn:E; [|destruct (anyExpired legs elapsed)].
    + eexists _, w. repeat split; auto; lia.
    + eexists _, w. repeat split; auto; lia.
    + destruct (IH (S elapsed) (tick app w)) as [r [w' [H [Hl [Hc Hr]]]]].
      exists r, w'. simpl in Hl, Hc. repeat split; auto; lia.
Qed.

(** How a race goes when [d] is its shortest budget: it ends at the first
    millisecond at which the element of some leg is visible, won; failing
    that it ends after exactly [d] milliseconds, lost. *)
Lemma raceFrom_trace (legs : list (Locator * nat)) (d fuel elapsed : nat) (w : World) :
  (forall leg, In leg legs -> d <= snd leg) ->
  (exists leg, In leg legs /\ snd leg = d) ->
  elapsed <= d -> d - elapsed <= fuel ->
  exists n,
    n <= d - elapsed /\
    (forall m, m < n -> anyVisible legs (ui (elapse app m w)) = false) /\
    ((anyVisible legs (ui (elapse app n w)) = true /\
      raceFrom app legs fuel elapsed w = (Ok tt, elapse app n w)) \/
     (n = d - elapsed /\ anyVisible legs (ui (elapse app n w)) = false /\
      raceFrom app legs fuel elapsed w = (Throw TimeoutError, elapse app n w))).
Proof.
  intros Hmin [shortest [Hin Hd]].
  revert elapsed w. induction fuel as [|f IH]; intros elapsed w He Hf;
    unfold raceFrom; fold (raceFrom app).
  - assert (elapsed = d) by lia. subst elapsed.
    destruct (anyVisible legs (ui w)) eqn:E.
    + exists 0. split; [lia|]. split; [intros m Hm; lia|]. left. simpl. auto.
    + assert (Hx : anyExpired legs d = true).
      { apply existsb_exists. exists shortest. split; [exact Hin|]. apply Nat.leb_le. lia. }
      rewrite Hx. exists 0. split; [lia|]. split; [intros m Hm; lia|]. right. simpl.
      repeat split; auto. lia.
  - destruct (anyVisible legs (ui w)) eqn:E.
    + exists 0. split; [lia|]. split; [intros m Hm; lia|]. left. simpl. auto.
    + destruct (anyExpired legs elapsed) eqn:Ex.
      * apply existsb_exists in Ex as [leg [Hleg Hle]]. apply Nat.leb_le in Hle.
        pose proof (Hmin leg Hleg). assert (elapsed = d) by lia. subst elapsed.
        exists 0. split; [lia|]. split; [intros m Hm; lia|]. right. simpl.
        repeat split; auto. lia.
      * assert (Hlive : elapsed < d).
        { destruct (Nat.lt_ge_cases elapsed d) as [|Hge]; [assumption|].
          assert (anyExpired legs elapsed = true); [|congruence].
          apply existsb_exists. exists shortest. split; [exact Hin|]. apply Nat.leb_le. lia. }
        destruct (IH (S elapsed) (tick app w)) as [n [Hn [Hbefore Hend]]]; [lia | lia |].
        exists (S n). split; [lia|]. split.
        -- intros [|m] Hm; simpl; [exact E | apply Hbefore; lia].
        -- simpl. destruct Hend as [[Hv Hr] | [Hn' [Hv Hr]]]; [left | right]; auto.
           repeat split; auto. lia.
Qed.

Lemma race_trace (legs : list (Locator * nat)) (d : nat) (w : World) :
  (forall leg, In leg legs -> d <= snd leg) ->
  (exists leg, In leg legs /\ snd leg = d) ->
  exists n,
    n <= d /\
    (forall m, m < n -> anyVisible legs (ui (elapse app m w)) = false) /\
    ((anyVisible legs (ui (elapse app n w)) = true /\
      race app legs w = (Ok tt, elapse app n w)) \/
     (n = d /\ anyVisible legs (ui (elapse app n w)) = false /\
      race app legs w = (Throw TimeoutError, elapse app n w))).
Proof.
  intros Hmin Hshortest. unfold race.
  assert (Hfuel : d - 0 <= list_max (map snd legs)).
  { destruct Hshortest as [leg [Hin <-]].
    pose proof (proj1 (list_max_le (map snd legs) (list_max (map snd legs))) (le_n _)) as Hall.
    rewrite Forall_forall in Hall. specialize (Hall (snd leg) (in_map snd legs leg Hin)). lia. }
  destruct (raceFrom_trace legs d (list_max (map snd legs)) 0 w Hmin Hshortest
              (Nat.le_0_l d) Hfuel) as [n [Hn [Hbefore Hend]]].
  exists n. split; [lia|]. split; [exact Hbefore|].
  destruct Hend as [Hwon | [Hn' Hlost]]; [left; exact Hwon | right].
  split; [lia | exact Hlost].
Qed.

Lemma anyVisible_noneVisible (legs : list (Locator * nat)) (s : Snapshot) :
  noneVisible (map fst legs) s = negb (anyVisible legs s).
Proof.
  unfold noneVisible, anyVisible. f_equal.
  induction legs as [|leg legs IH]; simpl; [reflexivity | now rewrite IH].
Qed.

(** A race, in the terms of [raceEnds]. *)
Lemma race_ends (legs : list (Locator * nat)) (d : nat) (w : World) :
  (forall leg, In leg legs -> d <= snd leg) ->
  (exists leg, In leg legs /\ snd leg = d) ->
  exists won w',
    raceEnds app (map fst legs) d w won w' /\
    race app legs w = (if won then Ok tt else Throw TimeoutError, w').
Proof.
  intros Hmin Hshortest.
  destruct (race_trace legs d w Hmin Hshortest) as [n [Hn [Hbefore Hend]]].
  assert (Hb : forall m, m < n -> noneVisible (map fst legs) (ui (elapse app m w)) = true).
  { intros m Hm. rewrite anyVisible_noneVisible, (Hbefore m Hm). reflexivity. }
  destruct Hend as [[Hv Hr] | [Hn' [Hv Hr]]].
  - exists true, (elapse app n w). split; [|exact Hr].
    exists n. split; [exact Hn|]. split; [reflexivity|]. split; [exact Hb|].
    split; [now rewrite anyVisible_noneVisible, Hv | discriminate].
  - exists false, (elapse app n w). split; [|exact Hr].
    exists n. split; [exact Hn|]. split; [reflexivity|]. split; [exact Hb|].
    split; [now rewrite anyVisible_noneVisible, Hv | intros _; exact Hn'].
Qed.

Lemma waitForTimeout_inv (n : nat) (w w1 : World) (r : Res unit) :
  waitForTimeout app n w = (r, w1) -> r = Ok tt /\ w1 = elapse app n w.
Proof. unfold waitForTimeout. intros H. split; congruence. Qed.

Lemma settles_ret {A : Type} (a : A) (w : World) : settles (ret a) w a.
Proof. now exists w. Qed.

Lemma settles_bind {A B : Type} (m : M A) (k : A -> M B) (w : World) (a : A) (b : B) :
  settles m w a ->
  (forall w', ui w' = ui w -> log w' = log w -> settles (k a) w' b) ->
  settles (bind m k) w b.
Proof.
  intros [w1 [H1 [Hu1 Hl1]]] Hk.
  destruct (Hk w1 Hu1 Hl1) as [w2 [H2 [Hu2 Hl2]]].
  exists w2. unfold bind. rewrite H1. repeat split; congruence.
Qed.

Lemma settles_waitForTimeout (n : nat) (w : World) :
  quiescent app (ui w) -> settles (waitForTimeout app n) w tt.
Proof.
  intros Hq. exists (elapse app n w). unfold waitForTimeout.
  repeat split; [now apply elapse_quiescent | apply elapse_log].
Qed.

Lemma settles_isElementVisible (l : Locator) (w : World) :
  quiescent app (ui w) ->
  settles (BasePage.isElementVisible app l) w (visible (ui w) l).
Proof.
  intros Hq. unfold settles, BasePage.isElementVisible, tryCatch, bind, ret.
  destruct (visible (ui w) l) eqn:E.
  - rewrite waitForVisible_now by exact E. now exists w.
  - destruct (waitForVisible_quiescent l TIMEOUTS.ELEMENT_SHORT_WAIT w Hq E)
      as [w' [H [Hu Hl]]].
    rewrite H. clear H. exists w'. auto.
Qed.

End WithApp.

(** A run that returns [a] is the pair of [a] and the world it leaves. *)
Lemma ok_run {A : Type} (p : Res A * World) (a : A) :
  value p = Ok a -> p = (Ok a, after p).
Proof. destruct p as [r w]. unfold value, after. cbn [fst snd]. now intros ->. Qed.

End EngineFacts.

Arguments elapse : simpl never.
Arguments waitForVisible : simpl never.
Arguments raceFrom : simpl never.

(** ** Panel visibility *)

Module PanelFacts.
Import Js JsFacts.

Lemma hasDisplayNone_iff (s : string) :
  BaseSearchPage.hasDisplayNone s = true <-> hidingDirective s.
Proof.
  unfold BaseSearchPage.hasDisplayNone, hidingDirective.
  rewrite orb_true_iff, !includes_spec. split.
  - intros [[pre [post H]] | [pre [post H]]].
    + exists pre, "", post. split; [exact H | now left].
    + exists pre, " ", post. split; [exact H | now right].
  - intros [pre [gap [post [H [-> | ->]]]]].
    + left. now exists pre, post.
    + right. now exists pre, post.
Qed.

Lemma hasDisplayNone_empty : BaseSearchPage.hasDisplayNone "" = false.
Proof. reflexivity. Qed.

Lemma hidingDirective_not_empty : ~ hidingDirective "".
Proof.
  intros H. apply hasDisplayNone_iff in H. rewrite hasDisplayNone_empty in H. discriminate.
Qed.

(** What the current revision answers for a panel that is in the page and
    whose style attribute reads [a]. *)
Lemma isSearchPanelVisible_present (w : World) :
  0 < count (ui w) SearchPanel ->
  BaseSearchPage.isSearchPanelVisible w =
  (Ok match styleAttr (ui w) SearchPanel with
      | AttrThrows => false
      | AttrNull => true
      | AttrValue s => negb (BaseSearchPage.hasDisplayNone s)
      end, w).
Proof.
  intros Hc. unfold BaseSearchPage.isSearchPanelVisible, tryCatch, bind, countOf, getStyle, ret.
  destruct (count (ui w) SearchPanel) as [|n]; [lia|]. simpl.
  destruct (styleAttr (ui w) SearchPanel) as [| |s]; try reflexivity.
  destruct s as [|c r]; reflexivity.
Qed.

Lemma isSearchPanelHidden_present (w : World) :
  0 < count (ui w) SearchPanel ->
  BaseSearchPage.isSearchPanelHidden w =
  (Ok match styleAttr (ui w) SearchPanel with
      | AttrThrows => true
      | AttrNull => false
      | AttrValue s => BaseSearchPage.hasDisplayNone s
      end, w).
Proof.
  intros Hc. unfold BaseSearchPage.isSearchPanelHidden, tryCatch, bind, countOf, getStyle, ret.
  destruct (count (ui w) SearchPanel) as [|n]; [lia|]. simpl.
  destruct (styleAttr (ui w) SearchPanel) as [| |s]; try reflexivity.
  destruct s as [|c r]; reflexivity.
Qed.

Lemma isSearchPanelVisible_absent (w : World) :
  count (ui w) SearchPanel = 0 ->
  BaseSearchPage.isSearchPanelVisible w = (Ok false, w).
Proof.
  intros Hc. unfold BaseSearchPage.isSearchPanelVisible, tryCatch, bind, countOf, ret.
  now rewrite Hc.
Qed.

Lemma isSearchPanelHidden_absent (w : World) :
  count (ui w) SearchPanel = 0 ->
  BaseSearchPage.isSearchPanelHidden w = (Ok true, w).
Proof.
  intros Hc. unfold BaseSearchPage.isSearchPanelHidden, tryCatch, bind, countOf, ret.
  now rewrite Hc.
Qed.

Lemma legacy_isSearchPanelVisible_present (w : World) (s : string) :
  0 < count (ui w) SearchPanel -> styleAttr (ui w) SearchPanel = AttrValue s ->
  Legacy.isSearchPanelVisible w =
  (Ok (negb (includes (toLowerCase s) "display:none")), w).
Proof.
  intros Hc Hs. unfold Legacy.isSearchPanelVisible, tryCatch, bind, countOf, getStyle, ret.
  destruct (count (ui w) SearchPanel) as [|n]; [lia|]. simpl. rewrite Hs.
  destruct s as [|c r]; reflexivity.
Qed.

End PanelFacts.

(** C10. For every page state the two panel predicates return, and they
    return complementary answers.  A panel that is not in the page is hidden
    (visible: false, hidden: true); so is a panel whose style attribute
    cannot be read, the engine error being caught; a panel in the page with
    no style attribute is visible. *)
Theorem C10_panel_predicates_complementary (w : World) :
  (exists b,
      BaseSearchPage.isSearchPanelVisible w = (Ok b, w) /\
      BaseSearchPage.isSearchPanelHidden w = (Ok (negb b), w)) /\
  (count (ui w) SearchPanel = 0 ->
     BaseSearchPage.isSearchPanelVisible w = (Ok false, w) /\
     BaseSearchPage.isSearchPanelHidden w = (Ok true, w)) /\
  (styleAttr (ui w) SearchPanel = AttrThrows ->
     BaseSearchPage.isSearchPanelVisible w = (Ok false, w) /\
     BaseSearchPage.isSearchPanelHidden w = (Ok true, w)) /\
  (0 < count (ui w) SearchPanel -> styleAttr (ui w) SearchPanel = AttrNull ->
     BaseSearchPage.isSearchPanelVisible w = (Ok true, w) /\
     BaseSearchPage.isSearchPanelHidden w = (Ok false, w)).
Proof.
  destruct (Nat.eq_dec (count (ui w) SearchPanel) 0) as [Hz | Hnz].
  - pose proof (PanelFacts.isSearchPanelVisible_absent w Hz) as Hv.
    pose proof (PanelFacts.isSearchPanelHidden_absent w Hz) as Hh.
    repeat split; auto; try lia. now exists false.
  - assert (Hp : 0 < count (ui w) SearchPanel) by lia.
    pose proof (PanelFacts.isSearchPanelVisible_present w Hp) as Hv.
    pose proof (PanelFacts.isSearchPanelHidden_present w Hp) as Hh.
    rewrite Hv, Hh. split; [|split; [|split]].
    + eexists. split; [reflexivity|].
      destruct (styleAttr (ui w) SearchPanel); simpl; try reflexivity.
      now rewrite negb_involutive.
    + intros Hc. lia.
    + intros ->. auto.
    + intros _ ->. auto.
Qed.

(** C10, on a page whose panel raises when its style is read. *)
Lemma C10_engine_error_witness :
  BaseSearchPage.isSearchPanelVisible (Scenario.start (Scenario.panelPage true AttrThrows))
    = (Ok false, Scenario.start (Scenario.panelPage true AttrThrows)) /\
  BaseSearchPage.isSearchPanelHidden (Scenario.start (Scenario.panelPage true AttrThrows))
    = (Ok true, Scenario.start (Scenario.panelPage true AttrThrows)).
Proof.
  apply (C10_panel_predicates_complementary
           (Scenario.start (Scenario.panelPage true AttrThrows))).
  reflexivity.
Defined.

(** C2, as amended.  For a panel that is in the page: with no style
    attribute it is visible; with style text [s] it is reported hidden
    exactly when the lower-cased [s] holds [display:none] or
    [display: none] (no space before the colon, at most one after it), and
    visible for every other [s].  The earlier revision recognises
    [display:none] only. *)
Theorem C2_visibility_from_style (w : World) :
  0 < count (ui w) SearchPanel ->
  (styleAttr (ui w) SearchPanel = AttrNull ->
     BaseSearchPage.isSearchPanelVisible w = (Ok true, w)) /\
  (forall s, styleAttr (ui w) SearchPanel = AttrValue s ->
     (BaseSearchPage.isSearchPanelVisible w = (Ok false, w) <-> hidingDirective s) /\
     (BaseSearchPage.isSearchPanelVisible w = (Ok true, w) <-> ~ hidingDirective s) /\
     (Legacy.isSearchPanelVisible w = (Ok false, w) <->
        exists pre post, Js.toLowerCase s = pre ++ "display:none" ++ post)).
Proof.
  intros Hp. pose proof (PanelFacts.isSearchPanelVisible_present w Hp) as Hv.
  split.
  - intros Hs. now rewrite Hv, Hs.
  - intros s Hs. rewrite Hv, Hs.
    rewrite (PanelFacts.legacy_isSearchPanelVisible_present w s Hp Hs).
    rewrite <- PanelFacts.hasDisplayNone_iff, <- JsFacts.includes_spec.
    destruct (BaseSearchPage.hasDisplayNone s);
      destruct (Js.includes (Js.toLowerCase s) "display:none"); simpl;
      repeat split; intros H; try congruence; try discriminate.
    all: try (exfalso; apply H; reflexivity).
Qed.

(** C2, on a panel styled [DISPLAY: None]. *)
Lemma C2_mixed_case_witness :
  BaseSearchPage.isSearchPanelVisible
    (Scenario.start (Scenario.panelPage true (AttrValue "margin: 0; DISPLAY: None")))
  = (Ok false, Scenario.start (Scenario.panelPage true (AttrValue "margin: 0; DISPLAY: None"))).
Proof.
  destruct (C2_visibility_from_style
              (Scenario.start (Scenario.panelPage true (AttrValue "margin: 0; DISPLAY: None"))))
    as [_ H].
  - simpl. lia.
  - destruct (H "margin: 0; DISPLAY: None" eq_refl) as [[_ Hhidden] _].
    apply Hhidden. exists "margin: 0; ", " ", "". split; [reflexivity | now right].
Defined.

(** C2 as stated fails: with a space before the colon the specification's
    rule hides the panel, the page object reports it visible. *)
Lemma C2_space_before_colon_counterexample :
  Spec.isVisible (Some "display : none") = false /\
  BaseSearchPage.isSearchPanelVisible
    (Scenario.start (Scenario.panelPage true (AttrValue "display : none")))
  = (Ok true, Scenario.start (Scenario.panelPage true (AttrValue "display : none"))).
Proof. split; reflexivity. Qed.

(** ** Reading the outcome of a search *)

Module ReadFacts.
Import Js JsFacts.

Lemma admin_getToastMessage_run (w : World) :
  AdminUserSearchPage.getToastMessage w = (Ok (shownText (ui w) ToastMessage), w).
Proof.
  unfold AdminUserSearchPage.getToastMessage, AdminUserSearchPage.isToastMessageVisible,
    tryCatch, bind, isVisible, textContentOf, ret, shownText.
  destruct (visible (ui w) ToastMessage); reflexivity.
Qed.

Lemma base_getToastMessage_run (w : World) :
  BaseSearchPage.getToastMessage w = (Ok (shownText (ui w) ToastMessage), w).
Proof.
  unfold BaseSearchPage.getToastMessage, tryCatch, bind, isVisible, textContentOf, ret,
    shownText.
  destruct (visible (ui w) ToastMessage); reflexivity.
Qed.

Lemma toastSignal_shownText (s : Snapshot) :
  includes (toLowerCase (shownText s ToastMessage)) "no records found" = toastSignal s.
Proof.
  unfold toastSignal, shownText. destruct (visible s ToastMessage); reflexivity.
Qed.

Lemma isNoRecordsFoundDisplayed_run (w : World) :
  AdminUserSearchPage.isNoRecordsFoundDisplayed w
  = (Ok (markerSignal (ui w) || toastSignal (ui w)), w).
Proof.
  unfold AdminUserSearchPage.isNoRecordsFoundDisplayed, bind, isVisible.
  cbv beta iota. rewrite admin_getToastMessage_run. unfold ret.
  now rewrite toastSignal_shownText.
Qed.

Lemma base_hasNoRecordsFound_run (w : World) :
  BaseSearchPage.hasNoRecordsFound BaseSearchPage.getToastMessage w
  = (Ok (markerSignal (ui w) || toastSignal (ui w)), w).
Proof.
  unfold BaseSearchPage.hasNoRecordsFound, bind, isVisible.
  cbv beta iota. rewrite base_getToastMessage_run. unfold ret.
  now rewrite toastSignal_shownText.
Qed.

(** A text that mentions the marker, in whatever case, has a non-empty
    trimmed form. *)
Lemma trim_of_marker_text (s : string) :
  includes (toLowerCase s) "no records found" = true -> trim s <> "".
Proof.
  intros H Ht. apply trim_empty_iff in Ht.
  rewrite <- allSpace_toLowerCase in Ht.
  rewrite (includes_not_blank _ _ "n"%char "o records found" eq_refl eq_refl H) in Ht.
  discriminate.
Qed.

Lemma trim_of_exact_marker_text (s : string) :
  includes s "No Records Found" = true -> trim s <> "".
Proof.
  intros H Ht. apply trim_empty_iff in Ht.
  rewrite (includes_not_blank _ _ "N"%char "o Records Found" eq_refl eq_refl H) in Ht.
  discriminate.
Qed.

Lemma includes_truthy (s needle : string) (c : ascii) (rest : string) :
  needle = String c rest -> includes s needle = true -> truthy s = true.
Proof.
  intros -> H. apply includes_spec in H as [pre [post ->]].
  destruct pre; reflexivity.
Qed.

Lemma marker_text_truthy (s : string) :
  includes (toLowerCase s) "no records found" = true -> truthy s = true.
Proof. destruct s; [discriminate | reflexivity]. Qed.

Lemma getNoRecordsFoundMessage_reported (w : World) :
  reportsNoMatch (ui w) = true ->
  exists message,
    AdminUserSearchPage.getNoRecordsFoundMessage w = (Ok message, w) /\
    message <> "" /\
    (message = trim (textContent (ui w) NoRecordsFound) \/
     message = trim (textContent (ui w) ToastMessage)).
Proof.
  unfold reportsNoMatch, toastSignal. intros H.
  unfold AdminUserSearchPage.getNoRecordsFoundMessage, bind, isVisible, ret, textContentOf.
  destruct (visible (ui w) NoRecordsFound) eqn:Hm; simpl in H.
  - destruct (includes (textContent (ui w) NoRecordsFound) "No Records Found") eqn:Hi.
    + rewrite (includes_truthy _ _ _ _ eq_refl Hi). simpl.
      pose proof (trim_of_exact_marker_text _ Hi) as Hne.
      destruct (trim (textContent (ui w) NoRecordsFound)) as [|c r] eqn:Et;
        [now elim Hne|]. simpl.
      eexists. split; [reflexivity|]. split; [discriminate | now left].
    + rewrite andb_false_r. simpl in *.
      apply andb_true_iff in H as [Hv Ht].
      unfold AdminUserSearchPage.isToastMessageVisible, tryCatch, isVisible.
      rewrite Hv, admin_getToastMessage_run. unfold shownText. rewrite Hv, Ht.
      rewrite (marker_text_truthy _ Ht). simpl.
      eexists. split; [reflexivity|].
      split; [now apply trim_of_marker_text | now right].
  - simpl. apply andb_true_iff in H as [Hv Ht].
    unfold AdminUserSearchPage.isToastMessageVisible, tryCatch, isVisible.
    rewrite Hv, admin_getToastMessage_run. unfold shownText. rewrite Hv, Ht.
    rewrite (marker_text_truthy _ Ht). simpl.
    eexists. split; [reflexivity|].
    split; [now apply trim_of_marker_text | now right].
Qed.

Lemma reportsNoMatch_signals (s : Snapshot) :
  reportsNoMatch s = true -> markerSignal s || toastSignal s = true.
Proof.
  unfold reportsNoMatch, markerSignal. intros H.
  apply orb_true_iff in H as [H | H].
  - apply andb_true_iff in H as [-> _]. reflexivity.
  - rewrite H. apply orb_true_r.
Qed.

End ReadFacts.

(** ** Collecting validation errors *)

Module ErrorFacts.
Import Js JsFacts.

Lemma pushError_keep (errors : list string) (e : string) :
  pushError errors e = (errors ++ keep (trim e))%list.
Proof.
  unfold pushError. destruct e as [|c r].
  - simpl. now rewrite app_nil_r.
  - destruct (trim (String c r)) as [|c' r'] eqn:E; simpl.
    + now rewrite app_nil_r.
    + reflexivity.
Qed.

Lemma getFieldErrorMessage_run (f : string) (w : World) :
  BaseSearchPage.getFieldErrorMessage f w = (Ok (shownText (ui w) (FieldError f)), w).
Proof.
  unfold BaseSearchPage.getFieldErrorMessage, bind, isVisible, textContentOf, ret, shownText.
  destruct (visible (ui w) (FieldError f)); reflexivity.
Qed.

Lemma getErrorToastMessage_run (w : World) :
  AdminUserSearchPage.getErrorToastMessage w = (Ok (shownText (ui w) ErrorToast), w).
Proof.
  unfold AdminUserSearchPage.getErrorToastMessage, AdminUserSearchPage.isErrorToastVisible,
    tryCatch, bind, isVisible, textContentOf, ret, shownText.
  destruct (visible (ui w) ErrorToast); reflexivity.
Qed.

Lemma legacy_getToastMessage_run (w : World) :
  Legacy.getToastMessage w = (Ok (shownText (ui w) AnyToast), w).
Proof.
  unfold Legacy.getToastMessage, Legacy.isToastVisible,
    tryCatch, bind, isVisible, textContentOf, ret, shownText.
  destruct (visible (ui w) AnyToast); reflexivity.
Qed.

Lemma keep_shownText_hidden (s : Snapshot) (l : Locator) :
  visible s l = false -> keep (trim (shownText s l)) = [].
Proof. unfold shownText. now intros ->. Qed.

Lemma getAllValidationErrors_run (w : World) :
  AdminUserSearchPage.getAllValidationErrors w =
  (Ok (keep (trim (shownText (ui w) (FieldError "Username")))
       ++ keep (trim (shownText (ui w) (FieldError "Employee Name")))
       ++ keep (trim (shownText (ui w) ErrorToast)))%list, w).
Proof.
  unfold AdminUserSearchPage.getAllValidationErrors, tryCatch, bind.
  rewrite !getFieldErrorMessage_run. unfold ret.
  unfold AdminUserSearchPage.isErrorToastVisible, tryCatch, isVisible.
  rewrite !pushError_keep. simpl app at 1.
  destruct (visible (ui w) ErrorToast) eqn:E.
  - rewrite getErrorToastMessage_run, pushError_keep. now rewrite <- app_assoc.
  - rewrite (keep_shownText_hidden _ _ E). now rewrite app_nil_r.
Qed.

Lemma legacy_getAllValidationErrors_run (w : World) :
  Legacy.getAllValidationErrors w =
  (Ok (keep (trim (shownText (ui w) (FieldError "Username")))
       ++ keep (trim (shownText (ui w) (FieldError "Employee Name")))
       ++ keep (trim (shownText (ui w) AnyToast)))%list, w).
Proof.
  unfold Legacy.getAllValidationErrors, tryCatch, bind.
  rewrite !getFieldErrorMessage_run. unfold ret.
  unfold Legacy.isToastVisible, tryCatch, isVisible.
  rewrite !pushError_keep. simpl app at 1.
  destruct (visible (ui w) AnyToast) eqn:E.
  - rewrite legacy_getToastMessage_run, pushError_keep. now rewrite <- app_assoc.
  - rewrite (keep_shownText_hidden _ _ E). now rewrite app_nil_r.
Qed.

(** A kept message is a trimmed text that is neither empty nor blank. *)
Lemma keep_trim_not_blank (e : string) :
  Forall (fun m => m <> "" /\ allSpace m = false) (keep (trim e)).
Proof.
  destruct (trim e) as [|c r] eqn:E; simpl; constructor; [|constructor].
  split; [discriminate|]. rewrite <- E. apply trim_not_blank. rewrite E. discriminate.
Qed.

End ErrorFacts.

(** C6, as amended.  The messages returned are, in this order, the error
    under the Username field, the error under the Employee Name field,
    then the error toast: the field-level errors come in the order in which
    the method reads the fields, which is the reverse of the order in which
    the class defines and fills them.  Each message is the trimmed text of
    a visible element, left out when that text is empty or blank; no
    returned message is empty or made of white space only.  The earlier
    revision does the same with its toast locator. *)
Theorem C6_validation_errors_in_order (w : World) :
  let fromUsername := keep (Js.trim (shownText (ui w) (FieldError "Username"))) in
  let fromEmployeeName := keep (Js.trim (shownText (ui w) (FieldError "Employee Name"))) in
  (AdminUserSearchPage.getAllValidationErrors w
   = (Ok (fromUsername ++ fromEmployeeName
          ++ keep (Js.trim (shownText (ui w) ErrorToast)))%list, w)) /\
  (Legacy.getAllValidationErrors w
   = (Ok (fromUsername ++ fromEmployeeName
          ++ keep (Js.trim (shownText (ui w) AnyToast)))%list, w)) /\
  (forall errors,
      AdminUserSearchPage.getAllValidationErrors w = (Ok errors, w) \/
      Legacy.getAllValidationErrors w = (Ok errors, w) ->
      Forall (fun m => m <> "" /\ Js.allSpace m = false) errors) /\
  (AdminUserSearchPage.getAllValidationErrors w
   = (Ok (flat_map (fun f => keep (Js.trim (shownText (ui w) (FieldError f))))
                   (rev fieldDefinitionOrder)
          ++ keep (Js.trim (shownText (ui w) ErrorToast)))%list, w)).
Proof.
  cbv zeta. split; [apply ErrorFacts.getAllValidationErrors_run|].
  split; [apply ErrorFacts.legacy_getAllValidationErrors_run|]. split.
  - intros errors [H | H].
    + rewrite ErrorFacts.getAllValidationErrors_run in H. injection H as <-.
      repeat (apply Forall_app; split); apply ErrorFacts.keep_trim_not_blank.
    + rewrite ErrorFacts.legacy_getAllValidationErrors_run in H. injection H as <-.
      repeat (apply Forall_app; split); apply ErrorFacts.keep_trim_not_blank.
  - rewrite ErrorFacts.getAllValidationErrors_run.
    cbn [fieldDefinitionOrder rev flat_map app]. now rewrite app_nil_r, <- app_assoc.
Qed.

(** C6, on a form with both field errors and a blank error toast. *)
Lemma C6_both_fields_witness :
  AdminUserSearchPage.getAllValidationErrors (Scenario.start Scenario.errorsPage)
  = (Ok ["Required"; "Invalid"], Scenario.start Scenario.errorsPage).
Proof.
  destruct (C6_validation_errors_in_order (Scenario.start Scenario.errorsPage)) as [H _].
  exact H.
Defined.

(** C6 as stated fails: with the error "Required" under Username and the
    error "Invalid" under Employee Name, both revisions return the Username
    message first, whereas field-definition order, the order in which
    [fillSearchCriteria] goes through the fields, has Employee Name
    first. *)
Lemma C6_read_order_counterexample :
  let w := Scenario.start Scenario.errorsPage in
  value (AdminUserSearchPage.getAllValidationErrors w) = Ok ["Required"; "Invalid"] /\
  value (Legacy.getAllValidationErrors w) = Ok ["Required"; "Invalid"] /\
  Js.trim (shownText (ui w) (FieldError "Username")) = "Required" /\
  Js.trim (shownText (ui w) (FieldError "Employee Name")) = "Invalid" /\
  specValidationMessages (ui w) = ["Invalid"; "Required"] /\
  log (after (AdminUserSearchPage.fillSearchCriteria Scenario.idleApp
                (Scenario.byBothNames "Paul" "Admin")
                (Scenario.start Scenario.formOnlyPage)))
  = [ Fill (LabelInput "Username") "Admin"; Clear (LabelInput "Username");
      Fill (LabelInput "Employee Name") "Paul"; Clear (LabelInput "Employee Name") ].
Proof. vm_compute. repeat split. Qed.

(** ** Results against no records *)

Module OutcomeFacts.
Section WithApp.
Variable app : App.

Lemma admin_hasSearchResults_run (w : World) :
  AdminUserSearchPage.hasSearchResults app w =
  (Ok (negb (markerSignal (ui (elapse app 1000 w)) || toastSignal (ui (elapse app 1000 w)))
       && (0 <? count (ui (elapse app 1000 w)) TableRows)),
   elapse app 1000 w).
Proof.
  unfold AdminUserSearchPage.hasSearchResults, bind, waitForTimeout. cbv beta iota.
  rewrite ReadFacts.isNoRecordsFoundDisplayed_run. reflexivity.
Qed.

Lemma admin_hasNoRecordsFound_run (w : World) :
  AdminUserSearchPage.hasNoRecordsFound w
  = (Ok (markerSignal (ui w) || toastSignal (ui w)), w).
Proof. apply ReadFacts.isNoRecordsFoundDisplayed_run. Qed.

(** Whatever the page does meanwhile, [isElementVisible] answers for the
    page as it is when the answer comes. *)
Lemma isElementVisible_spec (l : Locator) (w : World) :
  exists w', BasePage.isElementVisible app l w = (Ok (visible (ui w') l), w')
             /\ log w' = log w
             /\ clock w' <= clock w + TIMEOUTS.ELEMENT_SHORT_WAIT.
Proof.
  destruct (EngineFacts.waitForVisible_spec app l TIMEOUTS.ELEMENT_SHORT_WAIT w)
    as [w' [Hl [Hc [[H Hv] | [H Hv]]]]];
    exists w'; unfold BasePage.isElementVisible, tryCatch, bind, ret;
    rewrite H, Hv; clear H; auto.
Qed.

Lemma settles_base_hasSearchResults (w : World) :
  quiescent app (ui w) ->
  settles (BaseSearchPage.hasSearchResults app) w
          (visible (ui w) TableBody && negb (visible (ui w) NoRecordsFound)).
Proof.
  intros Hq. unfold BaseSearchPage.hasSearchResults.
  eapply EngineFacts.settles_bind; [now apply EngineFacts.settles_isElementVisible|].
  intros w1 Hu1 _. destruct (visible (ui w) TableBody); simpl.
  - eapply EngineFacts.settles_bind.
    + apply EngineFacts.settles_isElementVisible. unfold quiescent. now rewrite Hu1.
    + intros w2 _ _. rewrite Hu1. apply EngineFacts.settles_ret.
  - apply EngineFacts.settles_ret.
Qed.

Lemma settles_admin_hasSearchResults (w : World) :
  quiescent app (ui w) ->
  settles (AdminUserSearchPage.hasSearchResults app) w
          (negb (markerSignal (ui w) || toastSignal (ui w)) && (0 <? count (ui w) TableRows)).
Proof.
  intros Hq. exists (elapse app 1000 w). rewrite admin_hasSearchResults_run.
  rewrite (EngineFacts.elapse_quiescent app 1000 w Hq), EngineFacts.elapse_log. auto.
Qed.

Lemma settles_getSearchResultsCount (w : World) :
  quiescent app (ui w) ->
  settles (BaseSearchPage.getSearchResultsCount app) w
          (if visible (ui w) NoRecordsFound then 0 else count (ui w) TableRows).
Proof.
  intros Hq. unfold BaseSearchPage.getSearchResultsCount.
  eapply EngineFacts.settles_bind; [now apply EngineFacts.settles_isElementVisible|].
  intros w1 Hu1 Hl1. destruct (visible (ui w) NoRecordsFound).
  - apply EngineFacts.settles_ret.
  - exists w1. unfold countOf. now rewrite Hu1.
Qed.

Lemma getSearchResultsCount_marker (w : World) :
  visible (ui w) NoRecordsFound = true ->
  BaseSearchPage.getSearchResultsCount app w = (Ok 0, w).
Proof.
  intros Hv. unfold BaseSearchPage.getSearchResultsCount, BasePage.isElementVisible,
    tryCatch, bind, ret.
  now rewrite EngineFacts.waitForVisible_now.
Qed.

End WithApp.

(** With rows in the table and a no-records toast still on the page, the
    two predicates of the base class are both true: its [hasSearchResults]
    looks at the marker only. *)
Lemma base_predicates_overlap_on_toast :
  let w := Scenario.start (Scenario.listingPage (Some "No Records Found") None) in
  value (BaseSearchPage.hasSearchResults Scenario.idleApp w) = Ok true /\
  value (BaseSearchPage.hasNoRecordsFound BaseSearchPage.getToastMessage w) = Ok true.
Proof. vm_compute. split; reflexivity. Qed.

(** The message is looked up with the exact text [No Records Found] in the
    marker and in any letter case in the toast: a marker in another case
    gives a verdict without a message. *)
Lemma marker_in_other_case_has_no_message :
  let w := Scenario.start (Scenario.emptyListingPage "no records found") in
  value (AdminUserSearchPage.hasNoRecordsFound w) = Ok true /\
  value (AdminUserSearchPage.getNoRecordsFoundMessage w) = Ok "".
Proof. vm_compute. split; reflexivity. Qed.

End OutcomeFacts.

(** C1, as amended.  [hasSearchResults] and [hasNoRecordsFound] of the admin
    page, read one after the other on the same page, are never both true:
    [hasSearchResults] waits a second, then is true exactly when neither the
    marker nor a no-records toast shows and the table has rows.  For the
    methods of the base class the exclusion covers the in-table marker.
    Validation errors take no part in either verdict. *)
Theorem C1_results_exclude_no_records (app : App) (w : World) :
  value ((hasResults <- AdminUserSearchPage.hasSearchResults app ;;
          hasNoRecords <- AdminUserSearchPage.hasNoRecordsFound ;;
          ret (hasResults && hasNoRecords)) w) = Ok false /\
  (let w' := elapse app 1000 w in
   AdminUserSearchPage.hasSearchResults app w =
   (Ok (negb (markerSignal (ui w') || toastSignal (ui w'))
        && (0 <? count (ui w') TableRows)), w')) /\
  value ((hasResults <- BaseSearchPage.hasSearchResults app ;;
          marker <- isVisible NoRecordsFound ;;
          ret (hasResults && marker)) w) = Ok false.
Proof.
  split; [|split].
  - unfold bind. rewrite OutcomeFacts.admin_hasSearchResults_run.
    rewrite OutcomeFacts.admin_hasNoRecordsFound_run. unfold ret, value. simpl.
    destruct (markerSignal _ || toastSignal _); simpl;
      [reflexivity | now rewrite andb_false_r].
  - apply OutcomeFacts.admin_hasSearchResults_run.
  - unfold BaseSearchPage.hasSearchResults, bind.
    destruct (OutcomeFacts.isElementVisible_spec app TableBody w) as [w1 [H1 _]].
    rewrite H1. clear H1. destruct (visible (ui w1) TableBody).
    + destruct (OutcomeFacts.isElementVisible_spec app NoRecordsFound w1) as [w2 [H2 _]].
      rewrite H2. clear H2. unfold ret, isVisible, value. simpl.
      now destruct (visible (ui w2) NoRecordsFound).
    + reflexivity.
Qed.

(** C1 as stated fails: an error shows under the Employee Name field, the
    rows of an earlier search are still in the table, and
    [hasSearchResults] answers true. *)
Lemma C1_stale_rows_counterexample :
  let w := Scenario.start (Scenario.listingPage None (Some "Invalid")) in
  validationErrorShown (ui w) = true /\
  value (AdminUserSearchPage.hasAnyValidationError w) = Ok true /\
  value (AdminUserSearchPage.hasSearchResults Scenario.idleApp w) = Ok true.
Proof. vm_compute. auto. Qed.

(** C7, as amended.  On a page at rest that shows the results table with
    at least one row and no no-records indicator (neither the marker nor a
    toast), [hasSearchResults] is true, for the admin page and for the base
    class, and both counting methods report the number of rows of the table.
    Whenever the marker is visible [getSearchResultsCount] reports 0, while
    [getSearchResultRowCount] always reports the number of rows. *)
Theorem C7_results_and_row_count (app : App) (w : World) :
  quiescent app (ui w) ->
  visible (ui w) TableBody = true ->
  0 < count (ui w) TableRows ->
  markerSignal (ui w) = false ->
  toastSignal (ui w) = false ->
  settles (AdminUserSearchPage.hasSearchResults app) w true /\
  settles (BaseSearchPage.hasSearchResults app) w true /\
  settles (BaseSearchPage.getSearchResultsCount app) w (count (ui w) TableRows) /\
  (forall w0 : World,
      AdminUserSearchPage.getSearchResultRowCount w0 = (Ok (count (ui w0) TableRows), w0) /\
      (visible (ui w0) NoRecordsFound = true ->
       BaseSearchPage.getSearchResultsCount app w0 = (Ok 0, w0))).
Proof.
  intros Hq Hbody Hrows Hmarker Htoast.
  assert (Hlt : (0 <? count (ui w) TableRows) = true) by now apply Nat.ltb_lt.
  split; [|split; [|split]].
  - pose proof (OutcomeFacts.settles_admin_hasSearchResults app w Hq) as H.
    now rewrite Hmarker, Htoast, Hlt in H.
  - pose proof (OutcomeFacts.settles_base_hasSearchResults app w Hq) as H.
    unfold markerSignal in Hmarker. now rewrite Hbody, Hmarker in H.
  - pose proof (OutcomeFacts.settles_getSearchResultsCount app w Hq) as H.
    unfold markerSignal in Hmarker. now rewrite Hmarker in H.
  - intros w0. split; [reflexivity|]. apply OutcomeFacts.getSearchResultsCount_marker.
Qed.

(** C7, on a listing of three rows. *)
Lemma C7_listing_witness :
  settles (BaseSearchPage.getSearchResultsCount Scenario.idleApp)
          (Scenario.start (Scenario.listingPage None None)) 3.
Proof.
  apply (C7_results_and_row_count Scenario.idleApp
           (Scenario.start (Scenario.listingPage None None))).
  - reflexivity.
  - reflexivity.
  - simpl. lia.
  - reflexivity.
  - reflexivity.
Defined.

(** C7 as stated fails: the table has three rows and no validation error
    shows, but the toast of an earlier empty search is still on the page,
    and [hasSearchResults] answers false. *)
Lemma C7_stale_toast_counterexample :
  let w := Scenario.start (Scenario.listingPage (Some "No Records Found") None) in
  count (ui w) TableRows = 3 /\
  visible (ui w) TableBody = true /\
  validationErrorShown (ui w) = false /\
  value (AdminUserSearchPage.hasAnyValidationError w) = Ok false /\
  value (AdminUserSearchPage.hasSearchResults Scenario.idleApp w) = Ok false.
Proof. vm_compute. auto. Qed.

(** ** Submitting a search *)

Module SubmitFacts.
Section WithApp.
Variable app : App.

Lemma noSearchClick_ret {A : Type} (a : A) : noSearchClick (ret a).
Proof. intros w. reflexivity. Qed.

Lemma noSearchClick_bind {A B : Type} (m : M A) (k : A -> M B) :
  noSearchClick m -> (forall a, noSearchClick (k a)) -> noSearchClick (bind m k).
Proof.
  intros Hm Hk w. unfold bind. specialize (Hm w).
  destruct (m w) as [[a | e] w1]; simpl in *.
  - now rewrite Hk.
  - exact Hm.
Qed.

Lemma noSearchClick_isVisible (l : Locator) : noSearchClick (isVisible l).
Proof. intros w. reflexivity. Qed.

Lemma noSearchClick_waitForVisible (l : Locator) (t : nat) :
  noSearchClick (waitForVisible app l t).
Proof.
  intros w. destruct (EngineFacts.waitForVisible_spec app l t w)
    as [w' [Hl [_ [[H _] | [H _]]]]]; rewrite H; clear H;
    unfold searchClicks, after; simpl; now rewrite Hl.
Qed.

Lemma noSearchClick_perform (a : Action) :
  isSearchClick a = false -> noSearchClick (perform app a).
Proof. intros H w. unfold searchClicks, after, perform. simpl. now rewrite H. Qed.

Lemma noSearchClick_clickElement (l : Locator) (t : nat) :
  isSearchClick (Click l) = false -> noSearchClick (BasePage.clickElement app l t).
Proof.
  intros H. apply noSearchClick_bind; [apply noSearchClick_waitForVisible|].
  intros _. now apply noSearchClick_perform.
Qed.

Lemma noSearchClick_fillInput (l : Locator) (text : string) (t : nat) :
  noSearchClick (BasePage.fillInput app l text t).
Proof.
  apply noSearchClick_bind; [apply noSearchClick_waitForVisible|]. intros _.
  apply noSearchClick_bind; intros; now apply noSearchClick_perform.
Qed.

Lemma noSearchClick_whenGiven (o : option string) (k : string -> M unit) :
  (forall v, noSearchClick (k v)) -> noSearchClick (whenGiven o k).
Proof.
  intros Hk. destruct o as [v|]; simpl; [|apply noSearchClick_ret].
  destruct (Js.truthy v); [apply Hk | apply noSearchClick_ret].
Qed.

Lemma noSearchClick_selectDropdownOption (f v : string) :
  noSearchClick (BaseSearchPage.selectDropdownOption app f v).
Proof.
  apply noSearchClick_bind; intros; now apply noSearchClick_clickElement.
Qed.

(** Filling the form does not submit it. *)
Lemma noSearchClick_fillSearchCriteria (criteria : Criteria) :
  noSearchClick (AdminUserSearchPage.fillSearchCriteria app criteria).
Proof.
  unfold AdminUserSearchPage.fillSearchCriteria.
  repeat (apply noSearchClick_bind; [|intros _]); apply noSearchClick_whenGiven; intros v.
  - apply noSearchClick_bind; [apply noSearchClick_fillInput|]. intros _.
    apply noSearchClick_bind; [apply noSearchClick_isVisible|]. intros [|].
    + now apply noSearchClick_clickElement.
    + apply noSearchClick_ret.
  - apply noSearchClick_fillInput.
  - apply noSearchClick_selectDropdownOption.
  - apply noSearchClick_selectDropdownOption.
Qed.

Lemma validateSearchCriteria_run (criteria : Criteria) (w : World) :
  AdminUserSearchPage.validateSearchCriteria criteria w
  = (Ok (filledFieldInvalid criteria (ui w)), w).
Proof.
  unfold AdminUserSearchPage.validateSearchCriteria, filledFieldInvalid,
    AdminUserSearchPage.hasEmployeeNameError, AdminUserSearchPage.hasUsernameError,
    BaseSearchPage.hasFieldError, bind, isVisible, ret.
  destruct (given (employeeName criteria)); destruct (given (username criteria));
    simpl; try reflexivity; now rewrite orb_false_r.
Qed.

(** The two parts of a sequence that ran to its end. *)
Lemma bind_ok {A B : Type} (m : M A) (k : A -> M B) (w w2 : World) (b : B) :
  bind m k w = (Ok b, w2) ->
  exists a w1, m w = (Ok a, w1) /\ k a w1 = (Ok b, w2).
Proof.
  unfold bind. destruct (m w) as [[a | e] w1]; intros H.
  - now exists a, w1.
  - discriminate.
Qed.

End WithApp.
End SubmitFacts.

(** C3, as amended.  When, once the criteria are filled in and the
    validation wait is over, an error shows under a field that the criteria
    fill (Employee Name or Username, given and not empty), [searchUsers]
    returns at that point, with no value: the page and the action log are
    those left by filling and waiting, and the search button has not been
    clicked.  Both revisions behave so. *)
Theorem C3_invalid_filled_field_short_circuits
  (app : App) (criteria : Criteria) (w w1 : World) :
  (AdminUserSearchPage.fillSearchCriteria app criteria ;;
   waitForTimeout app TIMEOUTS.VALIDATION_WAIT) w = (Ok tt, w1) ->
  filledFieldInvalid criteria (ui w1) = true ->
  AdminUserSearchPage.searchUsers app criteria w = (Ok tt, w1) /\
  Legacy.searchUsers app criteria w = (Ok tt, w1) /\
  searchClicks w1 = searchClicks w.
Proof.
  intros Hfill Hinvalid.
  apply SubmitFacts.bind_ok in Hfill as [[] [w0 [Hf Hw]]].
  split; [|split].
  - unfold AdminUserSearchPage.searchUsers, bind. rewrite Hf.
    unfold bind in Hw. rewrite Hw.
    rewrite SubmitFacts.validateSearchCriteria_run, Hinvalid. reflexivity.
  - unfold Legacy.searchUsers, bind. rewrite Hf.
    change (waitForTimeout app 1000 w0)
      with (waitForTimeout app TIMEOUTS.VALIDATION_WAIT w0).
    rewrite Hw.
    unfold AdminUserSearchPage.hasEmployeeNameError, AdminUserSearchPage.hasUsernameError,
      BaseSearchPage.hasFieldError, isVisible, ret.
    unfold filledFieldInvalid in Hinvalid.
    destruct (given (employeeName criteria)); destruct (given (username criteria));
      simpl in *;
      destruct (visible (ui w1) (FieldError "Employee Name"));
      simpl in *; try rewrite Hinvalid; try reflexivity; try discriminate.
  - pose proof (SubmitFacts.noSearchClick_fillSearchCriteria app criteria w) as Hn.
    rewrite Hf in Hn. unfold after in Hn. simpl in Hn. rewrite <- Hn.
    apply EngineFacts.waitForTimeout_inv in Hw as [_ ->].
    unfold searchClicks. now rewrite EngineFacts.elapse_log.
Qed.

(** C3, on a search by an employee name that the form rejects. *)
Lemma C3_invalid_employee_name_witness :
  let w := Scenario.start (Scenario.listingPage None (Some "Invalid")) in
  let w1 := after ((AdminUserSearchPage.fillSearchCriteria Scenario.idleApp
                      (Scenario.byEmployeeName "zzz") ;;
                    waitForTimeout Scenario.idleApp TIMEOUTS.VALIDATION_WAIT) w) in
  AdminUserSearchPage.searchUsers Scenario.idleApp (Scenario.byEmployeeName "zzz") w
  = (Ok tt, w1) /\ searchClicks w1 = 0.
Proof.
  cbv zeta.
  destruct (C3_invalid_filled_field_short_circuits Scenario.idleApp
              (Scenario.byEmployeeName "zzz")
              (Scenario.start (Scenario.listingPage None (Some "Invalid")))
              (after ((AdminUserSearchPage.fillSearchCriteria Scenario.idleApp
                         (Scenario.byEmployeeName "zzz") ;;
                       waitForTimeout Scenario.idleApp TIMEOUTS.VALIDATION_WAIT)
                        (Scenario.start (Scenario.listingPage None (Some "Invalid"))))))
    as [H [_ Hclicks]].
  - vm_compute. reflexivity.
  - vm_compute. reflexivity.
  - split; [exact H | exact Hclicks].
Defined.

(** C3 as stated fails: the error of an earlier search still shows under
    the Employee Name field, the criteria fill the Username only, and
    [searchUsers] clicks the search button. *)
Lemma C3_error_under_other_field_counterexample :
  let w := Scenario.start (Scenario.listingPage None (Some "Invalid")) in
  let run := AdminUserSearchPage.searchUsers Scenario.idleApp (Scenario.byUsername "Admin") w in
  let before := after ((AdminUserSearchPage.fillSearchCriteria Scenario.idleApp
                          (Scenario.byUsername "Admin") ;;
                        waitForTimeout Scenario.idleApp TIMEOUTS.VALIDATION_WAIT) w) in
  visible (ui before) (FieldError "Employee Name") = true /\
  value (BaseSearchPage.getFieldErrorMessage "Employee Name" before) = Ok "Invalid" /\
  value run = Ok tt /\
  searchClicks w = 0 /\
  searchClicks (after run) = 1.
Proof. vm_compute. repeat split. Qed.

(** ** Waiting for the outcome *)

Module WaitFacts.
Section WithApp.
Variable app : App.

(** A race is over, won or lost, by the budget of each of its legs. *)
Lemma raceFrom_deadline (legs : list (Locator * nat)) (fuel elapsed : nat) (w : World) :
  forall leg, In leg legs ->
    clock (after (raceFrom app legs fuel elapsed w)) <= clock w + (snd leg - elapsed).
Proof.
  revert elapsed w. induction fuel as [|f IH]; intros elapsed w leg Hin;
    unfold raceFrom; fold (raceFrom app).
  - destruct (anyVisible legs (ui w)); [|destruct (anyExpired legs elapsed)];
      simpl; lia.
  - destruct (anyVisible legs (ui w)); [simpl; lia|].
    destruct (anyExpired legs elapsed) eqn:E; [simpl; lia|].
    assert (Hlive : elapsed < snd leg).
    { unfold anyExpired in E. destruct (Nat.leb_spec (snd leg) elapsed) as [Hle|]; [|lia].
      assert (existsb (fun l => snd l <=? elapsed) legs = true); [|congruence].
      apply existsb_exists. exists leg. split; [exact Hin | now apply Nat.leb_le]. }
    specialize (IH (S elapsed) (tick app w) leg Hin). simpl in IH. lia.
Qed.

Lemma race_spec (legs : list (Locator * nat)) (w : World) :
  exists r w',
    race app legs w = (r, w') /\ log w' = log w /\
    (forall leg, In leg legs -> clock w' <= clock w + snd leg) /\
    (r = Ok tt \/ r = Throw TimeoutError).
Proof.
  unfold race.
  destruct (EngineFacts.raceFrom_spec app legs (list_max (map snd legs)) 0 w)
    as [r [w' [H [Hl [_ Hr]]]]].
  exists r, w'. split; [exact H|]. split; [exact Hl|]. split.
  - intros leg Hin. pose proof (raceFrom_deadline legs (list_max (map snd legs)) 0 w leg Hin) as Hd.
    rewrite H in Hd. unfold after in Hd. simpl in Hd. lia.
  - destruct Hr as [[-> _] | [-> _]]; auto.
Qed.

(** A race whose loss is caught never raises. *)
Lemma caught_race (legs : list (Locator * nat)) (w : World) :
  exists w', tryCatch (race app legs) (fun _ => ret tt) w = (Ok tt, w') /\
             log w' = log w /\
             (forall leg, In leg legs -> clock w' <= clock w + snd leg).
Proof.
  destruct (race_spec legs w) as [r [w' [H [Hl [Hc Hr]]]]].
  exists w'. unfold tryCatch. rewrite H.
  destruct Hr as [-> | ->]; auto.
Qed.

(** The two races of the search waits. *)
Lemma race_two_ends (w : World) :
  exists won w',
    raceEnds app [TableBody; NoRecordsFound] TIMEOUTS.SEARCH_RESULTS w won w' /\
    race app [ (TableBody, TIMEOUTS.SEARCH_RESULTS);
               (NoRecordsFound, TIMEOUTS.SEARCH_RESULTS) ] w
    = (if won then Ok tt else Throw TimeoutError, w').
Proof.
  apply (EngineFacts.race_ends app
           [ (TableBody, TIMEOUTS.SEARCH_RESULTS); (NoRecordsFound, TIMEOUTS.SEARCH_RESULTS) ]
           TIMEOUTS.SEARCH_RESULTS w).
  - intros leg [<- | [<- | []]]; apply le_n.
  - exists (TableBody, TIMEOUTS.SEARCH_RESULTS). split; [now left | reflexivity].
Qed.

Lemma race_three_ends (w : World) :
  exists won w',
    raceEnds app [TableBody; NoRecordsFound; ToastMessage] TIMEOUTS.SEARCH_RESULTS w won w' /\
    race app [ (TableBody, TIMEOUTS.SEARCH_RESULTS);
               (NoRecordsFound, TIMEOUTS.SEARCH_RESULTS);
               (ToastMessage, TIMEOUTS.ELEMENT_WAIT) ] w
    = (if won then Ok tt else Throw TimeoutError, w').
Proof.
  apply (EngineFacts.race_ends app
           [ (TableBody, TIMEOUTS.SEARCH_RESULTS); (NoRecordsFound, TIMEOUTS.SEARCH_RESULTS);
             (ToastMessage, TIMEOUTS.ELEMENT_WAIT) ]
           TIMEOUTS.SEARCH_RESULTS w).
  - intros leg [<- | [<- | [<- | []]]]; try apply le_n.
    apply Nat.leb_le. vm_compute. reflexivity.
  - exists (TableBody, TIMEOUTS.SEARCH_RESULTS). split; [now left | reflexivity].
Qed.

Lemma base_hasSearchResults_returns (w : World) :
  exists b w', BaseSearchPage.hasSearchResults app w = (Ok b, w').
Proof.
  unfold BaseSearchPage.hasSearchResults, bind.
  destruct (OutcomeFacts.isElementVisible_spec app TableBody w) as [w1 [H1 _]].
  rewrite H1. clear H1. destruct (visible (ui w1) TableBody).
  - destruct (OutcomeFacts.isElementVisible_spec app NoRecordsFound w1) as [w2 [H2 _]].
    rewrite H2. clear H2. unfold ret. eauto.
  - unfold ret. eauto.
Qed.

Lemma legacy_hasNoRecordsFound_returns (w : World) :
  exists b, Legacy.hasNoRecordsFound w = (Ok b, w).
Proof.
  unfold Legacy.hasNoRecordsFound, BaseSearchPage.hasNoRecordsFound, bind, isVisible.
  cbv beta iota. rewrite ErrorFacts.legacy_getToastMessage_run. unfold ret. eauto.
Qed.

Lemma admin_waitForSearchResults_returns (w : World) :
  exists w', AdminUserSearchPage.waitForSearchResults app w = (Ok tt, w') /\
             log w' = log w /\
             clock w' <= clock w + 1000 + TIMEOUTS.SEARCH_RESULTS.
Proof.
  unfold AdminUserSearchPage.waitForSearchResults, BaseSearchPage.waitForSearchResults, bind.
  rewrite OutcomeFacts.admin_hasSearchResults_run.
  rewrite OutcomeFacts.admin_hasNoRecordsFound_run.
  pose proof (EngineFacts.elapse_log app 1000 w) as Hl.
  pose proof (EngineFacts.elapse_clock app 1000 w) as Hc.
  destruct (_ || _).
  - exists (elapse app 1000 w). unfold ret. repeat split; auto; lia.
  - destruct (caught_race [ (TableBody, TIMEOUTS.SEARCH_RESULTS);
                            (NoRecordsFound, TIMEOUTS.SEARCH_RESULTS) ]
                          (elapse app 1000 w)) as [w' [H [Hl' Hc']]].
    exists w'. rewrite H. repeat split; [congruence|].
    specialize (Hc' (TableBody, TIMEOUTS.SEARCH_RESULTS) (or_introl eq_refl)).
    simpl snd in Hc'. lia.
Qed.

Lemma legacy_waitForSearchResults_returns (w : World) :
  exists w', Legacy.waitForSearchResults app w = (Ok tt, w') /\ log w' = log w.
Proof.
  unfold Legacy.waitForSearchResults, BaseSearchPage.waitForSearchResults, bind.
  destruct (base_hasSearchResults_returns w) as [b [w1 H1]].
  assert (Hl1 : log w1 = log w).
  { revert H1. unfold BaseSearchPage.hasSearchResults, bind.
    destruct (OutcomeFacts.isElementVisible_spec app TableBody w) as [wa [Ha [Hla _]]].
    rewrite Ha. clear Ha. destruct (visible (ui wa) TableBody).
    - destruct (OutcomeFacts.isElementVisible_spec app NoRecordsFound wa) as [wb [Hb [Hlb _]]].
      rewrite Hb. clear Hb. unfold ret. intros H. injection H as _ <-. congruence.
    - unfold ret. intros H. injection H as _ <-. exact Hla. }
  rewrite H1. clear H1.
  destruct (legacy_hasNoRecordsFound_returns w1) as [b' H2]. rewrite H2. clear H2.
  destruct (b || b').
  - exists w1. unfold ret. auto.
  - destruct (caught_race [ (TableBody, TIMEOUTS.SEARCH_RESULTS);
                            (NoRecordsFound, TIMEOUTS.SEARCH_RESULTS) ] w1)
      as [w' [H [Hl' _]]].
    exists w'. rewrite H. split; [reflexivity | congruence].
Qed.

Lemma admin_waitForSearchComplete_returns (w : World) :
  AdminUserSearchPage.waitForSearchComplete app w = (Ok tt, elapse app 1000 w).
Proof.
  unfold AdminUserSearchPage.waitForSearchComplete, BaseSearchPage.waitForSearchComplete, bind.
  rewrite OutcomeFacts.admin_hasSearchResults_run.
  rewrite OutcomeFacts.admin_hasNoRecordsFound_run.
  now destruct (_ || _).
Qed.

End WithApp.
End WaitFacts.

(** C4, as amended.  The wait after a submission is not one race of three
    legs whose loss reaches the caller.

    [waitForSearchResults] first makes two quick checks, outside any
    [try]: a failure of theirs reaches the caller, and a positive answer
    ends the wait at once.  Otherwise it races exactly two waits, for the
    results container and for the in-table marker, each with the budget
    [SEARCH_RESULTS]: it returns at the first millisecond at which one of
    the two is visible and, failing that, after exactly [SEARCH_RESULTS]
    milliseconds, normally in both cases, the lost race being caught.
    [waitForSearchComplete], which [searchUsers] awaits after the click
    through [waitForSearchCompletion], makes the two quick checks and
    races nothing.

    [waitForAdminSearchResults], its quick checks negative, races three
    waits, for the results container, the marker and a toast message; the
    race is won at the first millisecond at which one of the three is
    visible and lost after exactly [SEARCH_RESULTS] milliseconds, the
    shortest budget.  A lost race is caught and followed by a pause of
    [ELEMENT_QUICK_WAIT] and, if a table body is attached, by a wait of up
    to [SEARCH_RESULTS] for the first table body, whose outcome is the
    outcome of the method. *)
Theorem C4_search_waits_catch_lost_races
  (app : App) (this_hasSearchResults this_hasNoRecordsFound : M bool) (w : World) :
  let waitForSearchResults :=
    BaseSearchPage.waitForSearchResults app this_hasSearchResults this_hasNoRecordsFound in
  let waitForSearchComplete :=
    BaseSearchPage.waitForSearchComplete this_hasSearchResults this_hasNoRecordsFound in
  (forall e w1,
      this_hasSearchResults w = (Throw e, w1) ->
      waitForSearchResults w = (Throw e, w1) /\
      waitForSearchComplete w = (Throw e, w1)) /\
  (forall a e w1 w2,
      this_hasSearchResults w = (Ok a, w1) ->
      this_hasNoRecordsFound w1 = (Throw e, w2) ->
      waitForSearchResults w = (Throw e, w2) /\
      waitForSearchComplete w = (Throw e, w2)) /\
  (forall a b w1 w2,
      this_hasSearchResults w = (Ok a, w1) ->
      this_hasNoRecordsFound w1 = (Ok b, w2) ->
      waitForSearchComplete w = (Ok tt, w2) /\
      (a || b = true -> waitForSearchResults w = (Ok tt, w2)) /\
      (a || b = false ->
       exists won w',
         raceEnds app [TableBody; NoRecordsFound] TIMEOUTS.SEARCH_RESULTS w2 won w' /\
         waitForSearchResults w = (Ok tt, w'))) /\
  (forall a b w1 w2,
      AdminUserSearchPage.hasSearchResults app w = (Ok a, w1) ->
      AdminUserSearchPage.hasNoRecordsFound w1 = (Ok b, w2) ->
      AdminUserSearchPage.waitForSearchCompletion app w = (Ok tt, w2) /\
      (a || b = true ->
       AdminUserSearchPage.waitForAdminSearchResults app w = (Ok tt, w2)) /\
      (a || b = false ->
       exists won w',
         raceEnds app [TableBody; NoRecordsFound; ToastMessage]
           TIMEOUTS.SEARCH_RESULTS w2 won w' /\
         (won = true ->
          AdminUserSearchPage.waitForAdminSearchResults app w = (Ok tt, w')) /\
         (won = false ->
          let w3 := elapse app TIMEOUTS.ELEMENT_QUICK_WAIT w' in
          AdminUserSearchPage.waitForAdminSearchResults app w =
            if 0 <? count (ui w3) TableBody
            then waitForVisible app (Nth TableBody 0) TIMEOUTS.SEARCH_RESULTS w3
            else (Ok tt, w3)))).
Proof.
  cbv zeta. split; [|split; [|split]].
  - intros e w1 H.
    unfold BaseSearchPage.waitForSearchResults, BaseSearchPage.waitForSearchComplete, bind.
    rewrite H. split; reflexivity.
  - intros a e w1 w2 H1 H2.
    unfold BaseSearchPage.waitForSearchResults, BaseSearchPage.waitForSearchComplete, bind.
    rewrite H1, H2. split; reflexivity.
  - intros a b w1 w2 H1 H2.
    unfold BaseSearchPage.waitForSearchResults, BaseSearchPage.waitForSearchComplete, bind.
    rewrite H1, H2. clear H1 H2. split; [now destruct (a || b)|]. split.
    + intros ->. reflexivity.
    + intros ->. unfold tryCatch.
      destruct (WaitFacts.race_two_ends app w2) as [won [w' [Hends Hrace]]].
      exists won, w'. split; [exact Hends|]. rewrite Hrace. now destruct won.
  - intros a b w1 w2 H1 H2. split; [|split].
    + unfold AdminUserSearchPage.waitForSearchCompletion, tryCatch,
        AdminUserSearchPage.waitForSearchComplete, BaseSearchPage.waitForSearchComplete, bind.
      rewrite H1, H2. now destruct (a || b).
    + intros Hab. unfold AdminUserSearchPage.waitForAdminSearchResults, bind.
      rewrite H1, H2, Hab. reflexivity.
    + intros Hab. unfold AdminUserSearchPage.waitForAdminSearchResults, bind.
      rewrite H1, H2, Hab. clear H1 H2. unfold tryCatch.
      destruct (WaitFacts.race_three_ends app w2) as [won [w' [Hends Hrace]]].
      exists won, w'. split; [exact Hends|]. rewrite Hrace. clear Hrace. split.
      * intros ->. reflexivity.
      * intros ->. cbv zeta. unfold bind, waitForTimeout, countOf. cbv beta iota.
        destruct (0 <? count (ui (elapse app TIMEOUTS.ELEMENT_QUICK_WAIT w')) TableBody);
          [reflexivity|].
        now destruct (count (ui (elapse app TIMEOUTS.ELEMENT_QUICK_WAIT w')) AnyTable =? 0).
Qed.

(** C4 as stated fails: on a page where, after the click, neither results
    nor a marker nor any toast or error ever shows, both races are lost on
    timeout, and yet the waits and [searchUsers] itself return normally: no
    timeout reaches the caller.  The base wait has then taken the second of
    its quick check and [SEARCH_RESULTS]; the admin wait the same and the
    pause of its fallback. *)
Lemma C4_lost_race_counterexample :
  let w := Scenario.start Scenario.formOnlyPage in
  value (race Scenario.idleApp
           [ (TableBody, TIMEOUTS.SEARCH_RESULTS);
             (NoRecordsFound, TIMEOUTS.SEARCH_RESULTS) ] w) = Throw TimeoutError /\
  value (AdminUserSearchPage.waitForSearchResults Scenario.idleApp w) = Ok tt /\
  value (race Scenario.idleApp
           [ (TableBody, TIMEOUTS.SEARCH_RESULTS);
             (NoRecordsFound, TIMEOUTS.SEARCH_RESULTS);
             (ToastMessage, TIMEOUTS.ELEMENT_WAIT) ] w) = Throw TimeoutError /\
  value (AdminUserSearchPage.waitForAdminSearchResults Scenario.idleApp w) = Ok tt /\
  value (AdminUserSearchPage.searchUsers Scenario.idleApp (Scenario.byUsername "Admin") w)
  = Ok tt /\
  searchClicks
    (after (AdminUserSearchPage.searchUsers Scenario.idleApp (Scenario.byUsername "Admin") w))
  = 1 /\
  clock (after (AdminUserSearchPage.waitForSearchResults Scenario.idleApp w))
  = 1000 + TIMEOUTS.SEARCH_RESULTS /\
  clock (after (AdminUserSearchPage.waitForAdminSearchResults Scenario.idleApp w))
  = 1000 + TIMEOUTS.SEARCH_RESULTS + TIMEOUTS.ELEMENT_QUICK_WAIT.
Proof. vm_compute. repeat split. Qed.

(** ** A submission and what is read after it *)

Module SubmissionFacts.
Section WithApp.
Variable app : App.

(** The click and what [searchUsers] awaits after it: when both went
    through, the button was showing when it was clicked, and a second has
    passed since. *)
Lemma click_then_completion (w0 w2 : World) :
  bind (BaseSearchPage.clickSearchButton app)
       (fun _ => AdminUserSearchPage.waitForSearchCompletion app) w0 = (Ok tt, w2) ->
  exists w1,
    log w1 = log w0 /\ visible (ui w1) SearchButton = true /\
    w2 = elapse app 1000 (searchClicked app w1).
Proof.
  unfold bind, BaseSearchPage.clickSearchButton, BasePage.clickElement,
    BasePage.waitForElement, bind.
  destruct (EngineFacts.waitForVisible_spec app SearchButton TIMEOUTS.ELEMENT_WAIT w0)
    as [w1 [Hl [_ [[H Hv] | [H _]]]]]; rewrite H; clear H; [|discriminate].
  unfold perform. cbv beta iota.
  unfold AdminUserSearchPage.waitForSearchCompletion, tryCatch.
  rewrite WaitFacts.admin_waitForSearchComplete_returns.
  intros E. apply (f_equal snd) in E. cbn [snd] in E.
  exists w1. split; [exact Hl|]. split; [exact Hv|]. symmetry. exact E.
Qed.

Lemma click_then_legacy_wait (w0 w2 : World) :
  bind (BaseSearchPage.clickSearchButton app)
       (fun _ => Legacy.waitForSearchResults app) w0 = (Ok tt, w2) ->
  log w2 = Click SearchButton :: log w0.
Proof.
  unfold bind, BaseSearchPage.clickSearchButton, BasePage.clickElement,
    BasePage.waitForElement, bind.
  destruct (EngineFacts.waitForVisible_spec app SearchButton TIMEOUTS.ELEMENT_WAIT w0)
    as [w1 [Hl [_ [[H Hv] | [H _]]]]]; rewrite H; clear H; [|discriminate].
  unfold perform. cbv beta iota.
  destruct (WaitFacts.legacy_waitForSearchResults_returns app
              {| ui := on_action app (Click SearchButton) (ui w1);
                 clock := clock w1; log := Click SearchButton :: log w1 |})
    as [w' [H Hl']].
  rewrite H. clear H. intros E. apply (f_equal snd) in E. cbn [snd] in E. subst w'.
  rewrite Hl'. cbn [log]. now rewrite Hl.
Qed.

(** A call of [searchUsers] that finds no error under a filled field and
    returns normally has clicked the search button, which was showing. *)
Lemma searchUsers_submitted (criteria : Criteria) (w w0 w2 : World) :
  (AdminUserSearchPage.fillSearchCriteria app criteria ;;
   waitForTimeout app TIMEOUTS.VALIDATION_WAIT) w = (Ok tt, w0) ->
  filledFieldInvalid criteria (ui w0) = false ->
  AdminUserSearchPage.searchUsers app criteria w = (Ok tt, w2) ->
  exists w1,
    log w1 = log w0 /\ visible (ui w1) SearchButton = true /\
    w2 = elapse app 1000 (searchClicked app w1).
Proof.
  intros Hfill Hvalid.
  apply SubmitFacts.bind_ok in Hfill as [[] [wf [Hf Hw]]].
  unfold AdminUserSearchPage.searchUsers.
  unfold bind at 1. rewrite Hf. unfold bind at 1. rewrite Hw.
  unfold bind at 1. rewrite SubmitFacts.validateSearchCriteria_run, Hvalid.
  apply click_then_completion.
Qed.

Lemma searchClicked_log (w1 w0 : World) :
  log w1 = log w0 ->
  log (elapse app 1000 (searchClicked app w1)) = Click SearchButton :: log w0.
Proof. intros H. rewrite EngineFacts.elapse_log. cbn [searchClicked log]. now rewrite H. Qed.

End WithApp.

(** The application of [Scenario.delayedApp] keeps its word. *)
Lemma marker_stays (delay n : nat) (w : World) :
  Scenario.pending (ui w) = 0 ->
  ui (elapse (Scenario.delayedApp delay) n w) = ui w.
Proof.
  intros H. apply EngineFacts.elapse_quiescent. unfold quiescent.
  cbn [on_tick Scenario.delayedApp]. now rewrite H.
Qed.

Lemma marker_shows (delay p n : nat) (w : World) :
  Scenario.pending (ui w) = S p -> S p <= n ->
  reportsNoMatch (ui (elapse (Scenario.delayedApp delay) n w)) = true.
Proof.
  revert n w. induction p as [|p IH]; intros n w Hp Hn;
    (destruct n as [|n]; [lia|]);
    change (elapse (Scenario.delayedApp delay) (S n) w)
      with (elapse (Scenario.delayedApp delay) n (tick (Scenario.delayedApp delay) w)).
  - rewrite marker_stays.
    + cbn [tick ui on_tick Scenario.delayedApp]. rewrite Hp. reflexivity.
    + cbn [tick ui on_tick Scenario.delayedApp]. rewrite Hp. reflexivity.
  - apply IH; [|lia].
    cbn [tick ui on_tick Scenario.delayedApp]. rewrite Hp. reflexivity.
Qed.

Lemma delayedApp_answers (delay : nat) :
  answersNoMatchWithin (Scenario.delayedApp (S delay)) (S delay).
Proof. intros w n Hn. now apply (marker_shows (S delay) delay n). Qed.

End SubmissionFacts.

(** C5, as amended.  A call of [searchUsers] that finds no error under a
    filled field once the validation wait is over, and returns normally,
    has clicked the search button, and nothing else since the form was
    filled.  The outcome is read from the page as it is when [searchUsers]
    returns.  A verdict of [hasNoRecordsFound], of the overriding method as
    of the one of the base class, is the disjunction of the two signals on
    that page: the marker visible, a visible toast that mentions it.  That
    page reports that no row matches (the marker with its text, or the
    toast) when the application answers the click with the report within a
    second and keeps it; the verdict then is true, the message is not empty
    and is the trimmed text of the marker or of the toast, and
    [testInvalidUserName] answers true.  When neither signal is on that
    page, [testInvalidUserName] answers false, whatever the application
    shows later. *)
Theorem C5_no_records_after_submission
  (app : App) (criteria : Criteria) (w w0 w2 : World) :
  (AdminUserSearchPage.fillSearchCriteria app criteria ;;
   waitForTimeout app TIMEOUTS.VALIDATION_WAIT) w = (Ok tt, w0) ->
  filledFieldInvalid criteria (ui w0) = false ->
  AdminUserSearchPage.searchUsers app criteria w = (Ok tt, w2) ->
  log w2 = Click SearchButton :: log w0 /\
  (forall verdict w3,
      AdminUserSearchPage.hasNoRecordsFound w2 = (Ok verdict, w3) \/
      BaseSearchPage.hasNoRecordsFound BaseSearchPage.getToastMessage w2 = (Ok verdict, w3) ->
      verdict = markerSignal (ui w2) || toastSignal (ui w2)) /\
  (answersNoMatchWithin app 1000 -> reportsNoMatch (ui w2) = true) /\
  (reportsNoMatch (ui w2) = true ->
   (forall verdict w3,
       AdminUserSearchPage.hasNoRecordsFound w2 = (Ok verdict, w3) -> verdict = true) /\
   (forall message w3,
       AdminUserSearchPage.getNoRecordsFoundMessage w2 = (Ok message, w3) ->
       message <> "" /\
       (message = Js.trim (textContent (ui w2) NoRecordsFound) \/
        message = Js.trim (textContent (ui w2) ToastMessage)))) /\
  (forall v answer w3,
      criteria = Scenario.byUsername v ->
      AdminUserSearchPage.testInvalidUserName app v w = (Ok answer, w3) ->
      (reportsNoMatch (ui w2) = true -> answer = true) /\
      (markerSignal (ui w2) || toastSignal (ui w2) = false -> answer = false)).
Proof.
  intros Hfill Hvalid Hrun.
  destruct (SubmissionFacts.searchUsers_submitted app criteria w w0 w2 Hfill Hvalid Hrun)
    as [w1 [Hl [_ Hw2]]].
  split; [|split; [|split; [|split]]].
  - rewrite Hw2. now apply SubmissionFacts.searchClicked_log.
  - intros verdict w3 [H | H].
    + unfold AdminUserSearchPage.hasNoRecordsFound in H.
      rewrite ReadFacts.isNoRecordsFoundDisplayed_run in H. congruence.
    + rewrite ReadFacts.base_hasNoRecordsFound_run in H. congruence.
  - intros Hanswers. rewrite Hw2. apply Hanswers. apply le_n.
  - intros Hreport. split.
    + intros verdict w3 H. unfold AdminUserSearchPage.hasNoRecordsFound in H.
      rewrite ReadFacts.isNoRecordsFoundDisplayed_run in H.
      rewrite (ReadFacts.reportsNoMatch_signals _ Hreport) in H. congruence.
    + intros message w3 H.
      destruct (ReadFacts.getNoRecordsFoundMessage_reported w2 Hreport)
        as [message' [Hm [Hne Hfrom]]].
      rewrite Hm in H. injection H as <- _. split; [exact Hne | exact Hfrom].
  - intros v answer w3 -> Htest.
    unfold AdminUserSearchPage.testInvalidUserName in Htest.
    change {| employeeName := None; username := Some v; userRole := None; status := None |}
      with (Scenario.byUsername v) in Htest.
    unfold bind at 1 in Htest. rewrite Hrun in Htest.
    unfold bind at 1 in Htest. unfold AdminUserSearchPage.hasNoRecordsFound in Htest.
    rewrite ReadFacts.isNoRecordsFoundDisplayed_run in Htest.
    unfold bind at 1 in Htest. split.
    + intros Hreport.
      destruct (ReadFacts.getNoRecordsFoundMessage_reported w2 Hreport)
        as [message [Hm [Hne _]]].
      rewrite Hm in Htest. unfold ret in Htest.
      rewrite (ReadFacts.reportsNoMatch_signals _ Hreport) in Htest.
      apply JsFacts.length_pos_iff in Hne. rewrite Hne in Htest. now injection Htest as <-.
    + intros Hnone. rewrite Hnone in Htest.
      destruct (AdminUserSearchPage.getNoRecordsFoundMessage w2) as [[message | e] w4];
        [|discriminate].
      unfold ret in Htest. now injection Htest as <-.
Qed.

(** C5, on an application that shows the marker half a second after the
    click: the search by a user name that matches nothing is submitted, the
    page that is read reports that no row matches, and the verdict is
    true. *)
Lemma C5_prompt_marker_witness :
  let app := Scenario.delayedApp 500 in
  let w := Scenario.start Scenario.formOnlyPage in
  let w2 := after (AdminUserSearchPage.searchUsers app
                     (Scenario.byUsername "nonexistentuser") w) in
  searchClicks w2 = 1 /\
  reportsNoMatch (ui w2) = true /\
  forall verdict w3,
    AdminUserSearchPage.hasNoRecordsFound w2 = (Ok verdict, w3) -> verdict = true.
Proof.
  cbv zeta.
  destruct (C5_no_records_after_submission (Scenario.delayedApp 500)
              (Scenario.byUsername "nonexistentuser")
              (Scenario.start Scenario.formOnlyPage)
              (after ((AdminUserSearchPage.fillSearchCriteria (Scenario.delayedApp 500)
                         (Scenario.byUsername "nonexistentuser") ;;
                       waitForTimeout (Scenario.delayedApp 500) TIMEOUTS.VALIDATION_WAIT)
                        (Scenario.start Scenario.formOnlyPage)))
              (after (AdminUserSearchPage.searchUsers (Scenario.delayedApp 500)
                        (Scenario.byUsername "nonexistentuser")
                        (Scenario.start Scenario.formOnlyPage))))
    as [Hlog [_ [Hanswers [Hreport _]]]].
  - apply EngineFacts.ok_run. vm_compute. reflexivity.
  - vm_compute. reflexivity.
  - apply EngineFacts.ok_run. vm_compute. reflexivity.
  - assert (Hshown : reportsNoMatch
                       (ui (after (AdminUserSearchPage.searchUsers (Scenario.delayedApp 500)
                                     (Scenario.byUsername "nonexistentuser")
                                     (Scenario.start Scenario.formOnlyPage)))) = true).
    { apply Hanswers. intros w n Hn.
      apply (SubmissionFacts.delayedApp_answers 499 w n).
      apply (Nat.le_trans _ 1000); [|exact Hn]. apply Nat.leb_le. vm_compute. reflexivity. }
    split; [|split].
    + unfold searchClicks. rewrite Hlog. vm_compute. reflexivity.
    + exact Hshown.
    + exact (proj1 (Hreport Hshown)).
Defined.

(** C5 as stated fails: the application answers the search by a user name
    that matches nothing with the marker, a second and a half after the
    click.  [searchUsers] has returned by then, [testInvalidUserName] reads
    a page without marker or toast and answers false; half a second later
    the page reports that no row matches. *)
Lemma C5_late_marker_counterexample :
  let app := Scenario.delayedApp 1500 in
  let w := Scenario.start Scenario.formOnlyPage in
  let run := AdminUserSearchPage.testInvalidUserName app "nonexistentuser" w in
  value run = Ok false /\
  searchClicks (after run) = 1 /\
  reportsNoMatch (ui (after run)) = false /\
  reportsNoMatch (ui (elapse app 500 (after run))) = true /\
  value (AdminUserSearchPage.hasNoRecordsFound (elapse app 500 (after run))) = Ok true.
Proof. vm_compute. repeat split. Qed.

(** ** Toggling the panel *)

Module ToggleFacts.
Import Js JsFacts.

Lemma collapsedStyle_hasDisplayNone (v : string) :
  collapsedStyle v -> BaseSearchPage.hasDisplayNone v = true.
Proof.
  intros [pre [post ->]]. unfold BaseSearchPage.hasDisplayNone.
  apply orb_true_iff. right. apply includes_spec.
  exists (toLowerCase pre), (toLowerCase post). now rewrite !toLowerCase_app.
Qed.

(** What a true answer of [isSearchPanelVisible] says about the page. *)
Lemma visible_panel_state (w : World) :
  BaseSearchPage.isSearchPanelVisible w = (Ok true, w) ->
  0 < count (ui w) SearchPanel /\
  styleAttr (ui w) SearchPanel <> AttrThrows /\
  ~ panelCollapsed (ui w).
Proof.
  intros H. destruct (Nat.eq_dec (count (ui w) SearchPanel) 0) as [Hz | Hnz].
  - rewrite (PanelFacts.isSearchPanelVisible_absent w Hz) in H. discriminate.
  - assert (Hp : 0 < count (ui w) SearchPanel) by lia. split; [exact Hp|].
    rewrite (PanelFacts.isSearchPanelVisible_present w Hp) in H.
    destruct (styleAttr (ui w) SearchPanel) as [| |s] eqn:Es.
    + discriminate.
    + split; [discriminate|]. intros [v [Hv _]]. congruence.
    + split; [discriminate|]. intros [v [Hv Hc]]. rewrite Es in Hv. injection Hv as <-.
      apply collapsedStyle_hasDisplayNone in Hc. rewrite Hc in H. discriminate.
Qed.

Lemma collapsed_panel_hidden (w : World) :
  0 < count (ui w) SearchPanel -> panelCollapsed (ui w) ->
  BaseSearchPage.isSearchPanelVisible w = (Ok false, w).
Proof.
  intros Hp [v [Hv Hc]]. rewrite (PanelFacts.isSearchPanelVisible_present w Hp), Hv.
  now rewrite (collapsedStyle_hasDisplayNone v Hc).
Qed.

Lemma expanded_panel_visible (w : World) :
  0 < count (ui w) SearchPanel -> panelExpanded (ui w) ->
  BaseSearchPage.isSearchPanelVisible w = (Ok true, w).
Proof.
  intros Hp [H | H]; rewrite (PanelFacts.isSearchPanelVisible_present w Hp), H; reflexivity.
Qed.

Section WithApp.
Variable app : App.

Lemma toggleSearchPanel_shown (w : World) :
  visible (ui w) FilterToggle = true ->
  BaseSearchPage.toggleSearchPanel app w =
  (Ok tt, {| ui := on_action app (Click FilterToggle) (ui w);
             clock := clock w;
             log := Click FilterToggle :: log w |}).
Proof.
  intros Hv. unfold BaseSearchPage.toggleSearchPanel, bind, isVisible. rewrite Hv.
  unfold BasePage.clickElement, BasePage.waitForElement, bind.
  now rewrite EngineFacts.waitForVisible_now.
Qed.

Lemma toggleSearchPanel_not_shown (w : World) :
  visible (ui w) FilterToggle = false ->
  BaseSearchPage.toggleSearchPanel app w = (Ok tt, w).
Proof.
  intros Hv. unfold BaseSearchPage.toggleSearchPanel, bind, isVisible. now rewrite Hv.
Qed.

End WithApp.

Lemma toggleApp_honours_contract : TogglesPanel Scenario.toggleApp.
Proof.
  constructor; intros s; simpl.
  - reflexivity.
  - reflexivity.
  - intros Hread Hnot. unfold panelCollapsed. simpl. unfold Scenario.toggledStyle.
    destruct (styleAttr s SearchPanel) as [| |v] eqn:Es.
    + now elim Hread.
    + exists "display: none;". split; [reflexivity | now exists "", ";"].
    + destruct (includes v "display: none") eqn:Ei.
      * exfalso. apply Hnot. exists v. split; [exact Es|].
        apply includes_spec in Ei. exact Ei.
      * exists "display: none;". split; [reflexivity | now exists "", ";"].
  - intros [v [Hv Hc]]. unfold panelExpanded. simpl. rewrite Hv. simpl.
    assert (Hi : includes v "display: none" = true) by (apply includes_spec; exact Hc).
    rewrite Hi. now right.
Qed.

End ToggleFacts.

(** C9, as amended.  The application toggling the panel as it does, start
    from a page where the toggle control shows and [isSearchPanelVisible]
    answers true: after one [toggleSearchPanel] it answers false, after a
    second one true again.  On any page where the toggle control does not
    show, [toggleSearchPanel] does nothing. *)
Theorem C9_toggle_twice (app : App) (w : World) :
  TogglesPanel app ->
  visible (ui w) FilterToggle = true ->
  BaseSearchPage.isSearchPanelVisible w = (Ok true, w) ->
  let w1 := after (BaseSearchPage.toggleSearchPanel app w) in
  let w2 := after (BaseSearchPage.toggleSearchPanel app w1) in
  value (BaseSearchPage.toggleSearchPanel app w) = Ok tt /\
  BaseSearchPage.isSearchPanelVisible w1 = (Ok false, w1) /\
  value (BaseSearchPage.toggleSearchPanel app w1) = Ok tt /\
  BaseSearchPage.isSearchPanelVisible w2 = (Ok true, w2) /\
  (forall w0 : World,
      visible (ui w0) FilterToggle = false ->
      BaseSearchPage.toggleSearchPanel app w0 = (Ok tt, w0)).
Proof.
  intros Happ Hcontrol Hshown. cbv zeta.
  destruct (ToggleFacts.visible_panel_state w Hshown) as [Hp [Hread Hnot]].
  rewrite (ToggleFacts.toggleSearchPanel_shown app w Hcontrol). unfold after, value. simpl.
  set (w1 := {| ui := on_action app (Click FilterToggle) (ui w);
                clock := clock w; log := Click FilterToggle :: log w |}).
  assert (Hcontrol1 : visible (ui w1) FilterToggle = true).
  { simpl. now rewrite (toggle_keeps_control app Happ). }
  assert (Hp1 : 0 < count (ui w1) SearchPanel).
  { simpl. now rewrite (toggle_keeps_panel app Happ). }
  assert (Hcollapsed : panelCollapsed (ui w1)).
  { simpl. now apply (toggle_collapses app Happ). }
  rewrite (ToggleFacts.toggleSearchPanel_shown app w1 Hcontrol1). simpl.
  split; [reflexivity|]. split; [now apply ToggleFacts.collapsed_panel_hidden|].
  split; [reflexivity|]. split.
  - apply ToggleFacts.expanded_panel_visible; simpl.
    + now rewrite (toggle_keeps_panel app Happ).
    + now apply (toggle_expands app Happ).
  - intros w0. apply ToggleFacts.toggleSearchPanel_not_shown.
Qed.

(** C9, on the panel of an application that collapses it with
    [display: none;]. *)
Lemma C9_toggle_twice_witness :
  let w := Scenario.start (Scenario.panelPage true AttrNull) in
  let w1 := after (BaseSearchPage.toggleSearchPanel Scenario.toggleApp w) in
  let w2 := after (BaseSearchPage.toggleSearchPanel Scenario.toggleApp w1) in
  BaseSearchPage.isSearchPanelVisible w1 = (Ok false, w1) /\
  BaseSearchPage.isSearchPanelVisible w2 = (Ok true, w2).
Proof.
  cbv zeta.
  destruct (C9_toggle_twice Scenario.toggleApp
              (Scenario.start (Scenario.panelPage true AttrNull))
              ToggleFacts.toggleApp_honours_contract eq_refl eq_refl)
    as [_ [H1 [_ [H2 _]]]].
  split; [exact H1 | exact H2].
Defined.

(** C9 as stated fails: the panel is visible but its toggle control does
    not show; the application would toggle on a click, yet
    [toggleSearchPanel] issues none and the panel is still reported
    visible, so that [testToggleSearchPanel] answers false (the answer the
    suite's toggle test expects). *)
Lemma C9_hidden_control_counterexample :
  let w := Scenario.start (Scenario.panelPage false AttrNull) in
  let w1 := after (BaseSearchPage.toggleSearchPanel Scenario.toggleApp w) in
  TogglesPanel Scenario.toggleApp /\
  value (BaseSearchPage.isSearchPanelVisible w) = Ok true /\
  value (BaseSearchPage.toggleSearchPanel Scenario.toggleApp w) = Ok tt /\
  log w1 = [] /\
  value (BaseSearchPage.isSearchPanelVisible w1) = Ok true /\
  value (AdminUserSearchPage.testToggleSearchPanel Scenario.toggleApp w) = Ok false.
Proof.
  split; [exact ToggleFacts.toggleApp_honours_contract|]. vm_compute. repeat split.
Qed.

(** ** Resetting the criteria *)

Module ResetFacts.
Section WithApp.
Variable app : App.
Hypothesis contract : ResetsFields app.

Lemma elapse_fieldsEmpty (n : nat) (w : World) :
  fieldsEmpty (ui w) -> fieldsEmpty (ui (elapse app n w)).
Proof.
  revert w. induction n as [|n IH]; intros w H; unfold elapse; fold (elapse app).
  - exact H.
  - apply IH. simpl. now apply (idle_keeps_empty app contract).
Qed.

Lemma allInputsEmptyFrom_empty (todo i : nat) (w : World) :
  fieldsEmpty (ui w) -> i + todo <= count (ui w) TextInputs ->
  BaseSearchPage.allInputsEmptyFrom todo i w = (Ok true, w).
Proof.
  intros He. revert i. induction todo as [|todo IH]; intros i Hb; simpl.
  - reflexivity.
  - unfold bind, inputValueOf. rewrite (He i) by lia. simpl. apply IH. lia.
Qed.

Lemma verifyDefaultSearchState_empty (w : World) :
  fieldsEmpty (ui w) -> BaseSearchPage.verifyDefaultSearchState w = (Ok true, w).
Proof.
  intros He. unfold BaseSearchPage.verifyDefaultSearchState, bind, countOf.
  now apply allInputsEmptyFrom_empty.
Qed.

Lemma resetSearchCriteria_shown (w : World) :
  visible (ui w) ResetButton = true ->
  value (BaseSearchPage.resetSearchCriteria app w) = Ok tt.
Proof.
  intros Hv. unfold BaseSearchPage.resetSearchCriteria, BaseSearchPage.clickResetButton,
    BasePage.clickElement, BasePage.waitForElement, bind.
  now rewrite EngineFacts.waitForVisible_now.
Qed.

Lemma resetSearchCriteria_empties (w : World) :
  value (BaseSearchPage.resetSearchCriteria app w) = Ok tt ->
  fieldsEmpty (ui (after (BaseSearchPage.resetSearchCriteria app w))) /\
  In (Click ResetButton) (log (after (BaseSearchPage.resetSearchCriteria app w))).
Proof.
  unfold BaseSearchPage.resetSearchCriteria, BaseSearchPage.clickResetButton,
    BasePage.clickElement, BasePage.waitForElement, bind.
  destruct (EngineFacts.waitForVisible_spec app ResetButton TIMEOUTS.ELEMENT_WAIT w)
    as [w1 [_ [_ [[H _] | [H _]]]]]; rewrite H; clear H.
  - intros _. cbv [perform waitForTimeout after snd]. split.
    + apply elapse_fieldsEmpty. cbv [ui]. apply (reset_clears app contract).
    + rewrite EngineFacts.elapse_log. cbv [log]. now left.
  - cbv [value fst]. discriminate.
Qed.

End WithApp.

Lemma resetApp_honours_contract : ResetsFields Scenario.resetApp.
Proof.
  constructor.
  - intros s i _. reflexivity.
  - intros s H. exact H.
Qed.

End ResetFacts.



(* ===================================================================== *)
(** * Further properties of the page objects *)
(* ===================================================================== *)

(** ** Guarded actions of [BasePage] *)

Module ActionFacts.
Section WithApp.
Variable app : App.

Lemma waitForVisible_unfold (l : Locator) (t : nat) (w : World) :
  waitForVisible app l t w =
  if visible (ui w) l then (Ok tt, w)
  else match t with
       | O => (Throw TimeoutError, w)
       | S t' => waitForVisible app l t' (tick app w)
       end.
Proof. destruct t; reflexivity. Qed.

(** A wait that fails has used its whole budget. *)
Lemma waitForVisible_outcome (l : Locator) (t : nat) (w : World) :
  exists w1,
    log w1 = log w /\
    ((waitForVisible app l t w = (Ok tt, w1) /\ visible (ui w1) l = true
      /\ clock w1 <= clock w + t) \/
     (waitForVisible app l t w = (Throw TimeoutError, w1) /\ visible (ui w1) l = false
      /\ clock w1 = clock w + t)).
Proof.
  revert w. induction t as [|t IH]; intros w; rewrite waitForVisible_unfold.
  - destruct (visible (ui w) l) eqn:E; exists w; (split; [reflexivity|]).
    + left. repeat split; auto. lia.
    + right. repeat split; auto.
  - destruct (visible (ui w) l) eqn:E.
    + exists w. split; [reflexivity|]. left. repeat split; auto. lia.
    + destruct (IH (tick app w)) as [w1 [Hl [[H [Hv Hc]] | [H [Hv Hc]]]]];
        exists w1; simpl in Hl, Hc; (split; [exact Hl|]).
      * left. repeat split; auto. lia.
      * right. repeat split; auto. lia.
Qed.

Lemma waitForVisible_never (l : Locator) (t : nat) (w : World) :
  quiescent app (ui w) -> visible (ui w) l = false ->
  waitForVisible app l t w = (Throw TimeoutError, elapse app t w).
Proof.
  revert w. induction t as [|t IH]; intros w Hq Hv; rewrite waitForVisible_unfold, Hv.
  - reflexivity.
  - unfold elapse; fold (elapse app). apply IH; unfold quiescent in *; simpl; now rewrite Hq.
Qed.

End WithApp.
End ActionFacts.

(** X2. [isElementVisible] never raises and issues no action; it answers
    within [ELEMENT_SHORT_WAIT], and its answer is the visibility of the
    element on the page as it is when the answer comes.  On a page at rest
    a negative answer takes exactly that budget. *)
Theorem X2_isElementVisible_answers (app : App) (l : Locator) (w : World) :
  (exists w',
      BasePage.isElementVisible app l w = (Ok (visible (ui w') l), w') /\
      log w' = log w /\
      clock w' <= clock w + TIMEOUTS.ELEMENT_SHORT_WAIT) /\
  (visible (ui w) l = true -> BasePage.isElementVisible app l w = (Ok true, w)) /\
  (quiescent app (ui w) -> visible (ui w) l = false ->
   BasePage.isElementVisible app l w
   = (Ok false, elapse app TIMEOUTS.ELEMENT_SHORT_WAIT w)).
Proof.
  split; [|split].
  - destruct (ActionFacts.waitForVisible_outcome app l TIMEOUTS.ELEMENT_SHORT_WAIT w)
      as [w1 [Hl [[H [Hv Hc]] | [H [Hv Hc]]]]]; exists w1;
      unfold BasePage.isElementVisible, tryCatch, bind, ret; rewrite H, Hv; clear H;
      repeat split; auto; lia.
  - intros Hv. unfold BasePage.isElementVisible, tryCatch, bind, ret.
    now rewrite EngineFacts.waitForVisible_now.
  - intros Hq Hv. unfold BasePage.isElementVisible, tryCatch, bind, ret.
    now rewrite ActionFacts.waitForVisible_never.
Qed.

(** X2, on the blank page. *)
Lemma X2_blank_page_witness :
  BasePage.isElementVisible Scenario.idleApp TableBody (Scenario.start Scenario.blankPage)
  = (Ok false, elapse Scenario.idleApp TIMEOUTS.ELEMENT_SHORT_WAIT
                 (Scenario.start Scenario.blankPage)).
Proof.
  apply (X2_isElementVisible_answers Scenario.idleApp TableBody
           (Scenario.start Scenario.blankPage)); reflexivity.
Defined.

(** ** Showing and hiding the panel *)

Module ShowHideFacts.

Lemma isSearchPanelVisible_returns (w : World) :
  exists b, BaseSearchPage.isSearchPanelVisible w = (Ok b, w).
Proof.
  destruct (Nat.eq_dec (count (ui w) SearchPanel) 0) as [Hz | Hnz].
  - exists false. now apply PanelFacts.isSearchPanelVisible_absent.
  - eexists. apply PanelFacts.isSearchPanelVisible_present. lia.
Qed.

Lemma collapsed_panel_reported_hidden (w : World) :
  0 < count (ui w) SearchPanel -> panelCollapsed (ui w) ->
  BaseSearchPage.isSearchPanelHidden w = (Ok true, w).
Proof.
  intros Hp [v [Hv Hc]]. rewrite (PanelFacts.isSearchPanelHidden_present w Hp), Hv.
  now rewrite (ToggleFacts.collapsedStyle_hasDisplayNone v Hc).
Qed.

Lemma expanded_panel_not_reported_hidden (w : World) :
  0 < count (ui w) SearchPanel -> panelExpanded (ui w) ->
  BaseSearchPage.isSearchPanelHidden w = (Ok false, w).
Proof.
  intros Hp [H | H]; rewrite (PanelFacts.isSearchPanelHidden_present w Hp), H; reflexivity.
Qed.

Section WithApp.
Variable app : App.

Lemma hideSearchPanel_on_hidden (w : World) :
  BaseSearchPage.isSearchPanelVisible w = (Ok false, w) ->
  BaseSearchPage.hideSearchPanel app w = (Ok tt, w).
Proof. intros H. unfold BaseSearchPage.hideSearchPanel, bind. now rewrite H. Qed.

Lemma hideSearchPanel_on_shown (w : World) :
  BaseSearchPage.isSearchPanelVisible w = (Ok true, w) ->
  BaseSearchPage.hideSearchPanel app w
  = BasePage.clickElement app FilterToggle TIMEOUTS.ELEMENT_WAIT w.
Proof. intros H. unfold BaseSearchPage.hideSearchPanel, bind. now rewrite H. Qed.

Lemma showSearchPanel_on_shown (w : World) :
  BaseSearchPage.isSearchPanelHidden w = (Ok false, w) ->
  BaseSearchPage.showSearchPanel app w = (Ok tt, w).
Proof. intros H. unfold BaseSearchPage.showSearchPanel, bind. now rewrite H. Qed.

Lemma showSearchPanel_on_hidden (w : World) :
  BaseSearchPage.isSearchPanelHidden w = (Ok true, w) ->
  BaseSearchPage.showSearchPanel app w
  = BasePage.clickElement app FilterToggle TIMEOUTS.ELEMENT_WAIT w.
Proof. intros H. unfold BaseSearchPage.showSearchPanel, bind. now rewrite H. Qed.

Lemma clickElement_shown (l : Locator) (t : nat) (w : World) :
  visible (ui w) l = true ->
  BasePage.clickElement app l t w =
  (Ok tt, {| ui := on_action app (Click l) (ui w); clock := clock w;
             log := Click l :: log w |}).
Proof.
  intros Hv. unfold BasePage.clickElement, BasePage.waitForElement, bind.
  now rewrite EngineFacts.waitForVisible_now.
Qed.

Lemma clickElement_never_shown (l : Locator) (t : nat) (w : World) :
  quiescent app (ui w) -> visible (ui w) l = false ->
  BasePage.clickElement app l t w = (Throw TimeoutError, elapse app t w).
Proof.
  intros Hq Hv. unfold BasePage.clickElement, BasePage.waitForElement, bind.
  now rewrite ActionFacts.waitForVisible_never.
Qed.

End WithApp.
End ShowHideFacts.

(** X3. The application toggling the panel as it does and the toggle
    control showing, [hideSearchPanel] returns normally whatever the state
    of the panel; afterwards [isSearchPanelVisible] answers false, and a
    second [hideSearchPanel] does nothing. *)
Theorem X3_hideSearchPanel_idempotent (app : App) (w : World) :
  TogglesPanel app ->
  visible (ui w) FilterToggle = true ->
  let w1 := after (BaseSearchPage.hideSearchPanel app w) in
  value (BaseSearchPage.hideSearchPanel app w) = Ok tt /\
  BaseSearchPage.isSearchPanelVisible w1 = (Ok false, w1) /\
  BaseSearchPage.hideSearchPanel app w1 = (Ok tt, w1).
Proof.
  intros Happ Hcontrol. cbv zeta.
  destruct (ShowHideFacts.isSearchPanelVisible_returns w) as [[|] Hb].
  - destruct (ToggleFacts.visible_panel_state w Hb) as [Hp [Hread Hnot]].
    rewrite (ShowHideFacts.hideSearchPanel_on_shown app w Hb).
    rewrite (ShowHideFacts.clickElement_shown app _ _ w Hcontrol).
    unfold after, value. cbn [fst snd].
    set (w1 := {| ui := on_action app (Click FilterToggle) (ui w);
                  clock := clock w; log := Click FilterToggle :: log w |}).
    assert (Hhidden : BaseSearchPage.isSearchPanelVisible w1 = (Ok false, w1)).
    { apply ToggleFacts.collapsed_panel_hidden; cbn [ui w1].
      - now rewrite (toggle_keeps_panel app Happ).
      - now apply (toggle_collapses app Happ). }
    split; [reflexivity|]. split; [exact Hhidden|].
    now apply ShowHideFacts.hideSearchPanel_on_hidden.
  - rewrite (ShowHideFacts.hideSearchPanel_on_hidden app w Hb).
    unfold after, value. cbn [fst snd]. split; [reflexivity|]. split; [exact Hb|].
    now apply ShowHideFacts.hideSearchPanel_on_hidden.
Qed.

(** X3, on the panel of the toggling application. *)
Lemma X3_hide_twice_witness :
  let w1 := after (BaseSearchPage.hideSearchPanel Scenario.toggleApp
                     (Scenario.start (Scenario.panelPage true AttrNull))) in
  BaseSearchPage.hideSearchPanel Scenario.toggleApp w1 = (Ok tt, w1).
Proof.
  cbv zeta.
  destruct (X3_hideSearchPanel_idempotent Scenario.toggleApp
              (Scenario.start (Scenario.panelPage true AttrNull))
              ToggleFacts.toggleApp_honours_contract eq_refl) as [_ [_ H]].
  exact H.
Defined.

(** X4. With the application toggling the panel on a click of the control
    ([TogglesPanel]), from a page where the panel is reported visible and
    the toggle control shows, [hideSearchPanel] followed by
    [showSearchPanel] clicks the control twice and ends on a panel reported
    visible, on which a further [showSearchPanel] does nothing. *)
Theorem X4_hide_then_show_restores (app : App) (w : World) :
  TogglesPanel app ->
  visible (ui w) FilterToggle = true ->
  BaseSearchPage.isSearchPanelVisible w = (Ok true, w) ->
  let w1 := after (BaseSearchPage.hideSearchPanel app w) in
  let w2 := after (BaseSearchPage.showSearchPanel app w1) in
  value (BaseSearchPage.showSearchPanel app w1) = Ok tt /\
  log w2 = Click FilterToggle :: Click FilterToggle :: log w /\
  BaseSearchPage.isSearchPanelVisible w2 = (Ok true, w2) /\
  BaseSearchPage.showSearchPanel app w2 = (Ok tt, w2).
Proof.
  intros Happ Hcontrol Hshown. cbv zeta.
  destruct (ToggleFacts.visible_panel_state w Hshown) as [Hp [Hread Hnot]].
  set (w1 := {| ui := on_action app (Click FilterToggle) (ui w);
                clock := clock w; log := Click FilterToggle :: log w |}).
  assert (Hhide : BaseSearchPage.hideSearchPanel app w = (Ok tt, w1)).
  { rewrite (ShowHideFacts.hideSearchPanel_on_shown app w Hshown).
    now apply ShowHideFacts.clickElement_shown. }
  assert (Hp1 : 0 < count (ui w1) SearchPanel).
  { cbn [ui w1]. now rewrite (toggle_keeps_panel app Happ). }
  assert (Hc1 : panelCollapsed (ui w1)).
  { cbn [ui w1]. now apply (toggle_collapses app Happ). }
  assert (Hcontrol1 : visible (ui w1) FilterToggle = true).
  { cbn [ui w1]. now rewrite (toggle_keeps_control app Happ). }
  set (w2 := {| ui := on_action app (Click FilterToggle) (ui w1);
                clock := clock w1; log := Click FilterToggle :: log w1 |}).
  assert (Hshow : BaseSearchPage.showSearchPanel app w1 = (Ok tt, w2)).
  { rewrite (ShowHideFacts.showSearchPanel_on_hidden app w1
               (ShowHideFacts.collapsed_panel_reported_hidden w1 Hp1 Hc1)).
    now apply ShowHideFacts.clickElement_shown. }
  assert (Hp2 : 0 < count (ui w2) SearchPanel).
  { cbn [ui w2]. now rewrite (toggle_keeps_panel app Happ). }
  assert (He2 : panelExpanded (ui w2)).
  { cbn [ui w2]. now apply (toggle_expands app Happ). }
  rewrite Hhide. unfold after, value. cbn [fst snd]. rewrite Hshow. cbn [fst snd].
  split; [reflexivity|]. split; [reflexivity|].
  split; [now apply ToggleFacts.expanded_panel_visible|].
  apply ShowHideFacts.showSearchPanel_on_shown.
  now apply ShowHideFacts.expanded_panel_not_reported_hidden.
Qed.

(** X4, on the panel of the toggling application. *)
Lemma X4_hide_then_show_witness :
  let w1 := after (BaseSearchPage.hideSearchPanel Scenario.toggleApp
                     (Scenario.start (Scenario.panelPage true AttrNull))) in
  let w2 := after (BaseSearchPage.showSearchPanel Scenario.toggleApp w1) in
  BaseSearchPage.isSearchPanelVisible w2 = (Ok true, w2).
Proof.
  cbv zeta.
  destruct (X4_hide_then_show_restores Scenario.toggleApp
              (Scenario.start (Scenario.panelPage true AttrNull))
              ToggleFacts.toggleApp_honours_contract eq_refl eq_refl) as [_ [_ [H _]]].
  exact H.
Defined.

(** X5. On a page at rest whose toggle control does not show,
    [toggleSearchPanel] returns at once having done nothing, whereas
    [hideSearchPanel] on a panel reported visible, and [showSearchPanel] on
    a panel reported hidden (an absent panel included), wait for the
    control for [ELEMENT_WAIT] and raise a timeout, no action issued. *)
Theorem X5_show_hide_need_the_control (app : App) (w : World) :
  quiescent app (ui w) ->
  visible (ui w) FilterToggle = false ->
  BaseSearchPage.toggleSearchPanel app w = (Ok tt, w) /\
  (BaseSearchPage.isSearchPanelVisible w = (Ok true, w) ->
   BaseSearchPage.hideSearchPanel app w
   = (Throw TimeoutError, elapse app TIMEOUTS.ELEMENT_WAIT w)) /\
  (BaseSearchPage.isSearchPanelHidden w = (Ok true, w) ->
   BaseSearchPage.showSearchPanel app w
   = (Throw TimeoutError, elapse app TIMEOUTS.ELEMENT_WAIT w)) /\
  log (elapse app TIMEOUTS.ELEMENT_WAIT w) = log w.
Proof.
  intros Hq Hcontrol. split; [|split; [|split]].
  - now apply ToggleFacts.toggleSearchPanel_not_shown.
  - intros H. rewrite (ShowHideFacts.hideSearchPanel_on_shown app w H).
    now apply ShowHideFacts.clickElement_never_shown.
  - intros H. rewrite (ShowHideFacts.showSearchPanel_on_hidden app w H).
    now apply ShowHideFacts.clickElement_never_shown.
  - apply EngineFacts.elapse_log.
Qed.

(** X5, on a page without the panel and without its control. *)
Lemma X5_absent_panel_witness :
  BaseSearchPage.showSearchPanel Scenario.idleApp (Scenario.start Scenario.blankPage)
  = (Throw TimeoutError,
     elapse Scenario.idleApp TIMEOUTS.ELEMENT_WAIT (Scenario.start Scenario.blankPage)).
Proof.
  apply (X5_show_hide_need_the_control Scenario.idleApp (Scenario.start Scenario.blankPage));
    reflexivity.
Defined.

(** ** The default state of the form *)

Module DefaultStateFacts.
Import Js JsFacts.

Lemma blank_iff_trim_empty (v : string) :
  isEmpty (trim v) = true <-> allSpace v = true.
Proof. now rewrite isEmpty_iff, trim_empty_iff. Qed.

Lemma allInputsEmptyFrom_spec (todo i : nat) (w : World) :
  exists b,
    BaseSearchPage.allInputsEmptyFrom todo i w = (Ok b, w) /\
    (b = true <->
     forall j, i <= j < i + todo ->
               allSpace (inputValue (ui w) (Nth TextInputs j)) = true).
Proof.
  revert i. induction todo as [|todo IH]; intros i; simpl.
  - exists true. split; [reflexivity|]. split; [intros _ j Hj; lia | reflexivity].
  - unfold bind, inputValueOf.
    destruct (isEmpty (trim (inputValue (ui w) (Nth TextInputs i)))) eqn:E; simpl.
    + destruct (IH (S i)) as [b [Hrun Hb]]. exists b. split; [exact Hrun|].
      rewrite Hb. split.
      * intros H j Hj. destruct (Nat.eq_dec j i) as [-> | Hne].
        -- now apply blank_iff_trim_empty.
        -- apply H. lia.
      * intros H j Hj. apply H. lia.
    + exists false. split; [reflexivity|]. split; [discriminate|].
      intros H. assert (Hi : allSpace (inputValue (ui w) (Nth TextInputs i)) = true)
        by (apply H; lia).
      apply blank_iff_trim_empty in Hi. congruence.
Qed.

End DefaultStateFacts.

(** X6. [verifyDefaultSearchState] reads the page without changing it and
    answers true exactly when every text input of the page holds nothing
    but the white space that [trim] removes (the no-break space included):
    an input filled with blanks counts as empty, any other content in any
    input makes the answer false. *)
Theorem X6_default_state_means_blank_inputs (w : World) :
  exists b,
    BaseSearchPage.verifyDefaultSearchState w = (Ok b, w) /\
    (b = true <->
     forall i, i < count (ui w) TextInputs ->
               Js.allSpace (inputValue (ui w) (Nth TextInputs i)) = true).
Proof.
  unfold BaseSearchPage.verifyDefaultSearchState, bind, countOf.
  destruct (DefaultStateFacts.allInputsEmptyFrom_spec (count (ui w) TextInputs) 0 w)
    as [b [Hrun Hb]].
  exists b. split; [exact Hrun|]. rewrite Hb. split.
  - intros H i Hi. apply H. lia.
  - intros H j Hj. apply H. lia.
Qed.

(** ** Validation errors: the verdict and the messages *)

Module VerdictFacts.

Lemma hasAnyValidationError_run (w : World) :
  AdminUserSearchPage.hasAnyValidationError w = (Ok (validationErrorShown (ui w)), w).
Proof.
  unfold AdminUserSearchPage.hasAnyValidationError, AdminUserSearchPage.hasUsernameError,
    AdminUserSearchPage.hasEmployeeNameError, AdminUserSearchPage.isErrorToastVisible,
    BaseSearchPage.hasFieldError, tryCatch, bind, isVisible, ret, validationErrorShown.
  destruct (visible (ui w) (FieldError "Username")); reflexivity.
Qed.

Lemma keep_shown (s : Snapshot) (l : Locator) :
  keep (Js.trim (shownText s l)) <> [] -> visible s l = true.
Proof.
  intros H. destruct (visible s l) eqn:E; [reflexivity|].
  now rewrite (ErrorFacts.keep_shownText_hidden s l E) in H.
Qed.

End VerdictFacts.

(** X7. Whenever [getAllValidationErrors] returns at least one message,
    each message is the trimmed text of one of the three elements that
    [hasAnyValidationError] looks at, visible on the page, and a verdict
    that [hasAnyValidationError] returns on the same page is true.  (The
    verdict reads the fields unguarded where the collector reads them in a
    [try], so the statement is about a verdict that is returned.  The
    converse fails: a visible error element with a blank text gives the
    verdict and no message.) *)
Theorem X7_messages_imply_verdict (w : World) (errors : list string) :
  AdminUserSearchPage.getAllValidationErrors w = (Ok errors, w) ->
  errors <> [] ->
  (forall verdict w',
      AdminUserSearchPage.hasAnyValidationError w = (Ok verdict, w') -> verdict = true) /\
  (forall m, In m errors ->
     exists l, (l = FieldError "Username" \/ l = FieldError "Employee Name" \/ l = ErrorToast)
               /\ visible (ui w) l = true /\ m = Js.trim (textContent (ui w) l)).
Proof.
  intros Hrun Hne. rewrite ErrorFacts.getAllValidationErrors_run in Hrun.
  injection Hrun as <-.
  assert (Hfrom : forall m l, In m (keep (Js.trim (shownText (ui w) l))) ->
                              visible (ui w) l = true /\ m = Js.trim (textContent (ui w) l)).
  { intros m l Hin.
    assert (Hv : visible (ui w) l = true).
    { apply VerdictFacts.keep_shown. intros E. now rewrite E in Hin. }
    split; [exact Hv|]. unfold shownText in Hin. rewrite Hv in Hin.
    destruct (Js.trim (textContent (ui w) l)); simpl in Hin; [contradiction|].
    destruct Hin as [<- | []]. reflexivity. }
  assert (Hall : forall m,
             In m (keep (Js.trim (shownText (ui w) (FieldError "Username")))
                   ++ keep (Js.trim (shownText (ui w) (FieldError "Employee Name")))
                   ++ keep (Js.trim (shownText (ui w) ErrorToast)))%list ->
             exists l, (l = FieldError "Username" \/ l = FieldError "Employee Name"
                        \/ l = ErrorToast)
                       /\ visible (ui w) l = true /\ m = Js.trim (textContent (ui w) l)).
  { intros m Hin. apply in_app_or in Hin as [Hin | Hin]; [|apply in_app_or in Hin as [Hin | Hin]].
    - exists (FieldError "Username"). split; [now left | now apply Hfrom].
    - exists (FieldError "Employee Name"). split; [right; now left | now apply Hfrom].
    - exists ErrorToast. split; [right; now right | now apply Hfrom]. }
  split; [|exact Hall].
  intros verdict w' Hverdict.
  rewrite VerdictFacts.hasAnyValidationError_run in Hverdict. injection Hverdict as <- _.
  destruct (keep (Js.trim (shownText (ui w) (FieldError "Username")))
            ++ keep (Js.trim (shownText (ui w) (FieldError "Employee Name")))
            ++ keep (Js.trim (shownText (ui w) ErrorToast)))%list as [|m rest] eqn:E;
    [now elim Hne|].
  destruct (Hall m (or_introl eq_refl)) as [l [Hl [Hv _]]].
  unfold validationErrorShown.
  destruct Hl as [-> | [-> | ->]]; rewrite Hv, ?orb_true_r; reflexivity.
Qed.

(** X7, on the form with both field errors: the first message is the text
    of a visible element. *)
Lemma X7_both_fields_witness :
  exists l,
    (l = FieldError "Username" \/ l = FieldError "Employee Name" \/ l = ErrorToast) /\
    visible (ui (Scenario.start Scenario.errorsPage)) l = true /\
    "Required" = Js.trim (textContent (ui (Scenario.start Scenario.errorsPage)) l).
Proof.
  destruct (X7_messages_imply_verdict (Scenario.start Scenario.errorsPage)
              ["Required"; "Invalid"]) as [_ H].
  - reflexivity.
  - discriminate.
  - apply (H "Required"). now left.
Defined.

(** ** More on submitting a search *)

Module SubmitMoreFacts.

Lemma whenGiven_dropEmptyValue (o : option string) (k : string -> M unit) :
  whenGiven (dropEmptyValue o) k = whenGiven o k.
Proof. destruct o as [[|c r]|]; reflexivity. Qed.

Lemma given_dropEmptyValue (o : option string) : given (dropEmptyValue o) = given o.
Proof. destruct o as [[|c r]|]; reflexivity. Qed.

Section WithApp.
Variable app : App.

Lemma fillSearchCriteria_dropEmpty (criteria : Criteria) :
  AdminUserSearchPage.fillSearchCriteria app (dropEmpty criteria)
  = AdminUserSearchPage.fillSearchCriteria app criteria.
Proof.
  unfold AdminUserSearchPage.fillSearchCriteria, dropEmpty.
  cbn [employeeName username userRole status].
  now rewrite !whenGiven_dropEmptyValue.
Qed.

(** A search by a user name alone: the Username input is cleared and
    filled, nothing else. *)
Lemma fillSearchCriteria_byUsername (v : string) (w w' : World) :
  v <> "" ->
  AdminUserSearchPage.fillSearchCriteria app (Scenario.byUsername v) w = (Ok tt, w') ->
  log w' = Fill (LabelInput "Username") v :: Clear (LabelInput "Username") :: log w.
Proof.
  intros Hv. destruct v as [|c r]; [now elim Hv|].
  unfold AdminUserSearchPage.fillSearchCriteria, Scenario.byUsername, whenGiven, bind, ret.
  cbn [employeeName username userRole status Js.truthy].
  unfold AdminUserSearchPage.fillUsername, BaseSearchPage.fillTextInput, BasePage.fillInput,
    BasePage.waitForElement, bind.
  destruct (EngineFacts.waitForVisible_spec app (LabelInput "Username")
              TIMEOUTS.ELEMENT_WAIT w) as [w1 [Hl [_ [[H _] | [H _]]]]];
    rewrite H; clear H; [|discriminate].
  unfold perform. cbv beta iota. cbn [ui clock log].
  intros E. apply (f_equal snd) in E. cbn [snd] in E. subst w'. cbn [log]. now rewrite Hl.
Qed.

(** The inline check of the earlier revision is [validateSearchCriteria]. *)
Lemma legacy_searchUsers_unfold (criteria : Criteria) (w : World) :
  Legacy.searchUsers app criteria w =
  bind (AdminUserSearchPage.fillSearchCriteria app criteria)
       (fun _ => bind (waitForTimeout app 1000)
       (fun _ => bind (AdminUserSearchPage.validateSearchCriteria criteria)
       (fun invalid =>
          if invalid then ret tt
          else bind (BaseSearchPage.clickSearchButton app)
                    (fun _ => Legacy.waitForSearchResults app)))) w.
Proof.
  unfold Legacy.searchUsers.
  generalize (bind (BaseSearchPage.clickSearchButton app)
                   (fun _ => Legacy.waitForSearchResults app)).
  intros finish. unfold bind.
  destruct (AdminUserSearchPage.fillSearchCriteria app criteria w) as [[[] | e] w0];
    [|reflexivity].
  unfold waitForTimeout. generalize (elapse app 1000 w0). intros w1.
  rewrite SubmitFacts.validateSearchCriteria_run.
  unfold AdminUserSearchPage.hasEmployeeNameError, AdminUserSearchPage.hasUsernameError,
    BaseSearchPage.hasFieldError, isVisible, ret, filledFieldInvalid.
  destruct (given (employeeName criteria)); destruct (given (username criteria));
    destruct (visible (ui w1) (FieldError "Employee Name"));
    destruct (visible (ui w1) (FieldError "Username")); reflexivity.
Qed.

(** What remains of [searchUsers] once the form is filled and checked. *)
Lemma click_then_complete (w1 : World) :
  searchClicks (after (bind (BaseSearchPage.clickSearchButton app)
                            (fun _ => AdminUserSearchPage.waitForSearchCompletion app) w1))
  <= searchClicks w1 + 1.
Proof.
  unfold bind, BaseSearchPage.clickSearchButton, BasePage.clickElement,
    BasePage.waitForElement, bind.
  destruct (ActionFacts.waitForVisible_outcome app SearchButton TIMEOUTS.ELEMENT_WAIT w1)
    as [w2 [Hl [[H _] | [H _]]]]; rewrite H; clear H.
  - unfold perform. cbv beta iota.
    unfold AdminUserSearchPage.waitForSearchCompletion, tryCatch.
    rewrite WaitFacts.admin_waitForSearchComplete_returns.
    unfold after, searchClicks. cbn [snd]. rewrite EngineFacts.elapse_log. cbn [log].
    rewrite Hl. simpl. lia.
  - unfold after, searchClicks. cbn [snd]. rewrite Hl. lia.
Qed.

Lemma click_then_wait_legacy (w1 : World) :
  searchClicks (after (bind (BaseSearchPage.clickSearchButton app)
                            (fun _ => Legacy.waitForSearchResults app) w1))
  <= searchClicks w1 + 1.
Proof.
  unfold bind, BaseSearchPage.clickSearchButton, BasePage.clickElement,
    BasePage.waitForElement, bind.
  destruct (ActionFacts.waitForVisible_outcome app SearchButton TIMEOUTS.ELEMENT_WAIT w1)
    as [w2 [Hl [[H _] | [H _]]]]; rewrite H; clear H.
  - unfold perform. cbv beta iota.
    destruct (WaitFacts.legacy_waitForSearchResults_returns app
                {| ui := on_action app (Click SearchButton) (ui w2);
                   clock := clock w2; log := Click SearchButton :: log w2 |})
      as [w' [H Hl']].
    rewrite H. clear H. unfold after, searchClicks. cbn [snd]. rewrite Hl'. cbn [log].
    rewrite Hl. simpl. lia.
  - unfold after, searchClicks. cbn [snd]. rewrite Hl. lia.
Qed.

(** Fill, wait, check, then click and finish: at most one click on the
    search button. *)
Lemma submit_outcome (ms : nat) (finish : M unit) (criteria : Criteria) :
  (forall w1,
      searchClicks (after (bind (BaseSearchPage.clickSearchButton app) (fun _ => finish) w1))
      <= searchClicks w1 + 1) ->
  forall w,
    searchClicks
      (after (bind (AdminUserSearchPage.fillSearchCriteria app criteria)
                (fun _ => bind (waitForTimeout app ms)
                (fun _ => bind (AdminUserSearchPage.validateSearchCriteria criteria)
                (fun invalid =>
                   if invalid then ret tt
                   else bind (BaseSearchPage.clickSearchButton app) (fun _ => finish)))) w))
    <= searchClicks w + 1.
Proof.
  intros Hfinish w.
  pose proof (SubmitFacts.noSearchClick_fillSearchCriteria app criteria w) as Hn.
  unfold bind at 1.
  destruct (AdminUserSearchPage.fillSearchCriteria app criteria w) as [[[] | e] w0];
    unfold after in Hn; cbn [snd] in Hn.
  - unfold bind at 1. unfold waitForTimeout at 1. cbv beta iota.
    unfold bind at 1. rewrite SubmitFacts.validateSearchCriteria_run.
    assert (Hc1 : searchClicks (elapse app ms w0) = searchClicks w).
    { unfold searchClicks in *. now rewrite EngineFacts.elapse_log. }
    destruct (filledFieldInvalid criteria (ui (elapse app ms w0))).
    + unfold ret, after. cbn [snd]. lia.
    + specialize (Hfinish (elapse app ms w0)). lia.
  - unfold after. cbn [snd]. lia.
Qed.

Lemma legacy_searchUsers_submitted (criteria : Criteria) (w w0 w2 : World) :
  (AdminUserSearchPage.fillSearchCriteria app criteria ;;
   waitForTimeout app TIMEOUTS.VALIDATION_WAIT) w = (Ok tt, w0) ->
  filledFieldInvalid criteria (ui w0) = false ->
  Legacy.searchUsers app criteria w = (Ok tt, w2) ->
  log w2 = Click SearchButton :: log w0.
Proof.
  intros Hfill Hvalid.
  apply SubmitFacts.bind_ok in Hfill as [[] [wf [Hf Hw]]].
  rewrite legacy_searchUsers_unfold.
  unfold bind at 1. rewrite Hf. unfold bind at 1.
  change (waitForTimeout app 1000 wf) with (waitForTimeout app TIMEOUTS.VALIDATION_WAIT wf).
  rewrite Hw.
  unfold bind at 1. rewrite SubmitFacts.validateSearchCriteria_run, Hvalid.
  apply SubmissionFacts.click_then_legacy_wait.
Qed.

End WithApp.
End SubmitMoreFacts.

(** X8. An empty string among the criteria is the same as no criterion:
    [fillSearchCriteria] and both revisions of [searchUsers] behave on
    criteria exactly as on the criteria with the empty values left out; a
    search by an empty user name fills nothing.  Any other user name, one
    made of blanks included, is filled in: a call of [fillSearchCriteria]
    that returns normally has cleared the Username input and filled it
    with that value, and done nothing else. *)
Theorem X8_empty_criterion_is_absent (app : App) (criteria : Criteria) (w : World) :
  AdminUserSearchPage.fillSearchCriteria app criteria w
  = AdminUserSearchPage.fillSearchCriteria app (dropEmpty criteria) w /\
  AdminUserSearchPage.searchUsers app criteria w
  = AdminUserSearchPage.searchUsers app (dropEmpty criteria) w /\
  Legacy.searchUsers app criteria w = Legacy.searchUsers app (dropEmpty criteria) w /\
  AdminUserSearchPage.fillSearchCriteria app (Scenario.byUsername "") w = (Ok tt, w) /\
  (forall v w',
      v <> "" ->
      AdminUserSearchPage.fillSearchCriteria app (Scenario.byUsername v) w = (Ok tt, w') ->
      log w' = Fill (LabelInput "Username") v :: Clear (LabelInput "Username") :: log w).
Proof.
  split; [now rewrite SubmitMoreFacts.fillSearchCriteria_dropEmpty|].
  split; [|split; [|split]].
  - unfold AdminUserSearchPage.searchUsers, AdminUserSearchPage.validateSearchCriteria.
    rewrite SubmitMoreFacts.fillSearchCriteria_dropEmpty.
    unfold dropEmpty. cbn [employeeName username userRole status].
    now rewrite !SubmitMoreFacts.given_dropEmptyValue.
  - unfold Legacy.searchUsers.
    rewrite SubmitMoreFacts.fillSearchCriteria_dropEmpty.
    unfold dropEmpty. cbn [employeeName username userRole status].
    now rewrite !SubmitMoreFacts.given_dropEmptyValue.
  - reflexivity.
  - intros v w' Hv. apply SubmitMoreFacts.fillSearchCriteria_byUsername. exact Hv.
Qed.

(** X9. When, the criteria filled in and the validation wait over, no
    error shows under a field that the criteria fill, a call of
    [searchUsers] that returns normally has clicked the search button
    exactly once, after the check, and has issued no other action since
    the form was filled; so has a call of the earlier revision. *)
Theorem X9_valid_criteria_submit_once
  (app : App) (criteria : Criteria) (w w1 : World) :
  (AdminUserSearchPage.fillSearchCriteria app criteria ;;
   waitForTimeout app TIMEOUTS.VALIDATION_WAIT) w = (Ok tt, w1) ->
  filledFieldInvalid criteria (ui w1) = false ->
  (forall w2,
      AdminUserSearchPage.searchUsers app criteria w = (Ok tt, w2) ->
      log w2 = Click SearchButton :: log w1 /\ searchClicks w2 = searchClicks w + 1) /\
  (forall w2,
      Legacy.searchUsers app criteria w = (Ok tt, w2) ->
      log w2 = Click SearchButton :: log w1 /\ searchClicks w2 = searchClicks w + 1).
Proof.
  intros Hfill Hvalid.
  assert (Hclicks1 : searchClicks w1 = searchClicks w).
  { pose proof Hfill as Hfill'.
    apply SubmitFacts.bind_ok in Hfill' as [[] [w0 [Hf Hw]]].
    pose proof (SubmitFacts.noSearchClick_fillSearchCriteria app criteria w) as Hn.
    rewrite Hf in Hn. unfold after in Hn. cbn [snd] in Hn. rewrite <- Hn.
    apply EngineFacts.waitForTimeout_inv in Hw as [_ ->].
    unfold searchClicks. now rewrite EngineFacts.elapse_log. }
  assert (Hcount : forall w2, log w2 = Click SearchButton :: log w1 ->
                              searchClicks w2 = searchClicks w + 1).
  { intros w2 Hl. rewrite <- Hclicks1. unfold searchClicks. rewrite Hl. simpl. lia. }
  split; intros w2 Hrun.
  - destruct (SubmissionFacts.searchUsers_submitted app criteria w w1 w2 Hfill Hvalid Hrun)
      as [wc [Hl [_ ->]]].
    pose proof (SubmissionFacts.searchClicked_log app wc w1 Hl) as Hlog.
    split; [exact Hlog | now apply Hcount].
  - pose proof (SubmitMoreFacts.legacy_searchUsers_submitted app criteria w w1 w2
                  Hfill Hvalid Hrun) as Hlog.
    split; [exact Hlog | now apply Hcount].
Qed.

(** X9, on a search by username on the bare form. *)
Lemma X9_username_search_witness :
  searchClicks (after (AdminUserSearchPage.searchUsers Scenario.idleApp
                         (Scenario.byUsername "Admin")
                         (Scenario.start Scenario.formOnlyPage))) = 0 + 1.
Proof.
  destruct (X9_valid_criteria_submit_once Scenario.idleApp (Scenario.byUsername "Admin")
              (Scenario.start Scenario.formOnlyPage)
              (after ((AdminUserSearchPage.fillSearchCriteria Scenario.idleApp
                         (Scenario.byUsername "Admin") ;;
                       waitForTimeout Scenario.idleApp TIMEOUTS.VALIDATION_WAIT)
                        (Scenario.start Scenario.formOnlyPage))))
    as [H _].
  - apply EngineFacts.ok_run. vm_compute. reflexivity.
  - vm_compute. reflexivity.
  - refine (proj2 (H _ _)). apply EngineFacts.ok_run. vm_compute. reflexivity.
Defined.

(** X10. Whatever the criteria, the page and the outcome, one call of
    [searchUsers], in either revision, clicks the search button at most
    once. *)
Theorem X10_searchUsers_clicks_at_most_once (app : App) (criteria : Criteria) :
  atMostOneSearchClick (AdminUserSearchPage.searchUsers app criteria) /\
  atMostOneSearchClick (Legacy.searchUsers app criteria).
Proof.
  split; intros w.
  - unfold AdminUserSearchPage.searchUsers.
    apply (SubmitMoreFacts.submit_outcome app TIMEOUTS.VALIDATION_WAIT
             (AdminUserSearchPage.waitForSearchCompletion app) criteria
             (SubmitMoreFacts.click_then_complete app) w).
  - rewrite SubmitMoreFacts.legacy_searchUsers_unfold.
    apply (SubmitMoreFacts.submit_outcome app 1000
             (Legacy.waitForSearchResults app) criteria
             (SubmitMoreFacts.click_then_wait_legacy app) w).
Qed.

(** ** The no-records message *)

Module MessageFacts.
Import Js JsFacts.

(** The three ways [getNoRecordsFoundMessage] ends. *)
Lemma getNoRecordsFoundMessage_cases (w : World) :
  exists message,
    AdminUserSearchPage.getNoRecordsFoundMessage w = (Ok message, w) /\
    ((visible (ui w) NoRecordsFound = true /\
      includes (textContent (ui w) NoRecordsFound) "No Records Found" = true /\
      message = trim (textContent (ui w) NoRecordsFound) /\ message <> "") \/
     (visible (ui w) NoRecordsFound
      && includes (textContent (ui w) NoRecordsFound) "No Records Found" = false /\
      toastSignal (ui w) = true /\
      message = trim (textContent (ui w) ToastMessage) /\ message <> "") \/
     (visible (ui w) NoRecordsFound
      && includes (textContent (ui w) NoRecordsFound) "No Records Found" = false /\
      toastSignal (ui w) = false /\ message = "")).
Proof.
  unfold AdminUserSearchPage.getNoRecordsFoundMessage,
    AdminUserSearchPage.getToastMessage, AdminUserSearchPage.isToastMessageVisible,
    tryCatch, bind, isVisible, ret, textContentOf, toastSignal.
  cbv beta iota.
  destruct (visible (ui w) NoRecordsFound) eqn:Hm;
    destruct (includes (textContent (ui w) NoRecordsFound) "No Records Found") eqn:Hi;
    destruct (visible (ui w) ToastMessage) eqn:Hv;
    destruct (includes (toLowerCase (textContent (ui w) ToastMessage)) "no records found")
      eqn:Ht;
    cbv beta iota;
    try rewrite (ReadFacts.includes_truthy _ _ _ _ eq_refl Hi);
    try rewrite (ReadFacts.marker_text_truthy _ Ht);
    rewrite ?andb_false_r; cbn [andb isEmpty truthy negb]; cbv beta iota;
    rewrite ?Hv, ?Ht; cbv beta iota;
    try rewrite (ReadFacts.marker_text_truthy _ Ht);
    rewrite ?andb_false_r; cbn [andb isEmpty truthy negb]; cbv beta iota;
    try (pose proof (ReadFacts.trim_of_exact_marker_text _ Hi) as Hne;
         destruct (trim (textContent (ui w) NoRecordsFound)) as [|c r] eqn:Et;
         [now elim Hne|]; cbn [isEmpty truthy negb];
         eexists; split; [reflexivity|]; left; repeat split; auto; discriminate);
    eexists; (split; [reflexivity|]); right;
    try (left; repeat split; auto; now apply ReadFacts.trim_of_marker_text);
    right; repeat split; auto.
Qed.

End MessageFacts.

(** X11. [getNoRecordsFoundMessage] reads the page without changing it.
    Its message is non-empty exactly when the page reports no match (the
    marker with its exact text, or a toast mentioning it), and then
    [hasNoRecordsFound] is true as well; when both signals are there the
    message is the trimmed text of the marker, the toast being read only
    when the marker gave nothing. *)
Theorem X11_message_follows_the_signals (w : World) :
  exists message,
    AdminUserSearchPage.getNoRecordsFoundMessage w = (Ok message, w) /\
    (message <> "" <-> reportsNoMatch (ui w) = true) /\
    (message <> "" -> AdminUserSearchPage.hasNoRecordsFound w = (Ok true, w)) /\
    (visible (ui w) NoRecordsFound = true ->
     Js.includes (textContent (ui w) NoRecordsFound) "No Records Found" = true ->
     message = Js.trim (textContent (ui w) NoRecordsFound)).
Proof.
  destruct (MessageFacts.getNoRecordsFoundMessage_cases w) as [message [Hrun Hcases]].
  exists message. split; [exact Hrun|].
  assert (Hiff : message <> "" <-> reportsNoMatch (ui w) = true).
  { unfold reportsNoMatch.
    destruct Hcases as [[Hm [Hi [Hmsg Hne]]] | [[Hno [Ht [Hmsg Hne]]] | [Hno [Ht Hmsg]]]].
    - rewrite Hm, Hi. simpl. tauto.
    - rewrite Hno, Ht. simpl. tauto.
    - rewrite Hno, Ht, Hmsg. simpl. split; [intros H; now elim H | discriminate]. }
  split; [exact Hiff|]. split.
  - intros Hne. apply Hiff in Hne.
    unfold AdminUserSearchPage.hasNoRecordsFound.
    rewrite ReadFacts.isNoRecordsFoundDisplayed_run.
    now rewrite (ReadFacts.reportsNoMatch_signals _ Hne).
  - intros Hm Hi.
    destruct Hcases as [[_ [_ [Hmsg _]]] | [[Hno _] | [Hno _]]]; [exact Hmsg | |];
      rewrite Hm, Hi in Hno; discriminate.
Qed.

(** ** The two revisions of the visibility test *)

Module RevisionFacts.
Import Js.

Lemma legacy_isSearchPanelVisible_run (w : World) :
  Legacy.isSearchPanelVisible w =
  (Ok match count (ui w) SearchPanel with
      | O => false
      | S _ =>
          match styleAttr (ui w) SearchPanel with
          | AttrThrows => false
          | AttrNull => true
          | AttrValue s => negb (includes (toLowerCase s) "display:none")
          end
      end, w).
Proof.
  unfold Legacy.isSearchPanelVisible, tryCatch, bind, countOf, getStyle, ret.
  destruct (count (ui w) SearchPanel) as [|n]; [reflexivity|]. simpl.
  destruct (styleAttr (ui w) SearchPanel) as [| |s]; try reflexivity.
  destruct s as [|c r]; reflexivity.
Qed.

Lemma current_isSearchPanelVisible_run (w : World) :
  BaseSearchPage.isSearchPanelVisible w =
  (Ok match count (ui w) SearchPanel with
      | O => false
      | S _ =>
          match styleAttr (ui w) SearchPanel with
          | AttrThrows => false
          | AttrNull => true
          | AttrValue s => negb (BaseSearchPage.hasDisplayNone s)
          end
      end, w).
Proof.
  destruct (count (ui w) SearchPanel) as [|n] eqn:E.
  - now apply PanelFacts.isSearchPanelVisible_absent.
  - rewrite PanelFacts.isSearchPanelVisible_present by lia. reflexivity.
Qed.

End RevisionFacts.

(** X12. On every page both revisions of [isSearchPanelVisible] return,
    and a panel the current revision reports visible was reported visible
    by the earlier one; they disagree exactly on a present panel whose
    lower-cased style holds [display: none] but not [display:none], which
    only the current revision reports hidden. *)
Theorem X12_current_revision_hides_more (w : World) :
  exists earlier current,
    Legacy.isSearchPanelVisible w = (Ok earlier, w) /\
    BaseSearchPage.isSearchPanelVisible w = (Ok current, w) /\
    (current = true -> earlier = true) /\
    (earlier <> current <->
     0 < count (ui w) SearchPanel /\
     exists s, styleAttr (ui w) SearchPanel = AttrValue s /\
               Js.includes (Js.toLowerCase s) "display:none" = false /\
               Js.includes (Js.toLowerCase s) "display: none" = true).
Proof.
  eexists _, _. split; [apply RevisionFacts.legacy_isSearchPanelVisible_run|].
  split; [apply RevisionFacts.current_isSearchPanelVisible_run|].
  destruct (count (ui w) SearchPanel) as [|n].
  - split; [discriminate|]. split; [intros H; now elim H | intros [H _]; lia].
  - destruct (styleAttr (ui w) SearchPanel) as [| |s].
    + split; [discriminate|].
      split; [intros H; now elim H | intros [_ [s [H _]]]; discriminate].
    + split; [reflexivity|].
      split; [intros H; now elim H | intros [_ [s [H _]]]; discriminate].
    + unfold BaseSearchPage.hasDisplayNone.
      destruct (Js.includes (Js.toLowerCase s) "display:none") eqn:E1;
        destruct (Js.includes (Js.toLowerCase s) "display: none") eqn:E2; simpl.
      * split; [discriminate|]. split; [intros H; now elim H|].
        intros [_ [s' [Hs [H1 _]]]]. injection Hs as <-. congruence.
      * split; [discriminate|]. split; [intros H; now elim H|].
        intros [_ [s' [Hs [H1 _]]]]. injection Hs as <-. congruence.
      * split; [discriminate|]. split; [intros _ | discriminate].
        split; [lia|]. now exists s.
      * split; [reflexivity|]. split; [intros H; now elim H|].
        intros [_ [s' [Hs [_ H2]]]]. injection Hs as <-. congruence.
Qed.

(** ** Waiting for the no-records signal *)



(** ** The login page *)

Module LoginFacts.
Import Js JsFacts.

Lemma endsWith_spec (s suffix : string) :
  endsWith s suffix = true <-> exists pre, s = pre ++ suffix.
Proof.
  induction s as [|c r IH]; cbn [endsWith].
  - rewrite orb_false_r, String.eqb_eq. split.
    + intros <-. now exists "".
    + intros [pre H]. destruct pre; [exact H | discriminate].
  - rewrite orb_true_iff, String.eqb_eq, IH. split.
    + intros [<- | [pre ->]]; [now exists "" | now exists (String c pre)].
    + intros [pre H]. destruct pre as [|x pre].
      * left. exact H.
      * right. injection H as _ ->. now exists pre.
Qed.

Section WithApp.
Variable app : App.

(** A fill either happens in full or not at all. *)
Lemma fillInput_outcome (l : Locator) (text : string) (t : nat) (w : World) :
  exists r w',
    BasePage.fillInput app l text t w = (r, w') /\
    ((r = Ok tt /\ log w' = Fill l text :: Clear l :: log w) \/
     (r = Throw TimeoutError /\ log w' = log w)).
Proof.
  unfold BasePage.fillInput, BasePage.waitForElement, bind.
  destruct (ActionFacts.waitForVisible_outcome app l t w)
    as [w1 [Hl [[H _] | [H _]]]]; rewrite H; clear H.
  - eexists _, _. split; [reflexivity|]. left. split; [reflexivity|].
    cbn [perform log]. now rewrite Hl.
  - eexists _, _. split; [reflexivity|]. right. auto.
Qed.

Lemma clickElement_outcome (l : Locator) (t : nat) (w : World) :
  exists r w',
    BasePage.clickElement app l t w = (r, w') /\
    ((r = Ok tt /\ log w' = Click l :: log w) \/
     (r = Throw TimeoutError /\ log w' = log w)).
Proof.
  unfold BasePage.clickElement, BasePage.waitForElement, bind.
  destruct (ActionFacts.waitForVisible_outcome app l t w)
    as [w1 [Hl [[H _] | [H _]]]]; rewrite H; clear H.
  - eexists _, _. split; [reflexivity|]. left. split; [reflexivity|].
    cbn [perform log]. now rewrite Hl.
  - eexists _, _. split; [reflexivity|]. right. auto.
Qed.

End WithApp.

Lemma someElementVisible_run (l : Locator) (indices : list nat) (w : World) :
  LoginPage.someElementVisible (map (Nth l) indices) w
  = (Ok (existsb (fun i => visible (ui w) (Nth l i)) indices), w).
Proof.
  induction indices as [|i rest IH]; simpl; [reflexivity|].
  unfold bind, isVisible. destruct (visible (ui w) (Nth l i)); [reflexivity | exact IH].
Qed.

Lemma collectErrorMessages_run
  (l : Locator) (indices : list nat) (acc : list string) (w : World) :
  LoginPage.collectErrorMessages (map (Nth l) indices) acc w =
  (Ok (acc ++ flat_map (fun i => keep (trim (shownText (ui w) (Nth l i)))) indices)%list, w).
Proof.
  revert acc. induction indices as [|i rest IH]; intros acc; simpl.
  - unfold ret. now rewrite app_nil_r.
  - unfold bind, isVisible, textContentOf, shownText.
    destruct (visible (ui w) (Nth l i)).
    + rewrite IH, ErrorFacts.pushError_keep. now rewrite <- app_assoc.
    + rewrite IH. reflexivity.
Qed.

Lemma kept_messages_proper (s : Snapshot) (l : Locator) (indices : list nat) :
  Forall properMessage
         (flat_map (fun i => keep (trim (shownText s (Nth l i)))) indices).
Proof.
  induction indices as [|i rest IH]; simpl; [constructor|].
  apply Forall_app. split; [|exact IH].
  exact (ErrorFacts.keep_trim_not_blank (shownText s (Nth l i))).
Qed.

Lemma kept_messages_length (s : Snapshot) (l : Locator) (indices : list nat) :
  length (flat_map (fun i => keep (trim (shownText s (Nth l i)))) indices)
  <= length indices.
Proof.
  induction indices as [|i rest IH]; simpl; [lia|].
  rewrite length_app. destruct (trim (shownText s (Nth l i))); simpl; lia.
Qed.

Lemma kept_messages_shown (s : Snapshot) (l : Locator) (indices : list nat) :
  flat_map (fun i => keep (trim (shownText s (Nth l i)))) indices <> [] ->
  existsb (fun i => visible s (Nth l i)) indices = true.
Proof.
  induction indices as [|i rest IH]; simpl; [intros H; now elim H|].
  intros H. destruct (visible s (Nth l i)) eqn:E; [reflexivity|]. simpl.
  apply IH. now rewrite (ErrorFacts.keep_shownText_hidden s _ E) in H.
Qed.

End LoginFacts.

(** X14. [login] issues its actions in one order only: clear and fill the
    username, clear and fill the password, click the login button.  When it
    returns normally all five have been issued; when a wait times out, the
    actions issued are a prefix of that sequence ending with a complete
    fill, and the login button has not been clicked. *)
Theorem X14_login_actions_in_order
  (app : App) (this : LoginPage.Fields) (user password : string) (w : World) :
  let fillUser := [ Fill (LoginPage.usernameInput this) user;
                    Clear (LoginPage.usernameInput this) ] in
  let fillPass := [ Fill (LoginPage.passwordInput this) password;
                    Clear (LoginPage.passwordInput this) ] in
  exists r w',
    LoginPage.login app this user password w = (r, w') /\
    ((r = Ok tt /\
      log w' = (Click (LoginPage.loginButton this) :: fillPass ++ fillUser ++ log w)%list) \/
     (r = Throw TimeoutError /\
      (log w' = log w \/
       log w' = (fillUser ++ log w)%list \/
       log w' = (fillPass ++ fillUser ++ log w)%list))).
Proof.
  cbv zeta. unfold LoginPage.login, LoginPage.fillUsername, LoginPage.fillPassword,
    LoginPage.clickLoginButton, bind.
  destruct (LoginFacts.fillInput_outcome app (LoginPage.usernameInput this) user
              TIMEOUTS.ELEMENT_WAIT w) as [r1 [w1 [H1 [[-> Hl1] | [-> Hl1]]]]];
    rewrite H1; clear H1;
    [|eexists _, _; split; [reflexivity|]; right; split; [reflexivity | now left]].
  destruct (LoginFacts.fillInput_outcome app (LoginPage.passwordInput this) password
              TIMEOUTS.ELEMENT_WAIT w1) as [r2 [w2 [H2 [[-> Hl2] | [-> Hl2]]]]];
    rewrite H2; clear H2;
    [|eexists _, _; split; [reflexivity|]; right; split; [reflexivity|];
      right; left; rewrite Hl2, Hl1; reflexivity].
  destruct (LoginFacts.clickElement_outcome app (LoginPage.loginButton this)
              TIMEOUTS.ELEMENT_WAIT w2) as [r3 [w3 [H3 [[-> Hl3] | [-> Hl3]]]]];
    rewrite H3; clear H3; eexists _, _; (split; [reflexivity|]).
  - left. split; [reflexivity|]. rewrite Hl3, Hl2, Hl1. reflexivity.
  - right. split; [reflexivity|]. right. right. rewrite Hl3, Hl2, Hl1. reflexivity.
Qed.

(** X15. [getFieldErrorMessages] reads the page without changing it and
    returns, in document order, the trimmed text of each field-error
    element that is visible and whose text is not blank: no message is
    empty or blank, there are at most as many messages as elements, and a
    non-empty result implies that [isFieldErrorMessageVisible] is true. *)
Theorem X15_field_error_messages (this : LoginPage.Fields) (w : World) :
  let errors := LoginPage.fieldErrorMessage this in
  exists messages,
    LoginPage.getFieldErrorMessages this w = (Ok messages, w) /\
    messages = flat_map (fun i => keep (Js.trim (shownText (ui w) (Nth errors i))))
                        (seq 0 (count (ui w) errors)) /\
    Forall properMessage messages /\
    length messages <= count (ui w) errors /\
    (messages <> [] -> LoginPage.isFieldErrorMessageVisible this w = (Ok true, w)).
Proof.
  cbv zeta. unfold LoginPage.getFieldErrorMessages, LoginPage.isFieldErrorMessageVisible,
    bind, allOf.
  rewrite LoginFacts.collectErrorMessages_run, LoginFacts.someElementVisible_run.
  cbn [app]. eexists. split; [reflexivity|]. split; [reflexivity|].
  split; [apply LoginFacts.kept_messages_proper|]. split.
  - pose proof (LoginFacts.kept_messages_length (ui w) (LoginPage.fieldErrorMessage this)
                  (seq 0 (count (ui w) (LoginPage.fieldErrorMessage this)))) as H.
    now rewrite length_seq in H.
  - intros H. now rewrite (LoginFacts.kept_messages_shown _ _ _ H).
Qed.

(** X16. On a login page at rest, [isErrorMessageVisible] and
    [getErrorMessage] both return and leave the page as it is.  With the
    alert visible the message is the text of the alert; without it, the
    message is the first field-error message, or the empty string when
    there is none.  A non-empty message is never returned while
    [isErrorMessageVisible] is false. *)
Theorem X16_error_message_and_verdict
  (app : App) (this : LoginPage.Fields) (w : World) :
  quiescent app (ui w) ->
  exists shown message,
    settles (LoginPage.isErrorMessageVisible app this) w shown /\
    settles (LoginPage.getErrorMessage app this) w message /\
    (message <> "" -> shown = true) /\
    (visible (ui w) (LoginPage.errorMessage this) = true ->
     message = textContent (ui w) (LoginPage.errorMessage this)) /\
    (visible (ui w) (LoginPage.errorMessage this) = false ->
     exists messages,
       LoginPage.getFieldErrorMessages this w = (Ok messages, w) /\
       message = hd "" messages).
Proof.
  intros Hq.
  destruct (EngineFacts.settles_isElementVisible app (LoginPage.errorMessage this) w Hq)
    as [w1 [Hrun [Hu Hl]]].
  set (alert := LoginPage.errorMessage this) in *.
  set (errors := LoginPage.fieldErrorMessage this).
  set (indices := seq 0 (count (ui w) errors)).
  set (messages :=
         flat_map (fun i => keep (Js.trim (shownText (ui w) (Nth errors i)))) indices).
  assert (Hfield : forall w0, ui w0 = ui w ->
             LoginPage.getFieldErrorMessages this w0 = (Ok messages, w0)).
  { intros w0 H0. unfold LoginPage.getFieldErrorMessages, bind, allOf.
    rewrite LoginFacts.collectErrorMessages_run. rewrite H0. reflexivity. }
  assert (Hany : forall w0, ui w0 = ui w ->
             LoginPage.isFieldErrorMessageVisible this w0
             = (Ok (existsb (fun i => visible (ui w) (Nth errors i)) indices), w0)).
  { intros w0 H0. unfold LoginPage.isFieldErrorMessageVisible, bind, allOf.
    rewrite LoginFacts.someElementVisible_run. rewrite H0. reflexivity. }
  destruct (visible (ui w) alert) eqn:Hv.
  - exists true, (textContent (ui w) alert).
    split; [|split; [|split; [|split]]].
    + exists w1. unfold LoginPage.isErrorMessageVisible, bind. fold alert.
      rewrite Hrun. auto.
    + exists w1. unfold LoginPage.getErrorMessage, bind. fold alert. rewrite Hrun.
      unfold BasePage.getText, BasePage.waitForElement, bind.
      rewrite EngineFacts.waitForVisible_now by (now rewrite Hu).
      unfold textContentOf. rewrite Hu. auto.
    + reflexivity.
    + reflexivity.
    + discriminate.
  - exists (existsb (fun i => visible (ui w) (Nth errors i)) indices), (hd "" messages).
    split; [|split; [|split; [|split]]].
    + exists w1. unfold LoginPage.isErrorMessageVisible, bind. fold alert.
      rewrite Hrun, (Hany w1 Hu). auto.
    + exists w1. unfold LoginPage.getErrorMessage, bind. fold alert.
      rewrite Hrun, (Hfield w1 Hu). unfold ret.
      destruct messages; auto.
    + intros Hne. apply LoginFacts.kept_messages_shown. fold messages.
      intros E. rewrite E in Hne. now elim Hne.
    + discriminate.
    + intros _. exists messages. split; [now apply Hfield | reflexivity].
Qed.

(** X16, on the login form after a rejected attempt. *)
Lemma X16_rejected_login_witness :
  exists shown message,
    settles (LoginPage.isErrorMessageVisible Scenario.idleApp Scenario.loginFields)
            (Scenario.start Scenario.rejectedLoginPage) shown /\
    settles (LoginPage.getErrorMessage Scenario.idleApp Scenario.loginFields)
            (Scenario.start Scenario.rejectedLoginPage) message /\
    (message <> "" -> shown = true).
Proof.
  destruct (X16_error_message_and_verdict Scenario.idleApp Scenario.loginFields
              (Scenario.start Scenario.rejectedLoginPage) eq_refl)
    as [shown [message [H1 [H2 [H3 _]]]]].
  exists shown, message. auto.
Defined.

(** X17. [isOnLoginPage] holds of a URL exactly when the URL contains
    [/login] or ends with a slash, whatever its path: a dashboard URL with
    a trailing slash is taken for the login page, while [isOnDashboardPage]
    holds of it too. *)
Theorem X17_trailing_slash_is_login (currentUrl origin : string) :
  (LoginPage.isOnLoginPage currentUrl = true <->
   (exists pre post, currentUrl = pre ++ "/login" ++ post) \/
   (exists pre, currentUrl = pre ++ "/")) /\
  LoginPage.isOnLoginPage (origin ++ "/dashboard/") = true /\
  DashboardPage.isOnDashboardPage (origin ++ "/dashboard/") = true.
Proof.
  unfold LoginPage.isOnLoginPage, DashboardPage.isOnDashboardPage.
  split; [|split].
  - now rewrite orb_true_iff, JsFacts.includes_spec, LoginFacts.endsWith_spec.
  - apply orb_true_iff. right. apply LoginFacts.endsWith_spec.
    exists (origin ++ "/dashboard"). rewrite JsFacts.append_assoc. reflexivity.
  - apply JsFacts.includes_spec. exists origin, "/". reflexivity.
Qed.
